(** * go2_ros2_sdk: the relay bridge, the robot session and the telemetry
      decoder, embedded from the Python sources

    Python values that travel through the code (decoded JSON, message
    payloads, exception arguments) are the inductive [pyval]; a Python
    [float] is an IEEE-754 datum [spec_float], so that NaN and the two
    infinities are ordinary constructors.  A call that may raise returns a
    [pyresult]; a [try ... except Exception] block is [try_except].  Only
    subclasses of [Exception] are modelled: [BaseException]s that are not
    [Exception]s (task cancellation, keyboard interrupt) pass through every
    handler of the source and are outside this development. *)

From Stdlib Require Import String Ascii List ZArith Bool Lia.
From Stdlib Require Import Floats.SpecFloat DecimalString.
Import ListNotations.
Local Open Scope string_scope.
Local Open Scope Z_scope.
Local Open Scope list_scope.
Set Warnings "-register-all".

(** ** Python values *)

Inductive pyval : Type :=
| PNone
| PBool (b : bool)
| PInt (z : Z)
| PFloat (f : spec_float)
| PStr (s : string)
| PList (items : list pyval)
| PDict (entries : list (string * pyval)).

(** [v == "literal"] for an arbitrary value [v]. *)
Definition py_eq_str (v : pyval) (s : string) : bool :=
  match v with
  | PStr t => String.eqb t s
  | _ => false
  end.

(** Association-list reading of a [dict]: one binding per key, as
    [json.loads] leaves it. *)
Fixpoint assoc_get (entries : list (string * pyval)) (k : string) : option pyval :=
  match entries with
  | [] => None
  | (k', v) :: rest => if String.eqb k' k then Some v else assoc_get rest k
  end.

(** ** Exceptions *)

Inductive exn_class : Type :=
| StateException
| ValueError
| KeyError
| IndexError
| RuntimeError
| TimeoutError
| AsyncioTimeoutError
| TypeError
| AttributeError
| OverflowError
| JSONDecodeError
| InvalidStateError
| Go2ConnectionError
| WebRTCHttpError
| EncryptionError
| HTTPException (status_code : Z)
| PlainException
| OtherException (name : string).

(** An exception instance built with one argument, [Cls(arg)]. *)
Record pyexn : Type := Exn { exn_cls : exn_class; exn_arg : pyval }.

Inductive pyresult (A : Type) : Type :=
| Ok (a : A)
| Raise (e : pyexn).
Arguments Ok {A} a.
Arguments Raise {A} e.

Definition bind {A B : Type} (r : pyresult A) (k : A -> pyresult B) : pyresult B :=
  match r with
  | Ok a => k a
  | Raise e => Raise e
  end.

Notation "x <- r ;; k" := (bind r (fun x => k))
  (at level 61, r at next level, right associativity).

(** [try: body  except Exception as e: handler(e)]. *)
Definition try_except {A : Type} (body : pyresult A) (handler : pyexn -> A) : A :=
  match body with
  | Ok a => a
  | Raise e => handler e
  end.

Definition raises {A : Type} (r : pyresult A) : bool :=
  match r with
  | Ok _ => false
  | Raise _ => true
  end.

(** [v[k]] with a string key. *)
Definition subscript (v : pyval) (k : string) : pyresult pyval :=
  match v with
  | PDict entries =>
      match assoc_get entries k with
      | Some x => Ok x
      | None => Raise (Exn KeyError (PStr k))
      end
  | _ => Raise (Exn TypeError (PStr "object is not subscriptable by str"))
  end.

(** [v.get(k, default)]: only a [dict] has the method. *)
Definition py_get (v : pyval) (k : string) (default : pyval) : pyresult pyval :=
  match v with
  | PDict entries =>
      match assoc_get entries k with
      | Some x => Ok x
      | None => Ok default
      end
  | _ => Raise (Exn AttributeError (PStr "object has no attribute 'get'"))
  end.

(** ** Floats: [math.isfinite] and [float()] *)

Definition float_isfinite (f : spec_float) : bool :=
  match f with
  | S754_zero _ | S754_finite _ _ _ => true
  | S754_infinity _ | S754_nan => false
  end.

(** [float(z)] for an [int]: nearest binary64, [OverflowError] beyond the
    range. *)
Definition int_to_float (z : Z) : pyresult spec_float :=
  match binary_normalize 53 1024 z 0 false with
  | S754_infinity _ => Raise (Exn OverflowError (PStr "int too large to convert to float"))
  | f => Ok f
  end.

Definition float_zero : spec_float := S754_zero false.

(** [isinstance(x, (int, float)) and math.isfinite(x)]; [bool] is an [int]. *)
Definition is_finite_number (x : pyval) : pyresult bool :=
  match x with
  | PBool _ => Ok true
  | PInt z => _f <- int_to_float z ;; Ok true
  | PFloat f => Ok (float_isfinite f)
  | _ => Ok false
  end.

(** [all(isinstance(x, (int, float)) and math.isfinite(x) for x in items)]:
    stops at the first element that fails. *)
Fixpoint all_finite_numbers (items : list pyval) : pyresult bool :=
  match items with
  | [] => Ok true
  | x :: rest =>
      b <- is_finite_number x ;;
      if b then all_finite_numbers rest else Ok false
  end.

(** What iterating a value yields, [TypeError] when it is not iterable:
    a [str] yields its characters, a [dict] its keys. *)
Fixpoint chars_of (s : string) : list pyval :=
  match s with
  | EmptyString => []
  | String c rest => PStr (String c EmptyString) :: chars_of rest
  end.

Definition py_iter (v : pyval) : pyresult (list pyval) :=
  match v with
  | PList items => Ok items
  | PStr s => Ok (chars_of s)
  | PDict entries => Ok (map (fun kv => PStr (fst kv)) entries)
  | _ => Raise (Exn TypeError (PStr "object is not iterable"))
  end.

(** ** go2_message_parsers.py *)

Definition _validated_float_list (data : pyval) : pyresult pyval :=
  items <- py_iter data ;;
  ok <- all_finite_numbers items ;;
  if ok then Ok data
  else Raise (Exn ValueError (PStr "list was not all floats or finite.")).

Definition _validated_float (value : pyval) : pyresult spec_float :=
  ok <- is_finite_number value ;;
  if ok then
    match value with
    | PFloat f => Ok f
    | PInt z => int_to_float z
    | PBool b => int_to_float (if b then 1 else 0)
    | _ => Raise (Exn TypeError (PStr "float() argument must be a string or a real number"))
    end
  else Raise (Exn ValueError (PStr "value isn't int or float")).

(** *** Telemetry records (domain/entities/robot_data.py is a set of plain
    dataclasses; the fields are the keyword arguments the parsers pass) *)

Record OdometryData : Type := mkOdometryData {
  odom_position : pyval;
  odom_orientation : pyval
}.

Record RobotState : Type := mkRobotState {
  mode : pyval;
  progress : pyval;
  gait_type : pyval;
  position : pyval;
  body_height : spec_float;
  velocity : pyval;
  range_obstacle : pyval;
  foot_force : pyval;
  foot_position_body : pyval;
  foot_speed_body : pyval
}.

Record IMUData : Type := mkIMUData {
  quaternion : pyval;
  accelerometer : pyval;
  gyroscope : pyval;
  rpy : pyval;
  temperature : pyval
}.

Record JointData : Type := mkJointData { motor_state : pyval }.

Record LidarData : Type := mkLidarData {
  positions : pyval;
  uvs : pyval;
  resolution : pyval;
  origin : list pyval;
  stamp : pyval;
  width : pyval;
  src_size : pyval;
  compressed_data : pyval
}.

(** What a data channel delivers: text, a binary frame, or (the handler is
    typed [Any]) something else. *)
Inductive message : Type :=
| MsgStr (s : string)
| MsgBytes (b : list Byte.byte)
| MsgOther (v : pyval).

Record RobotData : Type := mkRobotData {
  robot_id : string;
  timestamp : spec_float;
  lidar_data : option LidarData;
  odometry_data : option OdometryData;
  robot_state : option RobotState;
  imu_data : option IMUData;
  joint_data : option JointData;
  raw_message : option message
}.

(** [RobotData(robot_id=..., timestamp=0.0)]. *)
Definition new_robot_data (rid : string) : RobotData :=
  mkRobotData rid float_zero None None None None None None.

Definition set_raw_message (rd : RobotData) (m : message) : RobotData :=
  mkRobotData (robot_id rd) (timestamp rd) (lidar_data rd) (odometry_data rd)
    (robot_state rd) (imu_data rd) (joint_data rd) (Some m).

Definition parse_odometry_data (data : pyval) : option OdometryData :=
  try_except
    (pose_data <- subscript data "pose" ;;
     position <- subscript pose_data "position" ;;
     orientation <- subscript pose_data "orientation" ;;
     px <- subscript position "x" ;;
     py <- subscript position "y" ;;
     pz <- subscript position "z" ;;
     ox <- subscript orientation "x" ;;
     oy <- subscript orientation "y" ;;
     oz <- subscript orientation "z" ;;
     ow <- subscript orientation "w" ;;
     ok <- all_finite_numbers ([px; py; pz] ++ [ox; oy; oz; ow]) ;;
     if ok then Ok (Some (mkOdometryData position orientation))
     else Raise (Exn ValueError (PStr "Invalid odometry data - skipping")))
    (fun _ => None).

Definition parse_sport_mode_state (data : pyval) : option (RobotState * IMUData) :=
  try_except
    (v_mode <- subscript data "mode" ;;
     v_progress <- subscript data "progress" ;;
     v_gait_type <- subscript data "gait_type" ;;
     d_position <- subscript data "position" ;;
     v_position <- _validated_float_list d_position ;;
     d_body_height <- subscript data "body_height" ;;
     v_body_height <- _validated_float d_body_height ;;
     v_velocity <- subscript data "velocity" ;;
     d_range_obstacle <- subscript data "range_obstacle" ;;
     v_range_obstacle <- _validated_float_list d_range_obstacle ;;
     v_foot_force <- subscript data "foot_force" ;;
     d_foot_position_body <- subscript data "foot_position_body" ;;
     v_foot_position_body <- _validated_float_list d_foot_position_body ;;
     d_foot_speed_body <- subscript data "foot_speed_body" ;;
     v_foot_speed_body <- _validated_float_list d_foot_speed_body ;;
     let robot_state :=
       mkRobotState v_mode v_progress v_gait_type v_position v_body_height
         v_velocity v_range_obstacle v_foot_force v_foot_position_body
         v_foot_speed_body in
     imu_dict <- subscript data "imu_state" ;;
     d_quaternion <- subscript imu_dict "quaternion" ;;
     v_quaternion <- _validated_float_list d_quaternion ;;
     d_accelerometer <- subscript imu_dict "accelerometer" ;;
     v_accelerometer <- _validated_float_list d_accelerometer ;;
     d_gyroscope <- subscript imu_dict "gyroscope" ;;
     v_gyroscope <- _validated_float_list d_gyroscope ;;
     d_rpy <- subscript imu_dict "rpy" ;;
     v_rpy <- _validated_float_list d_rpy ;;
     v_temperature <- subscript imu_dict "temperature" ;;
     let imu_data :=
       mkIMUData v_quaternion v_accelerometer v_gyroscope v_rpy v_temperature in
     Ok (Some (robot_state, imu_data)))
    (fun _ => None).

(** The [except] branch has no [return]: the function yields [None]. *)
Definition parse_low_state (low_state_data : pyval) : option JointData :=
  try_except
    (v <- subscript low_state_data "motor_state" ;; Ok (Some (mkJointData v)))
    (fun _ => None).

Definition default_origin : pyval :=
  PList [PFloat float_zero; PFloat float_zero; PFloat float_zero].

Definition parse_lidar_data (msg : pyval) : option LidarData :=
  try_except
    (decoded_data <- subscript msg "decoded_data" ;;
     match decoded_data with
     | PNone => Ok None
     | _ =>
         data <- subscript msg "data" ;;
         v_positions <- subscript decoded_data "positions" ;;
         v_uvs <- py_get decoded_data "uvs" PNone ;;
         v_resolution <- py_get data "resolution" (PFloat float_zero) ;;
         d_origin <- py_get data "origin" default_origin ;;
         v_origin <- py_iter d_origin ;;
         v_stamp <- py_get data "stamp" (PFloat float_zero) ;;
         v_width <- py_get data "width" PNone ;;
         v_src_size <- py_get data "src_size" PNone ;;
         v_compressed <- py_get msg "compressed_data" PNone ;;
         Ok (Some (mkLidarData v_positions v_uvs v_resolution v_origin v_stamp
                     v_width v_src_size v_compressed))
     end)
    (fun _ => None).

(** ** What the repository imports

    The standard library's [json], [repr], [hashlib] and [base64], the
    point-cloud decoder [deal_array_buffer] and the topic table
    [RTC_TOPIC] are not code of the modules embedded here; every
    definition that calls them takes them from one record.  So is
    [asyncio.TimeoutError]: a class of its own up to Python 3.10, the
    built-in [TimeoutError] itself from Python 3.11 on. *)

Record Externals : Type := mkExternals {
  json_loads : string -> pyresult pyval;
  json_dumps : pyval -> string;
  py_repr : pyval -> string;
  md5_hexdigest : string -> string;
  hex_to_base64 : string -> string;
  legacy_deal_array_buffer : list Byte.byte -> bool -> pyresult (option pyval);
  RTC_TOPIC : string -> string;
  asyncio_timeout_is_builtin : bool
}.

(** ** Effects: state, exceptions and an event trace *)

Inductive log_level : Type := WARNING | ERROR.

Inductive resource_kind : Type := PeerConnectionRes | DataChannelRes | HttpClientRes.

Inductive event : Type :=
| EvLog (lvl : log_level) (text : string) (cause : option pyexn)
| EvOnOpen
| EvOnValidated (robot_num : string)
| EvOnMessage (rd : RobotData)
| EvClose (what : resource_kind) (id : nat)
| EvNewGo2Connection (robot_ip : string)
| EvHandshake (robot_ip : string)
| EvNewPeerConnection (id : nat)
| EvTrackStop (id : nat)
| EvCreateTask (coroutine : string).

(** A computation over a mutable object of type [S]: it returns or raises,
    leaves the object in a new state either way, and appends to the trace
    (warnings and errors logged, callbacks invoked, resources touched;
    debug and info lines are not recorded). *)
Definition eff (S A : Type) : Type := S -> pyresult A * S * list event.

Definition ret {S A : Type} (a : A) : eff S A := fun s => (Ok a, s, []).

Definition raise {S A : Type} (e : pyexn) : eff S A := fun s => (Raise e, s, []).

Definition ebind {S A B : Type} (m : eff S A) (k : A -> eff S B) : eff S B :=
  fun s =>
    match m s with
    | (Ok a, s1, t1) =>
        match k a s1 with
        | (r, s2, t2) => (r, s2, t1 ++ t2)
        end
    | (Raise e, s1, t1) => (Raise e, s1, t1)
    end.

Notation "x <~ m ;; k" := (ebind m (fun x => k))
  (at level 61, m at next level, right associativity).
Notation "m ;;; k" := (ebind m (fun _ => k))
  (at level 61, right associativity).

Definition get {S : Type} : eff S S := fun s => (Ok s, s, []).
Definition put {S : Type} (s' : S) : eff S unit := fun _ => (Ok tt, s', []).
Definition emit {S : Type} (ev : event) : eff S unit := fun s => (Ok tt, s, [ev]).
Definition lift {S A : Type} (r : pyresult A) : eff S A := fun s => (r, s, []).

(** [try: body  except Exception as e: handler(e)] with effects: what the
    body did before raising stays done. *)
Definition try_eff {S A : Type} (body : eff S A) (handler : pyexn -> eff S A) : eff S A :=
  fun s =>
    match body s with
    | (Ok a, s1, t1) => (Ok a, s1, t1)
    | (Raise e, s1, t1) =>
        match handler e s1 with
        | (r, s2, t2) => (r, s2, t1 ++ t2)
        end
    end.

Definition result_of {S A : Type} (x : pyresult A * S * list event) : pyresult A := fst (fst x).
Definition state_of {S A : Type} (x : pyresult A * S * list event) : S := snd (fst x).
Definition trace_of {S A : Type} (x : pyresult A * S * list event) : list event := snd x.

(** ** [str(exc)] *)

Definition py_str (ext : Externals) (v : pyval) : string :=
  match v with
  | PStr s => s
  | _ => py_repr ext v
  end.

(** [KeyError.__str__] is the [repr] of the key; Starlette's
    [HTTPException] prints status and detail. *)
Definition str_exn (ext : Externals) (e : pyexn) : string :=
  match exn_cls e with
  | KeyError => py_repr ext (exn_arg e)
  | HTTPException status =>
      (DecimalString.NilZero.string_of_int (Z.to_int status) ++ ": "
         ++ py_str ext (exn_arg e))%string
  | _ => py_str ext (exn_arg e)
  end.

(** ** go2_message_parsers.py, continued *)

Definition parse_datachannel_message {S : Type} (ext : Externals) (raw_message : string)
  : eff S pyval :=
  match json_loads ext raw_message with
  | Ok v => ret v
  | Raise e =>
      match exn_cls e with
      | JSONDecodeError =>
          emit (EvLog WARNING "Failed to decode JSON message" None) ;;;
          raise (Exn ValueError (PStr "Failed to decode JSON message"))
      | _ =>
          emit (EvLog WARNING "go2 datachannel message had unexcepted form." None) ;;;
          raise (Exn ValueError (PStr "Failed to decode JSON message"))
      end
  end.

Definition set_lidar (rd : RobotData) (v : option LidarData) : RobotData :=
  mkRobotData (robot_id rd) (timestamp rd) v (odometry_data rd)
    (robot_state rd) (imu_data rd) (joint_data rd) (raw_message rd).

Definition set_odometry (rd : RobotData) (v : option OdometryData) : RobotData :=
  mkRobotData (robot_id rd) (timestamp rd) (lidar_data rd) v
    (robot_state rd) (imu_data rd) (joint_data rd) (raw_message rd).

Definition set_state_imu (rd : RobotData) (p : RobotState * IMUData) : RobotData :=
  mkRobotData (robot_id rd) (timestamp rd) (lidar_data rd) (odometry_data rd)
    (Some (fst p)) (Some (snd p)) (joint_data rd) (raw_message rd).

Definition set_joint (rd : RobotData) (v : option JointData) : RobotData :=
  mkRobotData (robot_id rd) (timestamp rd) (lidar_data rd) (odometry_data rd)
    (robot_state rd) (imu_data rd) v (raw_message rd).

Definition process_webrtc_message (ext : Externals) (msg : pyval) (rid : string)
  : pyresult (option RobotData) :=
  ty <- subscript msg "type" ;;
  if negb (py_eq_str ty "msg") then Ok None
  else
    topic <- subscript msg "topic" ;;
    let robot_data := new_robot_data rid in
    if py_eq_str topic (RTC_TOPIC ext "ULIDAR_ARRAY") then
      Ok (Some (set_lidar robot_data (parse_lidar_data msg)))
    else if py_eq_str topic (RTC_TOPIC ext "ROBOTODOM") then
      data <- subscript msg "data" ;;
      Ok (Some (set_odometry robot_data (parse_odometry_data data)))
    else if py_eq_str topic (RTC_TOPIC ext "LF_SPORT_MOD_STATE") then
      data <- subscript msg "data" ;;
      match parse_sport_mode_state data with
      | Some p => Ok (Some (set_state_imu robot_data p))
      | None => Ok (Some robot_data)
      end
    else if py_eq_str topic (RTC_TOPIC ext "LOW_STATE") then
      data <- subscript msg "data" ;;
      Ok (Some (set_joint robot_data (parse_low_state data)))
    else Ok None.

(** ** Transport objects (aiortc, httpx)

    Each object carries, next to its state, how the library will answer
    when the code calls it ([*_fault], [*_result]): the code under study
    cannot tell in advance, so every statement quantifies over them. *)

Inductive ready_state : Type := RS_connecting | RS_open | RS_closing | RS_closed.

Definition is_open (r : ready_state) : bool :=
  match r with
  | RS_open => true
  | _ => false
  end.

Record DataChannel : Type := mkDataChannel {
  dc_id : nat;
  readyState : ready_state;
  dc_sent : list message;
  dc_close_fault : option pyexn
}.

Definition set_ready (dc : DataChannel) (r : ready_state) : DataChannel :=
  mkDataChannel (dc_id dc) r (dc_sent dc) (dc_close_fault dc).

(** [RTCDataChannel.send]: [InvalidStateError] unless open, [ValueError]
    for a payload that is neither [str] nor [bytes]. *)
Definition dc_append (dc : DataChannel) (m : message) : DataChannel :=
  mkDataChannel (dc_id dc) (readyState dc) (dc_sent dc ++ [m]) (dc_close_fault dc).

Definition dc_send (m : message) : eff DataChannel unit :=
  fun dc =>
    if is_open (readyState dc) then
      match m with
      | MsgOther _ => (Raise (Exn ValueError (PStr "Cannot send unsupported data type")), dc, [])
      | _ => (Ok tt, dc_append dc m, [])
      end
    else (Raise (Exn InvalidStateError PNone), dc, []).

Definition dc_close : eff DataChannel unit :=
  fun dc =>
    match dc_close_fault dc with
    | Some e => (Raise e, dc, [EvClose DataChannelRes (dc_id dc)])
    | None => (Ok tt, set_ready dc RS_closed, [EvClose DataChannelRes (dc_id dc)])
    end.

Record SessionDescription : Type := mkSessionDescription {
  sdp : string;
  sd_type : string
}.

Record PeerConnection : Type := mkPeerConnection {
  pc_id : nat;
  pc_closed : bool;
  pc_tracks : list nat;
  pc_remote_description : option SessionDescription;
  pc_local_description : option SessionDescription;
  pc_close_fault : option pyexn;
  pc_add_track_fault : option pyexn;
  pc_set_remote_fault : option pyexn;
  pc_create_answer_result : pyresult SessionDescription;
  pc_set_local_fault : option pyexn
}.

Definition fail_if {S : Type} (fault : option pyexn) : eff S unit :=
  match fault with
  | Some e => raise e
  | None => ret tt
  end.

Definition pc_update (pc : PeerConnection) (closed : bool) (tracks : list nat)
    (remote local : option SessionDescription) : PeerConnection :=
  mkPeerConnection (pc_id pc) closed tracks remote local (pc_close_fault pc)
    (pc_add_track_fault pc) (pc_set_remote_fault pc) (pc_create_answer_result pc)
    (pc_set_local_fault pc).

Definition pc_close : eff PeerConnection unit :=
  fun pc =>
    match pc_close_fault pc with
    | Some e => (Raise e, pc, [EvClose PeerConnectionRes (pc_id pc)])
    | None =>
        (Ok tt,
         pc_update pc true (pc_tracks pc) (pc_remote_description pc) (pc_local_description pc),
         [EvClose PeerConnectionRes (pc_id pc)])
    end.

Definition pc_add_track (track : nat) : eff PeerConnection unit :=
  fun pc =>
    match pc_add_track_fault pc with
    | Some e => (Raise e, pc, [])
    | None =>
        (Ok tt,
         pc_update pc (pc_closed pc) (pc_tracks pc ++ [track]) (pc_remote_description pc)
           (pc_local_description pc), [])
    end.

Definition pc_set_remote_description (d : SessionDescription) : eff PeerConnection unit :=
  fun pc =>
    match pc_set_remote_fault pc with
    | Some e => (Raise e, pc, [])
    | None =>
        (Ok tt,
         pc_update pc (pc_closed pc) (pc_tracks pc) (Some d) (pc_local_description pc), [])
    end.

Definition pc_create_answer : eff PeerConnection SessionDescription :=
  fun pc => (pc_create_answer_result pc, pc, []).

Definition pc_set_local_description (d : SessionDescription) : eff PeerConnection unit :=
  fun pc =>
    match pc_set_local_fault pc with
    | Some e => (Raise e, pc, [])
    | None =>
        (Ok tt,
         pc_update pc (pc_closed pc) (pc_tracks pc) (pc_remote_description pc) (Some d), [])
    end.

Record HttpClient : Type := mkHttpClient {
  http_id : nat;
  http_closed : bool;
  http_close_fault : option pyexn
}.

Definition http_close : eff HttpClient unit :=
  fun h =>
    match http_close_fault h with
    | Some e => (Raise e, h, [EvClose HttpClientRes (http_id h)])
    | None => (Ok tt, mkHttpClient (http_id h) true (http_close_fault h),
               [EvClose HttpClientRes (http_id h)])
    end.

(** ** go2_connection.py *)

(** A registered callback: the relay's own closures are named, any other
    callable is known by whether it returns or raises. *)
Inductive on_validated_cb : Type :=
| RelayOnValidated (topics_to_subscribe_to : list string)
| UserOnValidated (run : string -> pyresult unit).

Inductive on_message_cb : Type :=
| RelayOnMessage
| UserOnMessage (run : RobotData -> pyresult unit).

Record Go2Connection : Type := mkGo2Connection {
  pc : PeerConnection;
  robot_ip : string;
  robot_num : string;
  token : string;
  is_validated : bool;
  on_validated : option on_validated_cb;
  on_message : option on_message_cb;
  on_open : option (pyresult unit);
  on_video_frame : bool;
  decode_lidar : bool;
  _decode_message : bool;
  http_client : HttpClient;
  data_channel : DataChannel
}.

Definition with_pc (c : Go2Connection) (p : PeerConnection) : Go2Connection :=
  mkGo2Connection p (robot_ip c) (robot_num c) (token c) (is_validated c)
    (on_validated c) (on_message c) (on_open c) (on_video_frame c) (decode_lidar c)
    (_decode_message c) (http_client c) (data_channel c).

Definition with_is_validated (c : Go2Connection) (b : bool) : Go2Connection :=
  mkGo2Connection (pc c) (robot_ip c) (robot_num c) (token c) b
    (on_validated c) (on_message c) (on_open c) (on_video_frame c) (decode_lidar c)
    (_decode_message c) (http_client c) (data_channel c).

Definition with_http_client (c : Go2Connection) (h : HttpClient) : Go2Connection :=
  mkGo2Connection (pc c) (robot_ip c) (robot_num c) (token c) (is_validated c)
    (on_validated c) (on_message c) (on_open c) (on_video_frame c) (decode_lidar c)
    (_decode_message c) h (data_channel c).

Definition with_data_channel (c : Go2Connection) (d : DataChannel) : Go2Connection :=
  mkGo2Connection (pc c) (robot_ip c) (robot_num c) (token c) (is_validated c)
    (on_validated c) (on_message c) (on_open c) (on_video_frame c) (decode_lidar c)
    (_decode_message c) (http_client c) d.

(** Run a computation on one attribute of an object. *)
Definition focus {S T A : Type} (read : S -> T) (write : S -> T -> S) (m : eff T A)
  : eff S A :=
  fun s =>
    match m (read s) with
    | (r, t', tr) => (r, write s t', tr)
    end.

Definition on_channel {A : Type} (m : eff DataChannel A) : eff Go2Connection A :=
  focus data_channel with_data_channel m.

(** [Go2Connection(...)]: the peer connection, its data channel and the
    HTTP client are the fresh objects the libraries hand out. *)
Definition Go2Connection_init (new_pc : PeerConnection) (new_dc : DataChannel)
    (new_http : HttpClient) (ip : string) (num : string) (tok : string)
    (cb_validated : option on_validated_cb) (cb_message : option on_message_cb)
    (cb_open : option (pyresult unit)) (cb_video : bool)
    (dec_lidar dec_message : bool) : Go2Connection :=
  mkGo2Connection new_pc ip num tok false cb_validated cb_message cb_open cb_video
    dec_lidar dec_message new_http new_dc.

(** [if self.on_open: self.on_open()] *)
Definition call_on_open : eff Go2Connection unit :=
  c <~ get ;;
  match on_open c with
  | Some run => emit EvOnOpen ;;; lift run
  | None => ret tt
  end.

(** The data-channel state is forced open if needed (a workaround in the
    source, through the private setter [_setReadyState]).  The setter
    stores the state and then fires the channel's "open" event, for which
    [__init__] registered [on_data_channel_open]: that call finds the
    channel open and goes on to [on_open].  What [on_open] raises leaves
    the setter, with the state already stored. *)
Definition force_open : eff Go2Connection unit :=
  c <~ get ;;
  if is_open (readyState (data_channel c)) then ret tt
  else
    put (with_data_channel c (set_ready (data_channel c) RS_open)) ;;;
    call_on_open.

Definition on_data_channel_open : eff Go2Connection unit :=
  force_open ;;;
  call_on_open.

(** The empty topic of control messages. *)
Definition no_topic : pyval := PStr EmptyString.

Definition payload (msg_type : string) (topic : pyval) (data : pyval) : pyval :=
  PDict [("type", PStr msg_type); ("topic", topic); ("data", data)].

Definition publish (ext : Externals) (topic : pyval) (data : pyval) (msg_type : string)
  : eff Go2Connection unit :=
  try_eff
    (let payload_str := json_dumps ext (payload msg_type topic data) in
     on_channel (dc_send (MsgStr payload_str)))
    (fun e => emit (EvLog ERROR "Failed to publish message" (Some e))).

Definition publish_json_str (json_str : string) : eff Go2Connection unit :=
  try_eff
    (c <~ get ;;
     if negb (is_open (readyState (data_channel c))) then
       emit (EvLog WARNING "Data channel is not open." None)
     else on_channel (dc_send (MsgStr json_str)))
    (fun e => emit (EvLog ERROR "Failed to publish message" (Some e))).

(** [ValidationCrypto.encrypt_key]: text of the prefixed key, MD5 hex
    digest, hex to base64 (the mock server's [_ValidationCryptoServer]
    mirrors it line by line). *)
Definition encrypt_key (ext : Externals) (key : pyval) : string :=
  hex_to_base64 ext (md5_hexdigest ext ("UnitreeGo2_" ++ py_str ext key)%string).

Definition call_on_validated (cb : on_validated_cb) (num : string) : eff Go2Connection unit :=
  emit (EvOnValidated num) ;;;
  match cb with
  | RelayOnValidated _ => ret tt
  | UserOnValidated run => lift (run num)
  end.

Definition call_on_message (cb : on_message_cb) (rd : RobotData) : eff Go2Connection unit :=
  emit (EvOnMessage rd) ;;;
  match cb with
  | RelayOnMessage => ret tt
  | UserOnMessage run => lift (run rd)
  end.

Definition validate_robot_conn (ext : Externals) (msg : pyval) : eff Go2Connection unit :=
  try_eff
    (if py_eq_str msg "Validation Ok." then
       publish ext no_topic (PStr "on") "vid" ;;;
       c <~ get ;;
       put (with_is_validated c true) ;;;
       match on_validated c with
       | Some cb => call_on_validated cb (robot_num c)
       | None => ret tt
       end
     else
       let validation_key := msg in
       let encrypted_key := encrypt_key ext validation_key in
       publish ext no_topic (PStr encrypted_key) "validation")
    (fun e => emit (EvLog ERROR "Error in robot validation" (Some e))).

(** The tail of [on_data_channel_message], after the validation gate. *)
Definition hand_over (cb : on_message_cb) (robot_data : option RobotData) (m : message)
  : eff Go2Connection unit :=
  match robot_data with
  | Some rd => call_on_message cb (set_raw_message rd m)
  | None => ret tt
  end.

Definition dispatch_message (ext : Externals) (m : message) (raw_message_obj : option pyval)
  : eff Go2Connection unit :=
  c <~ get ;;
  match on_message c with
  | None => ret tt
  | Some cb =>
      if negb (_decode_message c) then
        call_on_message cb (set_raw_message (new_robot_data (robot_num c)) m)
      else
        match m with
        | MsgStr s =>
            obj <~ match raw_message_obj with
                   | Some o => ret o
                   | None => parse_datachannel_message ext s
                   end ;;
            robot_data <~ lift (process_webrtc_message ext obj (robot_num c)) ;;
            hand_over cb robot_data m
        | MsgBytes b =>
            lidar_frame <~ lift (legacy_deal_array_buffer ext b (decode_lidar c)) ;;
            match lidar_frame with
            | Some frame =>
                robot_data <~ lift (process_webrtc_message ext frame (robot_num c)) ;;
                hand_over cb robot_data m
            | None => hand_over cb None m
            end
        | MsgOther _ =>
            emit (EvLog WARNING "unknown message type receieved from on_message callback." None)
        end
  end.

Definition on_data_channel_message_body (ext : Externals) (m : message)
  : eff Go2Connection unit :=
  force_open ;;;
  c <~ get ;;
  match m with
  | MsgStr s =>
      if negb (is_validated c) then
        raw_message_obj <~ parse_datachannel_message ext s ;;
        ty <~ lift (subscript raw_message_obj "type") ;;
        if py_eq_str ty "validation" then
          data <~ lift (subscript raw_message_obj "data") ;;
          validate_robot_conn ext data
        else dispatch_message ext m (Some raw_message_obj)
      else dispatch_message ext m None
  | _ => dispatch_message ext m None
  end.

Definition on_data_channel_message (ext : Externals) (m : message)
  : eff Go2Connection unit :=
  try_eff (on_data_channel_message_body ext m)
    (fun e => emit (EvLog ERROR "Error processing data channel message" (Some e))).

(** *** [connect]: what the robot and the libraries answer at each stage of
    the handshake is an input. *)

Inductive key_response : Type := KeyNoResponse | KeyNoData1 | KeyReceived.
Inductive sdp_response : Type := SdpNoResponse | SdpAnswered.

Record Handshake : Type := mkHandshake {
  hs_local_offer : pyresult unit;
  hs_public_key : pyresult key_response;
  hs_exchange : pyresult sdp_response
}.

Definition is_http_or_encryption_error (e : pyexn) : bool :=
  match exn_cls e with
  | WebRTCHttpError | EncryptionError => true
  | _ => false
  end.

(** [except (WebRTCHttpError, EncryptionError) as e: raise Go2ConnectionError(...)] *)
Definition rewrap (ext : Externals) (prefix : string) (e : pyexn) : pyexn :=
  if is_http_or_encryption_error e
  then Exn Go2ConnectionError (PStr (prefix ++ str_exn ext e)%string)
  else e.

Definition connect_stages (ext : Externals) (hs : Handshake) : pyresult unit :=
  _offer <- hs_local_offer hs ;;
  _key <- match hs_public_key hs with
          | Ok KeyNoResponse =>
              Raise (Exn Go2ConnectionError (PStr "Failed to get public key response"))
          | Ok KeyNoData1 =>
              Raise (Exn Go2ConnectionError (PStr "No data1 field in public key response"))
          | Ok KeyReceived => Ok tt
          | Raise e => Raise (rewrap ext "Failed to get robot public key: " e)
          end ;;
  match hs_exchange hs with
  | Ok SdpNoResponse => Raise (Exn Go2ConnectionError (PStr "Failed to send encrypted SDP"))
  | Ok SdpAnswered => Ok tt
  | Raise e => Raise (rewrap ext "Failed to complete encrypted handshake: " e)
  end.

Definition go2_connect (ext : Externals) (hs : Handshake) : eff Go2Connection unit :=
  c <~ get ;;
  emit (EvHandshake (robot_ip c)) ;;;
  match connect_stages ext hs with
  | Ok tt => ret tt
  | Raise e =>
      match exn_cls e with
      | Go2ConnectionError => raise e
      | _ => raise (Exn Go2ConnectionError
                      (PStr ("Unexpected error during connection: " ++ str_exn ext e)%string))
      end
  end.

Definition go2_disconnect : eff Go2Connection unit :=
  try_eff (focus pc with_pc pc_close)
    (fun e => emit (EvLog ERROR "error closing peer connection" (Some e))) ;;;
  try_eff (on_channel dc_close)
    (fun e => emit (EvLog ERROR "error closing peer connection datachannel" (Some e))) ;;;
  try_eff (focus http_client with_http_client http_close)
    (fun e => emit (EvLog ERROR "error closing http client" (Some e))).

(** ** webrtc_relay_app_state.py *)

Record VideoTrack : Type := mkVideoTrack { track_id : nat; track_stopped : bool }.

Record WebRTCRelayAppState : Type := mkAppState {
  go2 : option Go2Connection;
  relay_rtc_peer_connection : option PeerConnection;
  relay_rtc_data_channel : option DataChannel;
  go2_video_track : option VideoTrack
}.

Definition empty_app_state : WebRTCRelayAppState := mkAppState None None None None.

Definition with_go2 (st : WebRTCRelayAppState) (g : option Go2Connection) :=
  mkAppState g (relay_rtc_peer_connection st) (relay_rtc_data_channel st) (go2_video_track st).

Definition with_relay_pc (st : WebRTCRelayAppState) (p : option PeerConnection) :=
  mkAppState (go2 st) p (relay_rtc_data_channel st) (go2_video_track st).

Definition with_relay_dc (st : WebRTCRelayAppState) (d : option DataChannel) :=
  mkAppState (go2 st) (relay_rtc_peer_connection st) d (go2_video_track st).

Definition with_video_track (st : WebRTCRelayAppState) (t : option VideoTrack) :=
  mkAppState (go2 st) (relay_rtc_peer_connection st) (relay_rtc_data_channel st) t.

(** Run a method of an attribute that is known to hold an object. *)
Definition on_some {S T A : Type} (write : S -> option T -> S) (obj : T) (m : eff T A)
  : eff S A :=
  fun s =>
    match m obj with
    | (r, obj', tr) => (r, write s (Some obj'), tr)
    end.

(** [try: close  except Exception: warn  finally: attribute = None] *)
Definition close_rtc_relay_connection : eff WebRTCRelayAppState unit :=
  (st <~ get ;;
   match relay_rtc_peer_connection st with
   | Some p =>
       try_eff (on_some with_relay_pc p pc_close)
         (fun e => emit (EvLog WARNING "failed to close existing relay rtc peer connection." (Some e))) ;;;
       st1 <~ get ;;
       put (with_relay_pc st1 None)
   | None => ret tt
   end) ;;;
  st <~ get ;;
  match relay_rtc_data_channel st with
  | Some d =>
      try_eff (on_some with_relay_dc d dc_close)
        (fun e => emit (EvLog WARNING "failed to close existing relay rtc peer data connection." (Some e))) ;;;
      st1 <~ get ;;
      put (with_relay_dc st1 None)
  | None => ret tt
  end.

(** ** webrtc_relay_exceptions.py: the state-conflict errors the handlers raise *)

Definition already_connected : pyexn :=
  Exn StateException
    (PStr "Already connected to Go2, call disconnect first before calling connect again").

Definition not_connected_yet : pyexn :=
  Exn StateException
    (PStr "connection to the go2 hasn't been established yet, call /connect first").

Definition offer_failed : pyexn :=
  Exn StateException (PStr "Failed to create relay rtc sessiondescriptionprotocol (SDP)").

(** ** webrtc_relay_endpoint_go2.py *)

Definition _on_go2_message (robot_data : RobotData) : eff WebRTCRelayAppState unit :=
  st <~ get ;;
  match relay_rtc_data_channel st with
  | None => ret tt
  | Some dc =>
      if negb (is_open (readyState dc)) then ret tt
      else
        try_eff
          (match raw_message robot_data with
           | Some (MsgBytes b) => on_some with_relay_dc dc (dc_send (MsgBytes b))
           | Some (MsgStr s) => on_some with_relay_dc dc (dc_send (MsgStr s))
           | _ => ret tt
           end)
          (fun e => emit (EvLog WARNING "Failed to JSON-serialize GO2 message" (Some e)))
  end.

Definition subscribe_message (ext : Externals) (topic : string) : message :=
  MsgStr (json_dumps ext (PDict [("type", PStr "subscribe"); ("topic", PStr topic)])).

Fixpoint subscribe_all (ext : Externals) (topics : list string) : eff Go2Connection unit :=
  match topics with
  | [] => ret tt
  | topic :: rest =>
      on_channel (dc_send (subscribe_message ext topic)) ;;;
      subscribe_all ext rest
  end.

(** [create_task] only schedules [disableTrafficSaving]; it runs after the
    callback has returned. *)
Definition _on_go2_validated (ext : Externals) (topics_to_subscribe_to : list string)
  : eff WebRTCRelayAppState unit :=
  try_eff
    (st <~ get ;;
     match go2 st with
     | Some g =>
         emit (EvCreateTask "disableTrafficSaving") ;;;
         on_some with_go2 g
           (subscribe_all ext topics_to_subscribe_to ;;;
            publish ext (PStr (RTC_TOPIC ext "ULIDAR_SWITCH")) (PStr "on") "msg")
     | None => ret tt
     end)
    (fun e => emit (EvLog ERROR "Error in validated callback" (Some e))).

Definition _on_go2_video_track (track : VideoTrack) : eff WebRTCRelayAppState unit :=
  st <~ get ;;
  (match go2_video_track st with
   | Some old => emit (EvTrackStop (track_id old))
   | None => ret tt
   end) ;;;
  st1 <~ get ;;
  put (with_video_track st1 (Some track)).

Record ConnectArgs : Type := mkConnectArgs {
  arg_robot_ip : string;
  arg_robot_num : Z;
  arg_token : string;
  arg_topics_to_subscribe_to : list string
}.

Record ConnectReply : Type := mkConnectReply { reply_robot_ip : string }.

(** The objects a new [Go2Connection] is built from. *)
Record FreshObjects : Type := mkFreshObjects {
  fresh_pc : PeerConnection;
  fresh_dc : DataChannel;
  fresh_http : HttpClient
}.

Definition str_of_int (z : Z) : string := NilZero.string_of_int (Z.to_int z).

(** The session [connect] builds before the handshake. *)
Definition relay_session (fresh : FreshObjects) (args : ConnectArgs) : Go2Connection :=
  Go2Connection_init (fresh_pc fresh) (fresh_dc fresh) (fresh_http fresh)
    (arg_robot_ip args) (str_of_int (arg_robot_num args)) (arg_token args)
    (Some (RelayOnValidated (arg_topics_to_subscribe_to args)))
    (Some RelayOnMessage) (Some (Ok tt)) true false false.

Definition connect (ext : Externals) (fresh : FreshObjects) (hs : Handshake)
    (args : ConnectArgs) : eff WebRTCRelayAppState ConnectReply :=
  st <~ get ;;
  match go2 st with
  | Some _ => raise already_connected
  | None =>
      emit (EvNewGo2Connection (arg_robot_ip args)) ;;;
      fun st0 =>
        match go2_connect ext hs (relay_session fresh args) with
        | (Ok _, connected, tr) =>
            (Ok (mkConnectReply (arg_robot_ip args)), with_go2 st0 (Some connected), tr)
        | (Raise e, _, tr) =>
            (Raise (Exn (HTTPException 502)
                      (PStr ("GO2 connect failed: " ++ str_exn ext e)%string)), st0, tr)
        end
  end.

Definition disconnect : eff WebRTCRelayAppState unit :=
  (st <~ get ;;
   match relay_rtc_peer_connection st with
   | Some p =>
       on_some with_relay_pc p pc_close ;;;
       st1 <~ get ;;
       put (with_relay_dc (with_relay_pc st1 None) None)
   | None => ret tt
   end) ;;;
  st <~ get ;;
  match go2 st with
  | Some g =>
      on_some with_go2 g go2_disconnect ;;;
      st1 <~ get ;;
      put (with_video_track (with_go2 st1 None) None)
  | None => ret tt
  end.

(** ** webrtc_relay_endpoint_webrtc.py *)

Definition _on_datachannel_message (msg : message) : eff WebRTCRelayAppState unit :=
  st <~ get ;;
  match go2 st with
  | None => emit (EvLog WARNING "go2 has no data_channel connected to send message to" None)
  | Some g =>
      match msg with
      | MsgStr s => on_some with_go2 g (publish_json_str s)
      | _ => emit (EvLog WARNING "Got unexpected data type in datachannel" None)
      end
  end.

Definition _on_datachannel (channel : DataChannel) : eff WebRTCRelayAppState unit :=
  st <~ get ;;
  put (with_relay_dc st (Some channel)).

(** A method call on [new_relay_peer_connection]: the local name and
    [state.relay_rtc_peer_connection] are one object. *)
Definition on_relay_pc {A : Type} (m : eff PeerConnection A) : eff WebRTCRelayAppState A :=
  st <~ get ;;
  match relay_rtc_peer_connection st with
  | Some p => on_some with_relay_pc p m
  | None => raise (Exn AttributeError (PStr "'NoneType' object has no attribute"))
  end.

(** The [try] block of [offer]. *)
Definition establish_relay_session (ext : Externals) (new_pc : pyresult PeerConnection)
    (offered : SessionDescription) : eff WebRTCRelayAppState SessionDescription :=
  new_relay_peer_connection <~ lift new_pc ;;
  emit (EvNewPeerConnection (pc_id new_relay_peer_connection)) ;;;
  st1 <~ get ;;
  put (with_relay_pc st1 (Some new_relay_peer_connection)) ;;;
  (match go2_video_track st1 with
   | Some track => on_relay_pc (pc_add_track (track_id track))
   | None => ret tt
   end) ;;;
  on_relay_pc (pc_set_remote_description offered) ;;;
  answer <~ on_relay_pc pc_create_answer ;;
  on_relay_pc (pc_set_local_description answer) ;;;
  try_eff
    (st2 <~ get ;;
     match go2 st2 with
     | Some g => on_some with_go2 g (publish ext no_topic (PStr "on") "vid")
     | None => ret tt
     end)
    (fun _ => ret tt) ;;;
  st3 <~ get ;;
  match relay_rtc_peer_connection st3 with
  | Some p =>
      match pc_local_description p with
      | Some d => ret (mkSessionDescription (sdp d) (sd_type d))
      | None => raise (Exn AttributeError (PStr "'NoneType' object has no attribute 'sdp'"))
      end
  | None => raise (Exn AttributeError (PStr "'NoneType' object has no attribute"))
  end.

(** Its [except Exception] clause. *)
Definition reraise_as_state_exception (e : pyexn)
  : eff WebRTCRelayAppState SessionDescription :=
  emit (EvLog WARNING "Failed to create relay rtc sessiondescriptionprotocol (SDP)."
          (Some e)) ;;;
  raise offer_failed.

Definition offer (ext : Externals) (new_pc : pyresult PeerConnection)
    (offered : SessionDescription) : eff WebRTCRelayAppState SessionDescription :=
  st <~ get ;;
  match go2 st with
  | None => raise not_connected_yet
  | Some _ =>
      close_rtc_relay_connection ;;;
      try_eff (establish_relay_session ext new_pc offered) reraise_as_state_exception
  end.

(** *** The wiring [connect] installs

    [on_message=lambda robot_data: _on_go2_message(state, robot_data)] and
    [on_validated=lambda _: _on_go2_validated(state, topics)]: both are the
    last action of the connection method that calls them, so running them
    on the relay state right after that method is the same sequence of
    effects. *)

Definition run_relay_callback (ext : Externals) (g : Go2Connection) (ev : event)
  : eff WebRTCRelayAppState unit :=
  match ev with
  | EvOnMessage rd =>
      match on_message g with
      | Some RelayOnMessage => _on_go2_message rd
      | _ => ret tt
      end
  | EvOnValidated _ =>
      match on_validated g with
      | Some (RelayOnValidated topics) => _on_go2_validated ext topics
      | _ => ret tt
      end
  | _ => ret tt
  end.

Fixpoint run_relay_callbacks (ext : Externals) (g : Go2Connection) (evs : list event)
  : eff WebRTCRelayAppState unit :=
  match evs with
  | [] => ret tt
  | ev :: rest =>
      emit ev ;;;
      run_relay_callback ext g ev ;;;
      run_relay_callbacks ext g rest
  end.

(** A message arrives on the robot-side data channel of the stored session. *)
Definition robot_message_arrives (ext : Externals) (m : message)
  : eff WebRTCRelayAppState unit :=
  st <~ get ;;
  match go2 st with
  | None => ret tt
  | Some g =>
      match on_data_channel_message ext m g with
      | (_, g', tr) =>
          put (with_go2 st (Some g')) ;;;
          run_relay_callbacks ext g tr
      end
  end.

(** ** webrtc_relay.py: the HTTP boundary *)

Definition class_name (c : exn_class) : string :=
  match c with
  | StateException => "StateException"
  | ValueError => "ValueError"
  | KeyError => "KeyError"
  | IndexError => "IndexError"
  | RuntimeError => "RuntimeError"
  | TimeoutError => "TimeoutError"
  | AsyncioTimeoutError => "TimeoutError"
  | TypeError => "TypeError"
  | AttributeError => "AttributeError"
  | OverflowError => "OverflowError"
  | JSONDecodeError => "JSONDecodeError"
  | InvalidStateError => "InvalidStateError"
  | Go2ConnectionError => "Go2ConnectionError"
  | WebRTCHttpError => "WebRTCHttpError"
  | EncryptionError => "EncryptionError"
  | HTTPException _ => "HTTPException"
  | PlainException => "Exception"
  | OtherException name => name
  end.

Record JSONResponse : Type := mkJSONResponse {
  status_code : Z;
  content : list (string * pyval)
}.

Definition error_body (ext : Externals) (e : pyexn) (tag : string) : list (string * pyval) :=
  [("detail", PStr (str_exn ext e)); ("exception_type", PStr tag)].

(** The handler registered for the nearest class in the exception's MRO
    ([json.JSONDecodeError] is a [ValueError]).  Where
    [asyncio.TimeoutError] is the built-in [TimeoutError], the second of
    the two registrations for that class replaces the first, and a
    [TimeoutError] is answered with the tag of [asyncio.TimeoutError].  An
    [HTTPException] is answered by FastAPI's own handler with its status
    and detail. *)
Definition http_boundary (ext : Externals) (e : pyexn) : JSONResponse :=
  match exn_cls e with
  | StateException => mkJSONResponse 409 (error_body ext e "state_exception")
  | ValueError | JSONDecodeError => mkJSONResponse 422 (error_body ext e "value_error")
  | KeyError => mkJSONResponse 422 (error_body ext e "key_error")
  | IndexError => mkJSONResponse 422 (error_body ext e "index_error")
  | RuntimeError => mkJSONResponse 500 (error_body ext e "runtime_error")
  | TimeoutError =>
      mkJSONResponse 504
        (error_body ext e
           (if asyncio_timeout_is_builtin ext then "asyncio_timeout_error"
            else "timeout_error"))
  | AsyncioTimeoutError => mkJSONResponse 504 (error_body ext e "asyncio_timeout_error")
  | HTTPException status => mkJSONResponse status [("detail", exn_arg e)]
  | c => mkJSONResponse 500 (error_body ext e (class_name c))
  end.

(** ** webrtc_relay_exceptions.py *)

Definition recreate_and_raise_exception (ext : Externals) (err_json : list (string * pyval))
  : pyresult unit :=
  match assoc_get err_json "detail" with
  | None => Raise (Exn PlainException (PStr "detail and type unknown"))
  | Some detail =>
      match assoc_get err_json "exception_type" with
      | None =>
          Raise (Exn PlainException
                   (PStr ("type unknown. detail=" ++ py_repr ext detail)%string))
      | Some exception_type =>
          if py_eq_str exception_type "runtime_error" then Raise (Exn RuntimeError detail)
          else if py_eq_str exception_type "value_error" then Raise (Exn ValueError detail)
          else if py_eq_str exception_type "index_error" then Raise (Exn IndexError detail)
          else if py_eq_str exception_type "key_error" then Raise (Exn KeyError detail)
          else if py_eq_str exception_type "state_exception" then
            Raise (Exn StateException detail)
          else if py_eq_str exception_type "timeout_error" then
            Raise (Exn TimeoutError detail)
          else if py_eq_str exception_type "asyncio_timeout_error" then
            Raise (Exn TimeoutError
                     (PStr ("asyncio.TimeoutError, detail=" ++ py_repr ext detail)%string))
          else
            Raise (Exn PlainException
                     (PStr ("exception_type=" ++ py_repr ext exception_type
                              ++ " : detail=" ++ py_repr ext detail)%string))
      end
  end.

(** ** Scenario data

    Concrete inputs on which the statements below are exercised. *)

Definition nan : pyval := PFloat S754_nan.
Definition pos_inf : pyval := PFloat (S754_infinity false).
Definition zero : pyval := PFloat float_zero.

(** The mock server's sport-mode sample with three fields left open. *)
Definition sport_sample (v_velocity v_foot_force v_temperature : pyval) : pyval :=
  PDict
    [("mode", PStr "mock"); ("progress", PInt 0); ("gait_type", PStr "mock");
     ("position", PList [zero; zero; zero]); ("body_height", zero);
     ("velocity", v_velocity); ("range_obstacle", PList []);
     ("foot_force", v_foot_force);
     ("foot_position_body", PList [zero; zero; zero; zero]);
     ("foot_speed_body", PList [zero; zero; zero; zero]);
     ("imu_state",
      PDict
        [("quaternion", PList [zero; zero; zero; PFloat (S754_finite false 4503599627370496 (-52))]);
         ("accelerometer", PList [zero; zero; zero]);
         ("gyroscope", PList [zero; zero; zero]);
         ("rpy", PList [zero; zero; zero]);
         ("temperature", v_temperature)])].

(** A payload with one field replaced. *)
Definition with_field (d : pyval) (k : string) (v : pyval) : pyval :=
  match d with
  | PDict entries => PDict ((k, v) :: entries)
  | _ => d
  end.

Definition pose_sample (x w : pyval) : pyval :=
  PDict
    [("pose",
      PDict
        [("position", PDict [("x", x); ("y", zero); ("z", zero)]);
         ("orientation", PDict [("x", zero); ("y", zero); ("z", zero); ("w", w)])])].

(** ** Where a non-finite scalar sits

    Stated on the wire payload, independently of the parsers. *)

Definition nonfinite_scalar (v : pyval) : bool :=
  match v with
  | PFloat f => negb (float_isfinite f)
  | _ => false
  end.

(** A scalar field that is non-finite, or a list field with a non-finite
    element. *)
Definition holds_nonfinite (v : pyval) : bool :=
  match v with
  | PList items => existsb nonfinite_scalar items
  | _ => nonfinite_scalar v
  end.

Definition field_of (d : pyval) (k : string) : option pyval :=
  match d with
  | PDict entries => assoc_get entries k
  | _ => None
  end.

Definition field_holds_nonfinite (d : pyval) (k : string) : bool :=
  match field_of d k with
  | Some v => holds_nonfinite v
  | None => false
  end.

Definition checked_state_fields : list string :=
  ["position"; "body_height"; "range_obstacle"; "foot_position_body"; "foot_speed_body"].

Definition checked_imu_fields : list string :=
  ["quaternion"; "accelerometer"; "gyroscope"; "rpy"].

Definition sport_checked_nonfinite (data : pyval) : bool :=
  existsb (field_holds_nonfinite data) checked_state_fields
  || match field_of data "imu_state" with
     | Some imu => existsb (field_holds_nonfinite imu) checked_imu_fields
     | None => false
     end.

Fixpoint at_path (d : pyval) (path : list string) : option pyval :=
  match path with
  | [] => Some d
  | k :: rest =>
      match field_of d k with
      | Some v => at_path v rest
      | None => None
      end
  end.

Definition odometry_scalars : list (list string) :=
  [["pose"; "position"; "x"]; ["pose"; "position"; "y"]; ["pose"; "position"; "z"];
   ["pose"; "orientation"; "x"]; ["pose"; "orientation"; "y"];
   ["pose"; "orientation"; "z"]; ["pose"; "orientation"; "w"]].

Definition odometry_nonfinite (data : pyval) : bool :=
  existsb (fun path => match at_path data path with
                       | Some v => nonfinite_scalar v
                       | None => false
                       end) odometry_scalars.

(** ** Reading a trace *)

Definition is_close_event (ev : event) : bool :=
  match ev with
  | EvClose _ _ => true
  | _ => false
  end.

Definition close_events (tr : list event) : list event := filter is_close_event tr.

Definition is_error_log (ev : event) : bool :=
  match ev with
  | EvLog ERROR _ _ => true
  | _ => false
  end.

Definition count_faults (faults : list (option pyexn)) : nat :=
  length (filter (fun f => match f with Some _ => true | None => false end) faults).

(** The close calls [offer] owes to a client-facing session left in the
    state. *)
Definition old_session_closes (st : WebRTCRelayAppState) : list event :=
  match relay_rtc_peer_connection st with
  | Some p => [EvClose PeerConnectionRes (pc_id p)]
  | None => []
  end ++
  match relay_rtc_data_channel st with
  | Some d => [EvClose DataChannelRes (dc_id d)]
  | None => []
  end.

Definition cleared (st : WebRTCRelayAppState) : WebRTCRelayAppState :=
  mkAppState (go2 st) None None (go2_video_track st).

Definition is_new_pc_event (ev : event) : bool :=
  match ev with
  | EvNewPeerConnection _ => true
  | _ => false
  end.

Definition has_fault (f : option pyexn) : bool :=
  match f with
  | Some _ => true
  | None => false
  end.

(** Some step of the [try] block of [offer] fails: the constructor, adding
    the video track (when there is one), or one of the three negotiation
    calls. *)
Definition negotiation_fails (new_pc : pyresult PeerConnection) (st : WebRTCRelayAppState)
  : bool :=
  match new_pc with
  | Raise _ => true
  | Ok p =>
      (match go2_video_track st with
       | Some _ => has_fault (pc_add_track_fault p)
       | None => false
       end)
      || has_fault (pc_set_remote_fault p)
      || raises (pc_create_answer_result p)
      || has_fault (pc_set_local_fault p)
  end.

(** The session with one more message in the outbox of its data channel. *)
Definition queued (c : Go2Connection) (m : message) : Go2Connection :=
  with_data_channel c (dc_append (data_channel c) m).

Definition channel_closed_error : pyexn := Exn InvalidStateError PNone.

(** ** The error taxonomy of the HTTP boundary *)




Definition is_wire (m : message) : bool :=
  match m with
  | MsgStr _ | MsgBytes _ => true
  | MsgOther _ => false
  end.

(** The session after the open-state workaround at the top of the message
    handlers. *)
Definition forced_open (c : Go2Connection) : Go2Connection :=
  if is_open (readyState (data_channel c)) then c
  else with_data_channel c (set_ready (data_channel c) RS_open).

(** What the workaround does besides: the call of [on_open] it triggers
    at a channel that was not open, and how that call ends. *)
Definition opening (c : Go2Connection) : list event :=
  if is_open (readyState (data_channel c)) then []
  else match on_open c with
       | Some _ => [EvOnOpen]
       | None => []
       end.

Definition open_result (c : Go2Connection) : pyresult unit :=
  if is_open (readyState (data_channel c)) then Ok tt
  else match on_open c with
       | Some run => run
       | None => Ok tt
       end.

(** The type the validation gate reads off a text: none when the text is
    not JSON or what it decodes to has no "type". *)
Definition text_type (ext : Externals) (s : string) : option pyval :=
  match json_loads ext s with
  | Ok obj => field_of obj "type"
  | Raise _ => None
  end.

(** The message gets past the validation gate of the handler: any message
    of a validated session, and of an unvalidated one everything but text,
    and text with a type other than "validation". *)
Definition passes_gate (ext : Externals) (c : Go2Connection) (m : message) : bool :=
  match m with
  | MsgStr s =>
      is_validated c
      || match text_type ext s with
         | Some ty => negb (py_eq_str ty "validation")
         | None => false
         end
  | _ => true
  end.

(** The relay forwards the robot's message to the client. *)
Definition forwarded (ext : Externals) (g : Go2Connection) (m : message) : bool :=
  negb (raises (open_result g)) && passes_gate ext g m && is_wire m.

(** A run with some events before it. *)
Definition prefixed {S A : Type} (before : list event) (r : pyresult A * S * list event)
  : pyresult A * S * list event :=
  (result_of r, state_of r, before ++ trace_of r).

(** The envelope of pass-through mode. *)
Definition raw_envelope (c : Go2Connection) (m : message) : RobotData :=
  set_raw_message (new_robot_data (robot_num c)) m.

(** ** Validation and the life of a session *)

Definition is_on_validated (ev : event) : bool :=
  match ev with
  | EvOnValidated _ => true
  | _ => false
  end.

(** The invocations of the [on_validated] callback in a trace. *)
Definition validated_calls (tr : list event) : list event := filter is_on_validated tr.

Definition registered (c : Go2Connection) : bool :=
  match on_validated c with
  | Some _ => true
  | None => false
  end.

(** The fixed "turn on video" control message, and the answer to a
    challenge. *)
Definition vid_on (ext : Externals) : message :=
  MsgStr (json_dumps ext (payload "vid" no_topic (PStr "on"))).

Definition validation_reply (ext : Externals) (challenge : pyval) : message :=
  MsgStr (json_dumps ext (payload "validation" no_topic (PStr (encrypt_key ext challenge)))).

(** The messages of a session, handled in arrival order. *)
Fixpoint session_run (ext : Externals) (msgs : list message) : eff Go2Connection unit :=
  match msgs with
  | [] => ret tt
  | m :: rest => on_data_channel_message ext m ;;; session_run ext rest
  end.

(** What no message handler changes, validation apart. *)
Definition same_session (c c' : Go2Connection) : Prop :=
  on_validated c' = on_validated c /\ robot_num c' = robot_num c.

(** A computation that neither validates the session nor calls
    [on_validated]. *)
Definition quiet {A : Type} (m : eff Go2Connection A) : Prop :=
  forall c,
    is_validated (state_of (m c)) = is_validated c
    /\ same_session c (state_of (m c))
    /\ validated_calls (trace_of (m c)) = [].

(** A computation that, started unvalidated, calls [on_validated] once
    if it validates the session and a callback is registered, and not at
    all otherwise. *)
Definition counted {A : Type} (m : eff Go2Connection A) : Prop :=
  forall c,
    is_validated c = false ->
    same_session c (state_of (m c))
    /\ validated_calls (trace_of (m c))
       = if is_validated (state_of (m c)) && registered c
         then [EvOnValidated (robot_num c)] else [].

(** The [except] clause of [on_data_channel_message]. *)
Definition log_handler_error (e : pyexn) : eff Go2Connection unit :=
  emit (EvLog ERROR "Error processing data channel message" (Some e)).

(** The validation gate, for a text message that arrives unvalidated. *)
Definition validation_gate (ext : Externals) (s : string) : eff Go2Connection unit :=
  raw_message_obj <~ parse_datachannel_message ext s ;;
  ty <~ lift (subscript raw_message_obj "type") ;;
  if py_eq_str ty "validation" then
    data <~ lift (subscript raw_message_obj "data") ;;
    validate_robot_conn ext data
  else dispatch_message ext (MsgStr s) (Some raw_message_obj).

(** [on_data_channel_message] after the open-state workaround. *)
Definition after_open (ext : Externals) (m : message) : eff Go2Connection unit :=
  c <~ get ;;
  match m with
  | MsgStr s =>
      if negb (is_validated c) then validation_gate ext s
      else dispatch_message ext m None
  | _ => dispatch_message ext m None
  end.

Definition decode_error : pyexn := Exn ValueError (PStr "Failed to decode JSON message").

Definition is_callback_event (ev : event) : bool :=
  match ev with
  | EvOnOpen | EvOnValidated _ | EvOnMessage _ => true
  | _ => false
  end.

(** ** A runnable stand-in for the imports

    Used only to run the statements on concrete data; every theorem holds
    for all [Externals].  [sample_dumps] writes a value in JSON syntax
    (a finite float as sign, mantissa and binary exponent); [table_loads]
    decodes the texts of the values it is given and rejects every other
    text as malformed; digest and base64 are left symbolic. *)

Definition dq : string := String "034"%char EmptyString.

Definition float_text (f : spec_float) : string :=
  match f with
  | S754_nan => "NaN"
  | S754_infinity false => "Infinity"
  | S754_infinity true => "-Infinity"
  | S754_zero false => "0.0"
  | S754_zero true => "-0.0"
  | S754_finite sign m e =>
      ((if sign then "-" else EmptyString) ++ str_of_int (Zpos m) ++ "p" ++ str_of_int e)%string
  end.

Fixpoint sample_dumps (v : pyval) : string :=
  match v with
  | PNone => "null"
  | PBool b => if b then "true" else "false"
  | PInt z => str_of_int z
  | PFloat f => float_text f
  | PStr s => (dq ++ s ++ dq)%string
  | PList items =>
      ("[" ++ (fix elements (l : list pyval) : string :=
                 match l with
                 | [] => EmptyString
                 | [x] => sample_dumps x
                 | x :: rest => sample_dumps x ++ ", " ++ elements rest
                 end) items ++ "]")%string
  | PDict entries =>
      ("{" ++ (fix members (l : list (string * pyval)) : string :=
                 match l with
                 | [] => EmptyString
                 | [(k, x)] => dq ++ k ++ dq ++ ": " ++ sample_dumps x
                 | (k, x) :: rest =>
                     dq ++ k ++ dq ++ ": " ++ sample_dumps x ++ ", " ++ members rest
                 end) entries ++ "}")%string
  end.

Definition sample_repr (v : pyval) : string :=
  match v with
  | PNone => "None"
  | PBool b => if b then "True" else "False"
  | PStr s => ("'" ++ s ++ "'")%string
  | _ => sample_dumps v
  end.

Definition malformed : pyexn := Exn JSONDecodeError (PStr "Expecting value").

Definition table_loads (known : list pyval) (s : string) : pyresult pyval :=
  match find (fun v => String.eqb (sample_dumps v) s) known with
  | Some v => Ok v
  | None => Raise malformed
  end.

Definition topic_table (key : string) : string :=
  if String.eqb key "ULIDAR_ARRAY" then "rt/utlidar/voxel_map_compressed"
  else if String.eqb key "ROBOTODOM" then "rt/utlidar/robot_pose"
  else if String.eqb key "LF_SPORT_MOD_STATE" then "rt/lf/sportmodestate"
  else if String.eqb key "LOW_STATE" then "rt/lf/lowstate"
  else if String.eqb key "ULIDAR_SWITCH" then "rt/utlidar/switch"
  else key.

Definition scenario_ext (known : list pyval) : Externals :=
  mkExternals (table_loads known) sample_dumps sample_repr
    (fun s => ("md5(" ++ s ++ ")")%string)
    (fun s => ("b64(" ++ s ++ ")")%string)
    (fun _ _ => Ok None)
    topic_table
    true.

Definition validation_ok_msg : pyval :=
  PDict [("type", PStr "validation"); ("data", PStr "Validation Ok.")].

Definition challenge_msg : pyval :=
  PDict [("type", PStr "validation"); ("data", PStr "5f2a9c")].

Definition ext0 : Externals := scenario_ext [validation_ok_msg; challenge_msg].

Definition scenario_pc (id : nat) : PeerConnection :=
  mkPeerConnection id false [] None None None None None
    (Ok (mkSessionDescription "v=0 (answer)" "answer")) None.

Definition scenario_dc (id : nat) (state : ready_state) : DataChannel :=
  mkDataChannel id state [] None.

Definition scenario_fresh : FreshObjects :=
  mkFreshObjects (scenario_pc 1) (scenario_dc 1 RS_connecting) (mkHttpClient 1 false None).

Definition scenario_args : ConnectArgs :=
  mkConnectArgs "192.168.12.1" 0 EmptyString ["rt/lf/lowstate"; "rt/utlidar/robot_pose"].

Definition good_handshake : Handshake :=
  mkHandshake (Ok tt) (Ok KeyReceived) (Ok SdpAnswered).

Definition refused_handshake : Handshake :=
  mkHandshake (Ok tt) (Raise (Exn WebRTCHttpError (PStr "connection refused")))
    (Ok SdpAnswered).

(** The session [connect] stores, before and after validation. *)
Definition scenario_session : Go2Connection := relay_session scenario_fresh scenario_args.

Definition validated_session : Go2Connection :=
  with_is_validated
    (with_data_channel scenario_session (scenario_dc 1 RS_open)) true.

Definition client_dc : DataChannel := scenario_dc 2 RS_open.

(** A relay with a robot session and an open client-facing session. *)
Definition relaying : WebRTCRelayAppState :=
  mkAppState (Some validated_session) (Some (scenario_pc 2)) (Some client_dc) None.

Definition client_offer : SessionDescription := mkSessionDescription "v=0 (offer)" "offer".

(** A peer connection whose negotiation fails at [setRemoteDescription]. *)
Definition faulty_pc : PeerConnection :=
  mkPeerConnection 3 false [] None None None None
    (Some (Exn RuntimeError (PStr "bad sdp")))
    (Ok (mkSessionDescription "v=0 (answer)" "answer")) None.

Definition connected : WebRTCRelayAppState :=
  with_go2 empty_app_state (Some scenario_session).

Definition nan_body_height : pyval :=
  with_field (sport_sample zero zero zero) "body_height" nan.

Definition telemetry_text : message := MsgStr "{ telemetry frame }".

(** The same session with an [on_open] callback that raises. *)
Definition open_failure : pyexn := Exn RuntimeError (PStr "on_open failed").

Definition stubborn_session : Go2Connection :=
  Go2Connection_init (fresh_pc scenario_fresh) (fresh_dc scenario_fresh)
    (fresh_http scenario_fresh) (arg_robot_ip scenario_args)
    (str_of_int (arg_robot_num scenario_args)) (arg_token scenario_args)
    (Some (RelayOnValidated (arg_topics_to_subscribe_to scenario_args)))
    (Some RelayOnMessage) (Some (Raise open_failure)) true false false.

(** A relay whose robot session is not validated yet, with an open
    client-facing session. *)
Definition awaiting_validation : WebRTCRelayAppState :=
  mkAppState (Some scenario_session) (Some (scenario_pc 2)) (Some client_dc) None.

Definition vid_on_dict : pyval :=
  PDict [("type", PStr "vid"); ("topic", PStr EmptyString); ("data", PStr "on")].

Definition challenge_reply_dict : pyval :=
  PDict [("type", PStr "validation"); ("topic", PStr EmptyString);
         ("data", PStr "b64(md5(UnitreeGo2_5f2a9c))")].

(** * Further functions and predicates

    ** What the decoder accepts *)

(** [isinstance(x, (int, float)) and math.isfinite(x)] holds and does not
    raise. *)
Definition valid_number (v : pyval) : bool :=
  match is_finite_number v with
  | Ok true => true
  | _ => false
  end.

(** An iterable all of whose elements are valid numbers. *)
Definition valid_list (v : pyval) : bool :=
  match py_iter v with
  | Ok items => forallb valid_number items
  | Raise _ => false
  end.

Definition odometry_well_formed (data : pyval) : bool :=
  forallb (fun path => match at_path data path with
                       | Some v => valid_number v
                       | None => false
                       end) odometry_scalars.

(** The key is there and its value passes the check. *)
Definition has_field (d : pyval) (k : string) (check : pyval -> bool) : bool :=
  match field_of d k with
  | Some v => check v
  | None => false
  end.

Definition anything (_ : pyval) : bool := true.

Definition sport_acceptable (data : pyval) : bool :=
  has_field data "mode" anything
  && has_field data "progress" anything
  && has_field data "gait_type" anything
  && has_field data "position" valid_list
  && has_field data "body_height" valid_number
  && has_field data "velocity" anything
  && has_field data "range_obstacle" valid_list
  && has_field data "foot_force" anything
  && has_field data "foot_position_body" valid_list
  && has_field data "foot_speed_body" valid_list
  && has_field data "imu_state"
       (fun imu =>
          has_field imu "quaternion" valid_list
          && has_field imu "accelerometer" valid_list
          && has_field imu "gyroscope" valid_list
          && has_field imu "rpy" valid_list
          && has_field imu "temperature" anything).

(** The payload groups of an envelope that are populated. *)
Definition present {A : Type} (o : option A) : nat :=
  match o with
  | Some _ => 1
  | None => 0
  end.

Definition populated_groups (rd : RobotData) : nat :=
  (present (lidar_data rd)
   + present (odometry_data rd)
   + Nat.max (present (robot_state rd)) (present (imu_data rd))
   + present (joint_data rd))%nat.

Definition known_topic (ext : Externals) (topic : pyval) : bool :=
  py_eq_str topic (RTC_TOPIC ext "ULIDAR_ARRAY")
  || py_eq_str topic (RTC_TOPIC ext "ROBOTODOM")
  || py_eq_str topic (RTC_TOPIC ext "LF_SPORT_MOD_STATE")
  || py_eq_str topic (RTC_TOPIC ext "LOW_STATE").

(** ** go2_connection.py, continued *)

Definition traffic_saving_request (switch : bool) : pyval :=
  PDict [("req_type", PStr "disable_traffic_saving");
         ("instruction", PStr (if switch then "on" else "off"))].

Definition disableTrafficSaving (ext : Externals) (switch : bool) : eff Go2Connection bool :=
  try_eff
    (publish ext no_topic (traffic_saving_request switch) "rtc_inner_req" ;;;
     ret true)
    (fun e => emit (EvLog ERROR "Failed to set traffic saving" (Some e)) ;;; ret false).

Definition is_on_message (ev : event) : bool :=
  match ev with
  | EvOnMessage _ => true
  | _ => false
  end.

(** The envelopes handed to [on_message] in a trace. *)
Definition delivered (tr : list event) : list event := filter is_on_message tr.

Definition handshake_succeeds (hs : Handshake) : bool :=
  match hs_local_offer hs, hs_public_key hs, hs_exchange hs with
  | Ok _, Ok KeyReceived, Ok SdpAnswered => true
  | _, _, _ => false
  end.

Definition connection_error (text : string) : pyexn :=
  Exn Go2ConnectionError (PStr text).

(** ** The relay, continued *)

(** The tracks [offer] attaches to a new client-facing connection. *)
Definition stored_tracks (st : WebRTCRelayAppState) : list nat :=
  match go2_video_track st with
  | Some track => [track_id track]
  | None => []
  end.

(** The robot session after "video on" has been re-issued to it. *)
Definition video_retriggered (ext : Externals) (g : Go2Connection) : Go2Connection :=
  if is_open (readyState (data_channel g)) then queued g (vid_on ext) else g.

(** The close calls a teardown of the robot session makes. *)
Definition session_closes (g : Go2Connection) : list event :=
  [EvClose PeerConnectionRes (pc_id (pc g));
   EvClose DataChannelRes (dc_id (data_channel g));
   EvClose HttpClientRes (http_id (http_client g))].

Definition robot_closes (st : WebRTCRelayAppState) : list event :=
  match go2 st with
  | Some g => session_closes g
  | None => []
  end.

Definition client_pc_closes (st : WebRTCRelayAppState) : list event :=
  match relay_rtc_peer_connection st with
  | Some p => [EvClose PeerConnectionRes (pc_id p)]
  | None => []
  end.

(** The state [disconnect] leaves when it returns. *)
Definition disconnected (st : WebRTCRelayAppState) : WebRTCRelayAppState :=
  mkAppState None None
    (match relay_rtc_peer_connection st with
     | Some _ => None
     | None => relay_rtc_data_channel st
     end)
    (match go2 st with
     | Some _ => None
     | None => go2_video_track st
     end).

(** webrtc_relay.py, [lifespan]: the state the application starts with and
    the [finally] block that runs at shutdown.  Its last two steps are the
    body of the [/go2/disconnect] handler. *)
Definition lifespan_startup : WebRTCRelayAppState := empty_app_state.

Definition lifespan_shutdown : eff WebRTCRelayAppState unit :=
  (st <~ get ;;
   match go2 st with
   | Some g => on_some with_go2 g go2_disconnect
   | None => ret tt
   end) ;;;
  (st <~ get ;;
   match relay_rtc_peer_connection st with
   | Some p =>
       on_some with_relay_pc p pc_close ;;;
       st1 <~ get ;;
       put (with_relay_dc (with_relay_pc st1 None) None)
   | None => ret tt
   end) ;;;
  st <~ get ;;
  match go2 st with
  | Some g =>
      on_some with_go2 g go2_disconnect ;;;
      st1 <~ get ;;
      put (with_video_track (with_go2 st1 None) None)
  | None => ret tt
  end.


(** The session with some more messages in the outbox of its data
    channel, in that order. *)
Definition queue_all (c : Go2Connection) (msgs : list message) : Go2Connection :=
  fold_left queued msgs c.

Definition lidar_switch_on (ext : Externals) : message :=
  MsgStr (json_dumps ext (payload "msg" (PStr (RTC_TOPIC ext "ULIDAR_SWITCH")) (PStr "on"))).

(** What [_on_go2_validated] sends to the robot. *)
Definition subscriptions (ext : Externals) (topics : list string) : list message :=
  map (subscribe_message ext) topics ++ [lidar_switch_on ext].

(** The outbox of the client-facing data channel, empty when there is no
    such channel. *)
Definition client_outbox (st : WebRTCRelayAppState) : list message :=
  match relay_rtc_data_channel st with
  | Some d => dc_sent d
  | None => []
  end.

(** The outbox of the robot-side data channel. *)
Definition robot_outbox (st : WebRTCRelayAppState) : list message :=
  match go2 st with
  | Some g => dc_sent (data_channel g)
  | None => []
  end.

Definition client_channel_open (st : WebRTCRelayAppState) : bool :=
  match relay_rtc_data_channel st with
  | Some d => is_open (readyState d)
  | None => false
  end.

Definition robot_channel_open (st : WebRTCRelayAppState) : bool :=
  match go2 st with
  | Some g => is_open (readyState (data_channel g))
  | None => false
  end.

(** The messages of an envelope that the relay puts on the client
    channel. *)
Definition forwardable (rd : RobotData) : list message :=
  match raw_message rd with
  | Some m => if is_wire m then [m] else []
  | None => []
  end.

Definition text_of (m : message) : list message :=
  match m with
  | MsgStr s => [MsgStr s]
  | _ => []
  end.

(** ** What the handlers of a session may change *)

(** The channel is the same object; what was queued stays queued, in
    place, and an open channel stays open. *)
Definition channel_grows (d d' : DataChannel) : Prop :=
  dc_id d' = dc_id d
  /\ dc_close_fault d' = dc_close_fault d
  /\ (is_open (readyState d) = true -> is_open (readyState d') = true)
  /\ exists more, dc_sent d' = dc_sent d ++ more.

(** Only the data channel and the validated flag differ. *)
Definition session_frame (c c' : Go2Connection) : Prop :=
  exists d b,
    c' = with_is_validated (with_data_channel c d) b
    /\ channel_grows (data_channel c) d.

Definition framed {A : Type} (m : eff Go2Connection A) : Prop :=
  forall c, session_frame c (state_of (m c)).

(** ** The relay as a whole *)

(** The callbacks and the mode [connect] gives the session it builds. *)
Definition wired (g : Go2Connection) : Prop :=
  on_message g = Some RelayOnMessage
  /\ _decode_message g = false
  /\ exists topics, on_validated g = Some (RelayOnValidated topics).

(** What reaches the relay: the three requests, and the events of the two
    peer connections. *)
Inductive relay_input : Type :=
| InConnect (fresh : FreshObjects) (hs : Handshake) (args : ConnectArgs)
| InDisconnect
| InOffer (new_pc : pyresult PeerConnection) (offered : SessionDescription)
| InClientChannel (channel : DataChannel)
| InClientMessage (m : message)
| InRobotChannelOpen
| InRobotMessage (m : message)
| InVideoTrack (track : VideoTrack).

Definition robot_channel_opens : eff WebRTCRelayAppState unit :=
  st <~ get ;;
  match go2 st with
  | Some g => on_some with_go2 g on_data_channel_open
  | None => ret tt
  end.

(** An exception that leaves a request handler is answered by the HTTP
    boundary; the state stays as the handler left it. *)
Definition relay_step (ext : Externals) (i : relay_input) (st : WebRTCRelayAppState)
  : WebRTCRelayAppState :=
  match i with
  | InConnect fresh hs args => state_of (connect ext fresh hs args st)
  | InDisconnect => state_of (disconnect st)
  | InOffer new_pc offered => state_of (offer ext new_pc offered st)
  | InClientChannel channel => state_of (_on_datachannel channel st)
  | InClientMessage m => state_of (_on_datachannel_message m st)
  | InRobotChannelOpen => state_of (robot_channel_opens st)
  | InRobotMessage m => state_of (robot_message_arrives ext m st)
  | InVideoTrack track => state_of (_on_go2_video_track track st)
  end.

Definition relay_run (ext : Externals) (inputs : list relay_input)
    (st : WebRTCRelayAppState) : WebRTCRelayAppState :=
  fold_left (fun s i => relay_step ext i s) inputs st.

Definition relay_ok (st : WebRTCRelayAppState) : Prop :=
  (relay_rtc_peer_connection st <> None -> go2 st <> None)
  /\ (forall g, go2 st = Some g -> wired g).

(** Video tracks of the robot, handed to the relay one after the other. *)
Fixpoint video_tracks_arrive (tracks : list VideoTrack) : eff WebRTCRelayAppState unit :=
  match tracks with
  | [] => ret tt
  | track :: rest => _on_go2_video_track track ;;; video_tracks_arrive rest
  end.

(** ** mock_go2_webrtc_server.py: padding of the encrypted exchange *)

(** [bytes([n])]: a [ValueError] unless [0 <= n < 256]. *)
Definition single_byte (n : Z) : pyresult Byte.byte :=
  if (0 <=? n) && (n <? 256) then
    match Byte.of_N (Z.to_N n) with
    | Some b => Ok b
    | None => Raise (Exn ValueError (PStr "bytes must be in range(0, 256)"))
    end
  else Raise (Exn ValueError (PStr "bytes must be in range(0, 256)")).

(** [len(data) % block_size] is Python's floored remainder, which is
    [Z.modulo]; a zero block size raises. *)
Definition _pkcs7_pad (data : list Byte.byte) (block_size : Z) : pyresult (list Byte.byte) :=
  if block_size =? 0 then
    Raise (Exn (OtherException "ZeroDivisionError") (PStr "integer modulo by zero"))
  else
    let pad_len := block_size - (Z.of_nat (length data) mod block_size) in
    b <- single_byte pad_len ;;
    Ok (data ++ repeat b (Z.to_nat pad_len)).

Definition _pkcs7_unpad (data : list Byte.byte) : pyresult (list Byte.byte) :=
  match rev data with
  | [] => Raise (Exn ValueError (PStr "empty data"))
  | final :: _ =>
      let pad_len := N.to_nat (Byte.to_N final) in
      if (pad_len =? 0)%nat || (length data <? pad_len)%nat then
        Raise (Exn ValueError (PStr "bad pad"))
      else Ok (firstn (length data - pad_len) data)
  end.

(** ** The relay behind HTTP

    webrtc_relay.py mounts the two routers under [/go2] and [/webrtc]; the
    handlers are registered as [/connect], [/disconnect] and [/offer]. *)

Inductive endpoint : Type := EpConnect | EpDisconnect | EpOffer.

Definition route (path : string) : option endpoint :=
  if String.eqb path "/go2/connect" then Some EpConnect
  else if String.eqb path "/go2/disconnect" then Some EpDisconnect
  else if String.eqb path "/webrtc/offer" then Some EpOffer
  else None.

Inductive request_body : Type :=
| NoBody
| BodyConnect (args : ConnectArgs)
| BodyDisconnect
| BodyOffer (offered : SessionDescription).

(** What the handlers find around them, what request validation answers
    to a body that does not fit the handler, and what the framework makes
    of the [None] the disconnect handler returns where a reply model is
    declared. *)
Record Environment : Type := mkEnvironment {
  env_fresh : FreshObjects;
  env_handshake : Handshake;
  env_new_pc : pyresult PeerConnection;
  env_invalid_body : JSONResponse;
  env_none_reply : JSONResponse
}.

(** The answer to a request whose handler ran: 200 with the reply model,
    or what the exception handlers make of the exception. *)
Definition respond {A : Type} (ext : Externals) (to_json : A -> list (string * pyval))
    (handler : eff WebRTCRelayAppState A) : eff WebRTCRelayAppState JSONResponse :=
  fun st =>
    match handler st with
    | (Ok a, st', tr) => (Ok (mkJSONResponse 200 (to_json a)), st', tr)
    | (Raise e, st', tr) => (Ok (http_boundary ext e), st', tr)
    end.

Definition connect_reply_json (r : ConnectReply) : list (string * pyval) :=
  [("robot_ip", PStr (reply_robot_ip r))].

Definition offer_reply_json (d : SessionDescription) : list (string * pyval) :=
  [("sdp", PStr (sdp d)); ("type", PStr (sd_type d))].

Definition not_found : JSONResponse := mkJSONResponse 404 [("detail", PStr "Not Found")].

(** A POST to the application: a path without a route is answered 404 and
    no handler runs. *)
Definition relay_post (ext : Externals) (env : Environment) (path : string)
    (body : request_body) : eff WebRTCRelayAppState JSONResponse :=
  match route path with
  | None => ret not_found
  | Some EpConnect =>
      match body with
      | BodyConnect args =>
          respond ext connect_reply_json
            (connect ext (env_fresh env) (env_handshake env) args)
      | _ => ret (env_invalid_body env)
      end
  | Some EpDisconnect =>
      match body with
      | BodyDisconnect =>
          fun st =>
            match disconnect st with
            | (Ok _, st', tr) => (Ok (env_none_reply env), st', tr)
            | (Raise e, st', tr) => (Ok (http_boundary ext e), st', tr)
            end
      | _ => ret (env_invalid_body env)
      end
  | Some EpOffer =>
      match body with
      | BodyOffer offered =>
          respond ext offer_reply_json (offer ext (env_new_pc env) offered)
      | _ => ret (env_invalid_body env)
      end
  end.

(** ** webrtc_relay_client.py *)

Definition TOPICS_TO_SUBSCRIBE_TO (ext : Externals) : list string :=
  map (RTC_TOPIC ext)
    ["MULTIPLE_STATE"; "SPORT_MOD_STATE"; "LOW_STATE"; "ULIDAR"; "ULIDAR_ARRAY";
     "ULIDAR_STATE"; "ROBOTODOM"].

(** [if r.status_code != 200: recreate_and_raise_exception(r.json())] *)
Definition raise_for_error (ext : Externals) (r : JSONResponse) : pyresult unit :=
  if negb (status_code r =? 200) then recreate_and_raise_exception ext (content r)
  else Ok tt.

(** [url] is the path part of the relay URL the client was given. *)
Definition _connect_to_go2 (ext : Externals) (env : Environment) (url : string)
    (robot_ip_list : list string) (client_token : string)
  : eff WebRTCRelayAppState unit :=
  match robot_ip_list with
  | [] => raise (Exn IndexError (PStr "list index out of range"))
  | ip :: _ =>
      r <~ relay_post ext env (url ++ "/go2/connect")%string
             (BodyConnect (mkConnectArgs ip 1 client_token (TOPICS_TO_SUBSCRIBE_TO ext))) ;;
      lift (raise_for_error ext r)
  end.

(** The [except Exception] clause logs at level info. *)
Definition _disconnect_from_go2 (ext : Externals) (env : Environment) (url : string)
  : eff WebRTCRelayAppState unit :=
  try_eff
    (r <~ relay_post ext env (url ++ "/disconnect")%string NoBody ;;
     lift (raise_for_error ext r))
    (fun _ => ret tt).

Definition OfferReply_model_validate (body : list (string * pyval))
  : pyresult SessionDescription :=
  match assoc_get body "sdp", assoc_get body "type" with
  | Some (PStr s), Some (PStr t) => Ok (mkSessionDescription s t)
  | _, _ => Raise (Exn (OtherException "ValidationError") PNone)
  end.

(** [_create_peer_connection], from the POST of the offer to the answer
    it hands to [setRemoteDescription]. *)
Definition send_offer (ext : Externals) (env : Environment) (url : string)
    (peer_offer : SessionDescription) : eff WebRTCRelayAppState SessionDescription :=
  resp <~ relay_post ext env (url ++ "/webrtc/offer")%string (BodyOffer peer_offer) ;;
  lift (raise_for_error ext resp) ;;;
  lift (OfferReply_model_validate (content resp)).

(** The client's URL leads to the relay's handlers. *)
Definition reaches_relay (url : string) : Prop :=
  route (url ++ "/go2/connect")%string = Some EpConnect.

(** What reaches the callbacks the client was given. *)
Inductive client_call : Type :=
| RobotDataCall (rd : RobotData)
| LidarFrameCall (frame : pyval).

(** A callback is called: the call is on record whether it returns or
    raises. *)
Definition call_back (c : client_call) (outcome : pyresult unit)
  : eff (list client_call) unit :=
  fun calls => (outcome, calls ++ [c], []).

Definition client_warning (e : pyexn) : event :=
  EvLog WARNING
    "got exception while trying to parse message from webrtc relay data channel."
    (Some e).

(** [decode_array_buffer] is the method of the decoder the client owns. *)
Definition _on_peer_datachannel_message (ext : Externals)
    (decode_array_buffer : list Byte.byte -> pyresult (option pyval))
    (on_robot_data : RobotData -> pyresult unit)
    (on_lidar_frame : pyval -> pyresult unit)
    (data : message) : eff (list client_call) unit :=
  try_eff
    (match data with
     | MsgBytes b =>
         lidar_frame <~ lift (decode_array_buffer b) ;;
         match lidar_frame with
         | None =>
             emit (EvLog WARNING "failed to decode binary message from data_channel" None)
         | Some frame => call_back (LidarFrameCall frame) (on_lidar_frame frame)
         end
     | MsgStr s =>
         parsed <~ parse_datachannel_message ext s ;;
         robot_data <~ lift (process_webrtc_message ext parsed "0") ;;
         match robot_data with
         | Some rd => call_back (RobotDataCall rd) (on_robot_data rd)
         | None => ret tt
         end
     | MsgOther _ =>
         emit (EvLog WARNING "got unexpected data type from webrtc relay" None)
     end)
    (fun e => emit (client_warning e)).

(** What the client hands on for a message. *)
Definition handed_on (ext : Externals)
    (decode_array_buffer : list Byte.byte -> pyresult (option pyval))
    (data : message) : list client_call :=
  match data with
  | MsgStr s =>
      match json_loads ext s with
      | Ok parsed =>
          match process_webrtc_message ext parsed "0" with
          | Ok (Some rd) => [RobotDataCall rd]
          | _ => []
          end
      | Raise _ => []
      end
  | MsgBytes b =>
      match decode_array_buffer b with
      | Ok (Some frame) => [LidarFrameCall frame]
      | _ => []
      end
  | MsgOther _ => []
  end.

(** ** application/services/robot_data_service.py *)

(** The methods of the publisher interface the service calls. *)
Inductive publication : Type :=
| publish_lidar_data
| publish_voxel_data
| publish_odometry
| publish_robot_state
| publish_joint_state.

(** A publisher, as far as the service can tell: each method returns or
    raises. *)
Definition publisher : Type := publication -> option pyexn.

(** Calls made one after the other until one raises: the calls made, and
    the exception that ended them. *)
Fixpoint call_in_order (p : publisher) (methods : list publication)
  : list publication * option pyexn :=
  match methods with
  | [] => ([], None)
  | m :: rest =>
      match p m with
      | Some e => ([m], Some e)
      | None =>
          match call_in_order p rest with
          | (made, err) => (m :: made, err)
          end
      end
  end.

Module RobotDataService.

(** The [if]/[elif] chain. *)
Definition dispatch (robot_data : RobotData) : list publication :=
  match lidar_data robot_data with
  | Some _ => [publish_lidar_data; publish_voxel_data]
  | None =>
      match odometry_data robot_data with
      | Some _ => [publish_odometry]
      | None =>
          match robot_state robot_data with
          | Some _ => [publish_robot_state]
          | None =>
              match joint_data robot_data with
              | Some _ => [publish_joint_state]
              | None => []
              end
          end
      end
  end.

(** The calls made on the publisher and the exception logged, if any;
    nothing is raised. *)
Definition process_webrtc_message (p : publisher) (robot_data : RobotData)
  : list publication * option pyexn :=
  call_in_order p (dispatch robot_data).

End RobotDataService.

(** Every populated group of an envelope with its methods: what the
    service would call if the groups were looked at independently. *)
Definition calls_for (rd : RobotData) : list publication :=
  (match lidar_data rd with Some _ => [publish_lidar_data; publish_voxel_data] | None => [] end)
  ++ (match odometry_data rd with Some _ => [publish_odometry] | None => [] end)
  ++ (match robot_state rd with Some _ => [publish_robot_state] | None => [] end)
  ++ (match joint_data rd with Some _ => [publish_joint_state] | None => [] end).

(** ** More scenario data *)

Definition odom_msg : pyval :=
  PDict [("type", PStr "msg"); ("topic", PStr "rt/utlidar/robot_pose");
         ("data", pose_sample zero zero)].

Definition odom_envelope : RobotData :=
  set_odometry (new_robot_data "0") (parse_odometry_data (pose_sample zero zero)).

Definition unknown_topic_msg : pyval :=
  PDict [("type", PStr "msg"); ("topic", PStr "rt/unknown"); ("data", PNone)].

Definition undecoded_lidar_msg : pyval :=
  PDict [("type", PStr "msg"); ("topic", PStr "rt/utlidar/voxel_map_compressed");
         ("decoded_data", PNone)].

(** The imports with the odometry frame among the texts [json.loads]
    knows. *)
Definition ext1 : Externals := scenario_ext [validation_ok_msg; challenge_msg; odom_msg].

(** A validated session in decode mode with a callback of the user. *)
Definition decoding_session : Go2Connection :=
  mkGo2Connection (pc validated_session) (robot_ip validated_session)
    (robot_num validated_session) (token validated_session) true None
    (Some (UserOnMessage (fun _ => Ok tt))) None false false true
    (http_client validated_session) (data_channel validated_session).

Definition status_text : message := MsgStr "{ status frame }".

(** Requests and events that reach the relay, in this order: a connect, an
    offer, the success marker of the robot, a frame of telemetry. *)
Definition scenario_inputs : list relay_input :=
  [InConnect scenario_fresh good_handshake scenario_args;
   InOffer (Ok (scenario_pc 3)) client_offer;
   InRobotMessage (MsgStr (sample_dumps validation_ok_msg));
   InRobotMessage telemetry_text].

Definition three_bytes : list Byte.byte := [Byte.x01; Byte.x02; Byte.x03].

(** The relay's surroundings when the robot refuses the key request and
    the client's SDP is rejected. *)
Definition env0 : Environment :=
  mkEnvironment scenario_fresh refused_handshake (Ok faulty_pc)
    (mkJSONResponse 422 [("detail", PList [])])
    (mkJSONResponse 500 [("detail", PStr "Internal Server Error")]).

(** A decoder that finds no frame, and callbacks that return. *)
Definition no_frame (_ : list Byte.byte) : pyresult (option pyval) := Ok None.
Definition accept_robot_data (_ : RobotData) : pyresult unit := Ok tt.
Definition accept_lidar_frame (_ : pyval) : pyresult unit := Ok tt.
Definition reliable_publisher : publisher := fun _ => None.
(** * Theorems *)

(** ** The result monad *)

Lemma bind_ok {A B : Type} (r : pyresult A) (k : A -> pyresult B) (b : B) :
  bind r k = Ok b -> exists a, r = Ok a /\ k a = Ok b.
Proof.
  destruct r as [a | e]; simpl; intro H; [exists a; auto | discriminate].
Qed.

Lemma result_of_triple {S A : Type} (r : pyresult A) (s : S) (t : list event) :
  result_of (r, s, t) = r.
Proof. reflexivity. Qed.

Lemma state_of_triple {S A : Type} (r : pyresult A) (s : S) (t : list event) :
  state_of (r, s, t) = s.
Proof. reflexivity. Qed.

Lemma trace_of_triple {S A : Type} (r : pyresult A) (s : S) (t : list event) :
  trace_of (r, s, t) = t.
Proof. reflexivity. Qed.

Ltac project_triples :=
  rewrite ?result_of_triple, ?state_of_triple, ?trace_of_triple.

Lemma try_except_some {A : Type} (body : pyresult (option A)) (a : A) :
  try_except body (fun _ => None) = Some a -> body = Ok (Some a).
Proof.
  destruct body as [[x |] | e]; simpl; intro H; congruence.
Qed.

Lemma subscript_ok (v : pyval) (k : string) (x : pyval) :
  subscript v k = Ok x -> field_of v k = Some x.
Proof.
  destruct v; simpl; try discriminate.
  destruct (assoc_get entries k); intro H; congruence.
Qed.

Ltac invert_binds H :=
  repeat (apply bind_ok in H; destruct H as (? & ? & H)).

(** ** Finiteness checks *)

Lemma is_finite_number_true (x : pyval) :
  is_finite_number x = Ok true -> nonfinite_scalar x = false.
Proof.
  destruct x; simpl; try reflexivity.
  intro H; injection H as H; rewrite H; reflexivity.
Qed.

Lemma all_finite_numbers_true (items : list pyval) :
  all_finite_numbers items = Ok true -> existsb nonfinite_scalar items = false.
Proof.
  induction items as [| x rest IH]; simpl; [reflexivity |].
  intro H. apply bind_ok in H. destruct H as (b & Hx & H).
  destruct b; [| discriminate].
  rewrite (is_finite_number_true _ Hx). simpl. auto.
Qed.

Lemma validated_float_list_ok (data out : pyval) :
  _validated_float_list data = Ok out -> holds_nonfinite data = false.
Proof.
  unfold _validated_float_list. intro H.
  apply bind_ok in H. destruct H as (items & Hit & H).
  apply bind_ok in H. destruct H as (ok & Hall & H).
  destruct ok; [| discriminate].
  destruct data; simpl in *; try discriminate; try reflexivity.
  injection Hit as <-. apply all_finite_numbers_true; assumption.
Qed.

Lemma validated_float_ok (value : pyval) (f : spec_float) :
  _validated_float value = Ok f -> holds_nonfinite value = false.
Proof.
  unfold _validated_float. intro H.
  apply bind_ok in H. destruct H as (ok & Hfin & H).
  destruct ok; [| discriminate].
  destruct value; simpl in *; try discriminate; try reflexivity.
  apply (is_finite_number_true (PFloat f0)); assumption.
Qed.

Lemma field_checked (d : pyval) (k : string) (x : pyval) :
  subscript d k = Ok x -> holds_nonfinite x = false -> field_holds_nonfinite d k = false.
Proof.
  intros Hs Hx. unfold field_holds_nonfinite.
  rewrite (subscript_ok _ _ _ Hs). exact Hx.
Qed.

(** A record comes out of [parse_sport_mode_state] only if every checked
    field passed its check; the three unchecked fields are copied. *)
Lemma sport_record_inversion (data : pyval) (rs : RobotState) (imu : IMUData) :
  parse_sport_mode_state data = Some (rs, imu) ->
  sport_checked_nonfinite data = false
  /\ field_of data "velocity" = Some (velocity rs)
  /\ field_of data "foot_force" = Some (foot_force rs)
  /\ (exists imu_dict, field_of data "imu_state" = Some imu_dict
                       /\ field_of imu_dict "temperature" = Some (temperature imu)).
Proof.
  intro H. unfold parse_sport_mode_state in H.
  apply try_except_some in H.
  invert_binds H. cbv zeta in H. injection H as Hrs Himu.
  repeat match goal with
         | Hv : _validated_float_list _ = Ok _ |- _ => apply validated_float_list_ok in Hv
         | Hv : _validated_float _ = Ok _ |- _ => apply validated_float_ok in Hv
         end.
  subst rs imu. simpl.
  repeat split.
  - unfold sport_checked_nonfinite, checked_state_fields, checked_imu_fields.
    match goal with
    | Hi : subscript data "imu_state" = Ok ?d |- _ => rewrite (subscript_ok _ _ _ Hi)
    end.
    simpl existsb.
    repeat match goal with
           | Hs : subscript ?d ?k = Ok ?x, Hx : holds_nonfinite ?x = false |- _ =>
               rewrite (field_checked d k x Hs Hx); clear Hx
           end.
    reflexivity.
  - apply subscript_ok; assumption.
  - apply subscript_ok; assumption.
  - eexists; split; apply subscript_ok; eassumption.
Qed.

Lemma sport_nonfinite_rejected (data : pyval) :
  sport_checked_nonfinite data = true -> parse_sport_mode_state data = None.
Proof.
  intro Hbad.
  destruct (parse_sport_mode_state data) as [[rs imu] |] eqn:E; [| reflexivity].
  apply sport_record_inversion in E. destruct E as (Hok & _).
  congruence.
Qed.

Lemma at_path3 (d a b c : pyval) (k1 k2 k3 : string) :
  subscript d k1 = Ok a -> subscript a k2 = Ok b -> subscript b k3 = Ok c ->
  at_path d [k1; k2; k3] = Some c.
Proof.
  intros H1 H2 H3. simpl.
  rewrite (subscript_ok _ _ _ H1), (subscript_ok _ _ _ H2), (subscript_ok _ _ _ H3).
  reflexivity.
Qed.

Lemma odometry_record_inversion (data : pyval) (od : OdometryData) :
  parse_odometry_data data = Some od -> odometry_nonfinite data = false.
Proof.
  intro H. unfold parse_odometry_data in H.
  apply try_except_some in H.
  invert_binds H.
  match goal with
  | Hall : all_finite_numbers _ = Ok ?b |- _ =>
      destruct b; [apply all_finite_numbers_true in Hall | discriminate]
  end.
  unfold odometry_nonfinite, odometry_scalars.
  cbn [existsb].
  repeat match goal with
         | H1 : subscript data "pose" = Ok ?a, H2 : subscript ?a ?k2 = Ok ?b,
           H3 : subscript ?b ?k3 = Ok ?c |- context [at_path data ["pose"; ?k2; ?k3]] =>
             rewrite (at_path3 data a b c "pose" k2 k3 H1 H2 H3)
         end.
  match goal with
  | Hall : existsb _ _ = false |- _ => simpl in Hall; exact Hall
  end.
Qed.

Lemma odometry_nonfinite_rejected (data : pyval) :
  odometry_nonfinite data = true -> parse_odometry_data data = None.
Proof.
  intro Hbad.
  destruct (parse_odometry_data data) as [od |] eqn:E; [| reflexivity].
  apply odometry_record_inversion in E. congruence.
Qed.

Lemma envelope_without_state (ext : Externals) (msg : pyval) (rid : string)
    (data : pyval) (rd : RobotData) :
  subscript msg "data" = Ok data ->
  process_webrtc_message ext msg rid = Ok (Some rd) ->
  (parse_sport_mode_state data = None -> robot_state rd = None /\ imu_data rd = None)
  /\ (parse_odometry_data data = None -> odometry_data rd = None).
Proof.
  intros Hdata H. unfold process_webrtc_message in H.
  apply bind_ok in H. destruct H as (ty & _ & H).
  destruct (negb (py_eq_str ty "msg")); [discriminate |].
  apply bind_ok in H. destruct H as (topic & _ & H).
  rewrite Hdata in H. simpl bind in H.
  destruct (py_eq_str topic (RTC_TOPIC ext "ULIDAR_ARRAY")).
  { injection H as <-. simpl. auto. }
  destruct (py_eq_str topic (RTC_TOPIC ext "ROBOTODOM")).
  { injection H as <-. simpl. split; [auto | intros ->; reflexivity]. }
  destruct (py_eq_str topic (RTC_TOPIC ext "LF_SPORT_MOD_STATE")).
  { destruct (parse_sport_mode_state data) as [p |];
      injection H as <-; simpl; split; auto; discriminate. }
  destruct (py_eq_str topic (RTC_TOPIC ext "LOW_STATE")); [| discriminate].
  injection H as <-. simpl. auto.
Qed.

(** ** C2, as the code has it *)

(** C2 (amended): a NaN or an infinity at any checked position -- an
    element of RobotState position, range_obstacle, foot_position_body or
    foot_speed_body, body_height, an element of IMU quaternion,
    accelerometer, gyroscope or rpy, or one of the seven odometry scalars
    -- makes the parser return no record and leaves the envelope without
    that record (all or nothing); velocity, foot_force and temperature are
    copied from the payload without a finiteness check. *)
Theorem checked_nonfinite_scalar_yields_no_record :
  (forall data, sport_checked_nonfinite data = true -> parse_sport_mode_state data = None)
  /\ (forall data, odometry_nonfinite data = true -> parse_odometry_data data = None)
  /\ (forall ext msg rid data rd,
        subscript msg "data" = Ok data ->
        process_webrtc_message ext msg rid = Ok (Some rd) ->
        (sport_checked_nonfinite data = true ->
         robot_state rd = None /\ imu_data rd = None)
        /\ (odometry_nonfinite data = true -> odometry_data rd = None))
  /\ (forall data rs imu,
        parse_sport_mode_state data = Some (rs, imu) ->
        field_of data "velocity" = Some (velocity rs)
        /\ field_of data "foot_force" = Some (foot_force rs)
        /\ exists imu_dict, field_of data "imu_state" = Some imu_dict
                            /\ field_of imu_dict "temperature" = Some (temperature imu)).
Proof.
  split; [exact sport_nonfinite_rejected |].
  split; [exact odometry_nonfinite_rejected |].
  split.
  - intros ext msg rid data rd Hdata Henv.
    destruct (envelope_without_state ext msg rid data rd Hdata Henv) as [Hs Ho].
    split; intro Hbad.
    + apply Hs, sport_nonfinite_rejected, Hbad.
    + apply Ho, odometry_nonfinite_rejected, Hbad.
  - intros data rs imu H.
    destruct (sport_record_inversion data rs imu H) as (_ & Hv & Hf & Ht). auto.
Qed.

(** ** C8: teardown of a robot session *)

(** C8: [disconnect] attempts to close the peer connection, the data
    channel and the HTTP client, in that order and each whatever happened
    to the others; every failure is logged; a resource whose close does not
    fail ends closed; and [disconnect] returns normally from every state. *)
Theorem disconnect_attempts_every_close (c : Go2Connection) :
  let r := go2_disconnect c in
  result_of r = Ok tt
  /\ close_events (trace_of r)
     = [EvClose PeerConnectionRes (pc_id (pc c));
        EvClose DataChannelRes (dc_id (data_channel c));
        EvClose HttpClientRes (http_id (http_client c))]
  /\ length (filter is_error_log (trace_of r))
     = count_faults [pc_close_fault (pc c); dc_close_fault (data_channel c);
                     http_close_fault (http_client c)]
  /\ (pc_close_fault (pc c) = None -> pc_closed (pc (state_of r)) = true)
  /\ (dc_close_fault (data_channel c) = None ->
      readyState (data_channel (state_of r)) = RS_closed)
  /\ (http_close_fault (http_client c) = None ->
      http_closed (http_client (state_of r)) = true).
Proof.
  destruct c as [p ip num tok v cb_v cb_m cb_o cb_f dl dm h d].
  destruct p as [pid pcl ptr prd pld pcf paf psf pca psl].
  destruct d as [did drs dsent dcf].
  destruct h as [hid hcl hcf].
  unfold go2_disconnect, ebind, try_eff, focus, on_channel, focus, pc_close, dc_close,
    http_close, emit, result_of, state_of, trace_of, count_faults.
  simpl.
  destruct pcf, dcf, hcf; simpl; repeat split; intros; try reflexivity; discriminate.
Qed.

(** ** The handshake *)

Lemma go2_connect_outcome (ext : Externals) (hs : Handshake) (c : Go2Connection) :
  exists r,
    go2_connect ext hs c = (r, c, [EvHandshake (robot_ip c)])
    /\ raises r = raises (connect_stages ext hs)
    /\ (r = Ok tt \/ exists detail, r = Raise (Exn Go2ConnectionError detail)).
Proof.
  unfold go2_connect, ebind, get, emit, ret, raise.
  destruct (connect_stages ext hs) as [[] | e]; simpl.
  - eexists; repeat split; auto.
  - destruct e as [cls arg].
    destruct cls; simpl; eexists; repeat split; eauto.
Qed.

(** ** C3: a second connect *)

(** C3: once a call to [/go2/connect] has succeeded a RobotSession is
    stored, and any further call made while it is stored raises the
    state-conflict error (HTTP 409) before a new connection is built or a
    handshake started, leaving the relay state -- the stored session
    included -- as it was. *)
Theorem second_connect_is_state_conflict (ext : Externals)
    (fresh1 fresh2 : FreshObjects) (hs1 hs2 : Handshake) (args1 args2 : ConnectArgs)
    (st0 st1 : WebRTCRelayAppState) (reply : ConnectReply) (tr1 : list event) :
  connect ext fresh1 hs1 args1 st0 = (Ok reply, st1, tr1) ->
  go2 st1 = Some (relay_session fresh1 args1)
  /\ connect ext fresh2 hs2 args2 st1 = (Raise already_connected, st1, [])
  /\ exn_cls already_connected = StateException
  /\ status_code (http_boundary ext already_connected) = 409.
Proof.
  intro H1.
  assert (Hstored : go2 st1 = Some (relay_session fresh1 args1)).
  { unfold connect, ebind, get, emit, raise in H1.
    destruct (go2 st0) as [g |] eqn:Hg; simpl in H1; [discriminate |].
    destruct (go2_connect_outcome ext hs1 (relay_session fresh1 args1))
      as (r & Hr & _ & _).
    rewrite Hr in H1. destruct r as [u | e]; [| discriminate].
    injection H1 as _ <- _. reflexivity. }
  split; [exact Hstored |].
  split; [| split; reflexivity].
  unfold connect, ebind, get, raise. rewrite Hstored. reflexivity.
Qed.

(** ** C5: a failed handshake *)

(** C5: when [go2.connect()] raises during [/go2/connect], the handler
    raises an HTTP 502 error and the relay state is exactly what it was
    ([state.go2] stays [None]); a session is stored only when the handshake
    has returned. *)
Theorem failed_handshake_stores_no_session (ext : Externals) (fresh : FreshObjects)
    (hs : Handshake) (args : ConnectArgs) (st : WebRTCRelayAppState) :
  go2 st = None ->
  let attempt := go2_connect ext hs (relay_session fresh args) in
  let r := connect ext fresh hs args st in
  (forall e, result_of attempt = Raise e ->
     result_of r
     = Raise (Exn (HTTPException 502)
                (PStr ("GO2 connect failed: " ++ str_exn ext e)%string))
     /\ state_of r = st
     /\ go2 (state_of r) = None)
  /\ (forall g, go2 (state_of r) = Some g ->
       result_of attempt = Ok tt /\ connect_stages ext hs = Ok tt).
Proof.
  intros Hnone attempt r. subst attempt r.
  unfold connect, ebind, get, emit, raise. rewrite Hnone. simpl.
  destruct (go2_connect_outcome ext hs (relay_session fresh args))
    as (res & Hres & Hraises & Hshape).
  rewrite Hres. unfold result_of, state_of. simpl.
  split.
  - intros e He. subst res. simpl. auto.
  - intros g Hg. destruct res as [[] | e]; simpl in Hg.
    + split; [reflexivity |].
      simpl in Hraises. destruct (connect_stages ext hs) as [[] | e']; [reflexivity | discriminate].
    + congruence.
Qed.

(** ** The client-facing session *)

Lemma close_rtc_relay_connection_spec (st : WebRTCRelayAppState) :
  exists tr,
    close_rtc_relay_connection st = (Ok tt, cleared st, tr)
    /\ close_events tr = old_session_closes st
    /\ filter is_new_pc_event tr = [].
Proof.
  destruct st as [g rp rd vt].
  unfold close_rtc_relay_connection, old_session_closes, cleared, ebind, try_eff, get, put,
    emit, ret, on_some, pc_close, dc_close.
  destruct rp as [[pid pcl ptr prd pld [pcf |] paf psf pca psl] |];
    destruct rd as [[did drs dsent [dcf |]] |]; simpl; eexists; repeat split.
Qed.

Lemma try_eff_reraise (body : eff WebRTCRelayAppState SessionDescription)
    (st : WebRTCRelayAppState) :
  let r := try_eff body reraise_as_state_exception st in
  (forall a, result_of (body st) = Ok a -> r = body st)
  /\ (forall e, result_of (body st) = Raise e ->
       result_of r = Raise offer_failed
       /\ state_of r = state_of (body st)
       /\ trace_of r
          = trace_of (body st)
            ++ [EvLog WARNING "Failed to create relay rtc sessiondescriptionprotocol (SDP)."
                  (Some e)]).
Proof.
  unfold try_eff, reraise_as_state_exception, ebind, emit, raise, result_of, state_of, trace_of.
  destruct (body st) as [[res s1] t1]. simpl.
  split.
  - intros a ->. reflexivity.
  - intros e ->. simpl. auto.
Qed.

Lemma offer_with_session (ext : Externals) (new_pc : pyresult PeerConnection)
    (offered : SessionDescription) (st : WebRTCRelayAppState) (g : Go2Connection) :
  go2 st = Some g ->
  exists tr_close,
    close_rtc_relay_connection st = (Ok tt, cleared st, tr_close)
    /\ close_events tr_close = old_session_closes st
    /\ filter is_new_pc_event tr_close = []
    /\ let r2 := try_eff (establish_relay_session ext new_pc offered)
                   reraise_as_state_exception (cleared st) in
       offer ext new_pc offered st = (result_of r2, state_of r2, tr_close ++ trace_of r2).
Proof.
  intro Hg.
  destruct (close_rtc_relay_connection_spec st) as (tr & Hclose & Hev & Hnew).
  exists tr. repeat split; try assumption.
  unfold offer, ebind at 1, get. rewrite Hg.
  unfold ebind at 1. rewrite Hclose.
  unfold result_of, state_of, trace_of.
  destruct (try_eff _ _ (cleared st)) as [[r s2] t2]. reflexivity.
Qed.

(** ** Publishing on the robot-side channel *)

Lemma with_data_channel_same (c : Go2Connection) : with_data_channel c (data_channel c) = c.
Proof. destruct c; reflexivity. Qed.

Lemma publish_spec (ext : Externals) (topic data : pyval) (ty : string) (c : Go2Connection) :
  publish ext topic data ty c
  = if is_open (readyState (data_channel c))
    then (Ok tt, queued c (MsgStr (json_dumps ext (payload ty topic data))), [])
    else (Ok tt, c, [EvLog ERROR "Failed to publish message" (Some channel_closed_error)]).
Proof.
  unfold publish, try_eff, on_channel, focus, dc_send, queued, emit.
  destruct (is_open (readyState (data_channel c))); simpl.
  - reflexivity.
  - rewrite with_data_channel_same. reflexivity.
Qed.

Lemma publish_json_str_spec (json_str : string) (c : Go2Connection) :
  publish_json_str json_str c
  = if is_open (readyState (data_channel c))
    then (Ok tt, queued c (MsgStr json_str), [])
    else (Ok tt, c, [EvLog WARNING "Data channel is not open." None]).
Proof.
  unfold publish_json_str, try_eff, ebind, get, on_channel, focus, dc_send, queued, emit.
  destruct (is_open (readyState (data_channel c))) eqn:Hopen; simpl.
  - rewrite Hopen. reflexivity.
  - reflexivity.
Qed.

Lemma establish_spec (ext : Externals) (new_pc : pyresult PeerConnection)
    (offered : SessionDescription) (st : WebRTCRelayAppState) :
  let r := establish_relay_session ext new_pc offered st in
  close_events (trace_of r) = []
  /\ (negotiation_fails new_pc st = true -> raises (result_of r) = true)
  /\ (relay_rtc_peer_connection st = None ->
      forall p, relay_rtc_peer_connection (state_of r) = Some p ->
                exists p0, new_pc = Ok p0 /\ pc_id p = pc_id p0)
  /\ relay_rtc_data_channel (state_of r) = relay_rtc_data_channel st
  /\ filter is_new_pc_event (trace_of r)
     = match new_pc with
       | Ok p0 => [EvNewPeerConnection (pc_id p0)]
       | Raise _ => []
       end.
Proof.
  destruct st as [g rp rd vt].
  destruct new_pc as [[pid pcl ptr prd pld pcf paf psf pca psl] | e0].
  2: { simpl. repeat split; auto. intros Hn p Hp. simpl in *. congruence. }
  unfold establish_relay_session, negotiation_fails, on_relay_pc, ebind, try_eff, lift, get,
    put, emit, ret, raise, on_some, pc_add_track, pc_set_remote_description, pc_create_answer,
    pc_set_local_description, result_of, state_of, trace_of.
  simpl.
  destruct g as [g0 |]; [pose proof (publish_spec ext no_topic (PStr "on") "vid" g0) as Hpub;
                         destruct (is_open (readyState (data_channel g0))) |];
  destruct vt as [t |]; destruct paf as [ea |]; destruct psf as [er |];
    destruct pca as [ans | ec]; destruct psl as [el |]; simpl;
    try rewrite Hpub; simpl;
    (repeat split; auto; try discriminate;
         intros _ p Hp; injection Hp as <-; eexists; split; reflexivity).
Qed.

Lemma reraised_session_spec (ext : Externals) (new_pc : pyresult PeerConnection)
    (offered : SessionDescription) (st : WebRTCRelayAppState) :
  let r := try_eff (establish_relay_session ext new_pc offered)
             reraise_as_state_exception st in
  close_events (trace_of r) = []
  /\ filter is_new_pc_event (trace_of r)
     = match new_pc with
       | Ok p0 => [EvNewPeerConnection (pc_id p0)]
       | Raise _ => []
       end
  /\ state_of r = state_of (establish_relay_session ext new_pc offered st)
  /\ (forall e, result_of r = Raise e -> e = offer_failed)
  /\ (negotiation_fails new_pc st = true -> result_of r = Raise offer_failed).
Proof.
  cbv zeta.
  destruct (establish_spec ext new_pc offered st) as (Hclose & Hfail & _ & _ & Hnew).
  destruct (try_eff_reraise (establish_relay_session ext new_pc offered) st) as [Hok Herr].
  cbv zeta in Hok, Herr.
  destruct (result_of (establish_relay_session ext new_pc offered st)) as [a | e] eqn:Hres.
  - rewrite (Hok a eq_refl).
    repeat split; auto.
    + intros e He. rewrite Hres in He. discriminate.
    + intro Hf. apply Hfail in Hf. discriminate.
  - destruct (Herr e eq_refl) as (Hr & Hs & Ht).
    rewrite Ht. unfold close_events in *. rewrite !filter_app, Hclose, Hnew. simpl.
    rewrite app_nil_r.
    repeat split; auto.
    intros e' He'. rewrite Hr in He'. congruence.
Qed.

(** ** C4: [offer] and a previous client-facing session *)

(** C4: without a RobotSession [/webrtc/offer] raises the state-conflict
    error and changes nothing.  With one, the handler first calls [close] on
    the peer connection and on the data channel left from a previous
    client-facing session and clears both attributes; only then, starting
    from the cleared state, is a new peer connection created: no object is
    created during the closing phase, none is closed afterwards, and the
    peer connection the state holds in the end is the new one. *)
Theorem offer_closes_previous_session (ext : Externals) (new_pc : pyresult PeerConnection)
    (offered : SessionDescription) (st : WebRTCRelayAppState) :
  let r := offer ext new_pc offered st in
  (go2 st = None ->
   r = (Raise not_connected_yet, st, []) /\ exn_cls not_connected_yet = StateException)
  /\ (forall g, go2 st = Some g ->
      exists tr_close tr_new,
        trace_of r = tr_close ++ tr_new
        /\ close_rtc_relay_connection st = (Ok tt, cleared st, tr_close)
        /\ relay_rtc_peer_connection (cleared st) = None
        /\ relay_rtc_data_channel (cleared st) = None
        /\ close_events tr_close = old_session_closes st
        /\ filter is_new_pc_event tr_close = []
        /\ tr_new = trace_of (try_eff (establish_relay_session ext new_pc offered)
                                reraise_as_state_exception (cleared st))
        /\ close_events tr_new = []
        /\ filter is_new_pc_event tr_new
           = match new_pc with
             | Ok p0 => [EvNewPeerConnection (pc_id p0)]
             | Raise _ => []
             end
        /\ (forall p, relay_rtc_peer_connection (state_of r) = Some p ->
                      exists p0, new_pc = Ok p0 /\ pc_id p = pc_id p0)
        /\ relay_rtc_data_channel (state_of r) = None).
Proof.
  intro r. split.
  - intro Hnone. subst r. unfold offer, ebind, get, raise. rewrite Hnone.
    split; reflexivity.
  - intros g Hg.
    destruct (offer_with_session ext new_pc offered st g Hg)
      as (tr_close & Hclose & Hev & Hnew & Hoffer).
    cbv zeta in Hoffer.
    destruct (reraised_session_spec ext new_pc offered (cleared st))
      as (Hc2 & Hn2 & Hs2 & _ & _).
    destruct (establish_spec ext new_pc offered (cleared st))
      as (_ & _ & Hfresh & Hdc & _).
    exists tr_close.
    exists (trace_of (try_eff (establish_relay_session ext new_pc offered)
                        reraise_as_state_exception (cleared st))).
    subst r. rewrite Hoffer. project_triples.
    repeat split; auto.
    + intros p Hp. rewrite Hs2 in Hp. apply Hfresh; [reflexivity | exact Hp].
    + rewrite Hs2, Hdc. reflexivity.
Qed.

(** ** C10: failures inside [offer] *)

(** C10: once the robot-session check has passed, whatever fails while the
    new client-facing session is created and negotiated, [/webrtc/offer]
    raises the StateException of its [except] clause and nothing else, so
    that the HTTP boundary answers 409 with exception_type
    "state_exception". *)
Theorem offer_failures_are_state_conflicts (ext : Externals)
    (new_pc : pyresult PeerConnection) (offered : SessionDescription)
    (st : WebRTCRelayAppState) (g : Go2Connection) :
  go2 st = Some g ->
  let r := offer ext new_pc offered st in
  (negotiation_fails new_pc st = true -> result_of r = Raise offer_failed)
  /\ (forall e, result_of r = Raise e ->
       e = offer_failed
       /\ exn_cls e = StateException
       /\ status_code (http_boundary ext e) = 409
       /\ assoc_get (content (http_boundary ext e)) "exception_type"
          = Some (PStr "state_exception")).
Proof.
  intros Hg r.
  destruct (offer_with_session ext new_pc offered st g Hg)
    as (tr_close & _ & _ & _ & Hoffer).
  cbv zeta in Hoffer.
  destruct (reraised_session_spec ext new_pc offered (cleared st))
    as (_ & _ & _ & Honly & Hfails).
  subst r. rewrite Hoffer. project_triples.
  split.
  - intro Hf. apply Hfails. destruct st; exact Hf.
  - intros e He. apply Honly in He. subst e. repeat split.
Qed.

(** ** C7: errors across the process boundary *)




(** ** C1: routing *)

Lemma force_open_spec (c : Go2Connection) :
  force_open c = (open_result c, forced_open c, opening c).
Proof.
  unfold force_open, forced_open, open_result, opening, call_on_open, ebind, get, put,
    emit, lift, ret.
  destruct (is_open (readyState (data_channel c))); simpl; [reflexivity |].
  destruct (on_open c) as [run |]; reflexivity.
Qed.

Lemma open_result_when_open (c : Go2Connection) :
  is_open (readyState (data_channel c)) = true ->
  open_result c = Ok tt /\ opening c = [] /\ forced_open c = c.
Proof.
  intro H. unfold open_result, opening, forced_open. rewrite H. auto.
Qed.

Lemma result_of_prefixed {S A : Type} (tr : list event) (r : pyresult A * S * list event) :
  result_of (prefixed tr r) = result_of r.
Proof. reflexivity. Qed.

Lemma state_of_prefixed {S A : Type} (tr : list event) (r : pyresult A * S * list event) :
  state_of (prefixed tr r) = state_of r.
Proof. reflexivity. Qed.

Lemma trace_of_prefixed {S A : Type} (tr : list event) (r : pyresult A * S * list event) :
  trace_of (prefixed tr r) = tr ++ trace_of r.
Proof. reflexivity. Qed.

Lemma prefixed_triple {S A : Type} (tr : list event) (r : pyresult A) (s : S)
    (t : list event) :
  prefixed tr (r, s, t) = (r, s, tr ++ t).
Proof. reflexivity. Qed.

Lemma validated_calls_opening (c : Go2Connection) : validated_calls (opening c) = [].
Proof.
  unfold opening.
  destruct (is_open (readyState (data_channel c))); [reflexivity |].
  destruct (on_open c); reflexivity.
Qed.

Lemma body_split (ext : Externals) (m : message) (c : Go2Connection) :
  on_data_channel_message_body ext m c = (force_open ;;; after_open ext m) c.
Proof. destruct m; reflexivity. Qed.

(** The handler: the workaround, then the rest inside the same [try]. *)
Lemma handler_run (ext : Externals) (m : message) (c : Go2Connection) :
  on_data_channel_message ext m c
  = match open_result c with
    | Ok _ =>
        prefixed (opening c) (try_eff (after_open ext m) log_handler_error (forced_open c))
    | Raise e =>
        (Ok tt, forced_open c,
         opening c ++ [EvLog ERROR "Error processing data channel message" (Some e)])
    end.
Proof.
  unfold on_data_channel_message, try_eff. rewrite body_split.
  unfold ebind at 1. rewrite force_open_spec.
  destruct (open_result c) as [[] | e]; [| reflexivity].
  unfold log_handler_error, emit.
  destruct (after_open ext m (forced_open c)) as [[[[] | e] s1] t1];
    unfold prefixed, result_of, state_of, trace_of; simpl; rewrite ?app_assoc; reflexivity.
Qed.

(** When [on_open] raises in the workaround, the message is dropped. *)
Lemma handler_dropped (ext : Externals) (m : message) (c : Go2Connection) (e : pyexn) :
  open_result c = Raise e ->
  on_data_channel_message ext m c
  = (Ok tt, forced_open c,
     opening c ++ [EvLog ERROR "Error processing data channel message" (Some e)]).
Proof. intro H. rewrite handler_run, H. reflexivity. Qed.

Lemma forced_open_fields (c : Go2Connection) :
  is_open (readyState (data_channel (forced_open c))) = true
  /\ is_validated (forced_open c) = is_validated c
  /\ on_message (forced_open c) = on_message c
  /\ on_validated (forced_open c) = on_validated c
  /\ _decode_message (forced_open c) = _decode_message c
  /\ robot_num (forced_open c) = robot_num c
  /\ dc_sent (data_channel (forced_open c)) = dc_sent (data_channel c).
Proof.
  unfold forced_open.
  destruct (is_open (readyState (data_channel c))) eqn:Hopen; simpl; auto 10.
Qed.

Lemma forced_open_settled (c : Go2Connection) :
  open_result (forced_open c) = Ok tt
  /\ opening (forced_open c) = []
  /\ forced_open (forced_open c) = forced_open c.
Proof.
  apply open_result_when_open. exact (proj1 (forced_open_fields c)).
Qed.

Lemma on_go2_message_spec (rd : RobotData) (st : WebRTCRelayAppState)
    (dc : DataChannel) (m : message) :
  relay_rtc_data_channel st = Some dc ->
  readyState dc = RS_open ->
  raw_message rd = Some m ->
  is_wire m = true ->
  _on_go2_message rd st = (Ok tt, with_relay_dc st (Some (dc_append dc m)), []).
Proof.
  intros Hdc Hopen Hraw Hwire.
  unfold _on_go2_message, ebind, get, try_eff, on_some, dc_send.
  rewrite Hdc, Hopen, Hraw. simpl.
  destruct m; simpl in *; try discriminate; rewrite ?Hopen; reflexivity.
Qed.

(** ** Validation happens at most once *)

Lemma validated_calls_app (t1 t2 : list event) :
  validated_calls (t1 ++ t2) = validated_calls t1 ++ validated_calls t2.
Proof. apply filter_app. Qed.

Lemma same_session_trans (c1 c2 c3 : Go2Connection) :
  same_session c1 c2 -> same_session c2 c3 -> same_session c1 c3.
Proof. unfold same_session. intros [H1 H2] [H3 H4]. split; congruence. Qed.

Lemma same_session_registered (c c' : Go2Connection) :
  same_session c c' -> registered c' = registered c.
Proof. unfold same_session, registered. intros [-> _]. reflexivity. Qed.

Lemma quiet_ret {A : Type} (a : A) : quiet (ret a).
Proof. intro c. repeat split. Qed.

Lemma quiet_raise {A : Type} (e : pyexn) : quiet (@raise Go2Connection A e).
Proof. intro c. repeat split. Qed.

Lemma quiet_get : quiet (@get Go2Connection).
Proof. intro c. repeat split. Qed.

Lemma quiet_lift {A : Type} (r : pyresult A) : quiet (lift r).
Proof. intro c. repeat split. Qed.

Lemma quiet_emit (ev : event) : is_on_validated ev = false -> quiet (emit ev).
Proof.
  intros Hev c. unfold emit, state_of, trace_of, validated_calls. simpl.
  rewrite Hev. repeat split.
Qed.

Lemma quiet_bind {A B : Type} (m : eff Go2Connection A) (k : A -> eff Go2Connection B) :
  quiet m -> (forall a, quiet (k a)) -> quiet (ebind m k).
Proof.
  intros Hm Hk c. unfold ebind.
  destruct (Hm c) as (Hv & Hcb & Htr).
  destruct (m c) as [[[a | e] s1] t1]; unfold state_of, trace_of in *; simpl in *.
  - destruct (Hk a s1) as (Hv2 & Hcb2 & Htr2).
    destruct (k a s1) as [[r2 s2] t2]; unfold state_of, trace_of in *; simpl in *.
    rewrite validated_calls_app, Htr, Htr2.
    split; [congruence | split; [eapply same_session_trans; eassumption | reflexivity]].
  - auto.
Qed.

Lemma quiet_try {A : Type} (m : eff Go2Connection A) (h : pyexn -> eff Go2Connection A) :
  quiet m -> (forall e, quiet (h e)) -> quiet (try_eff m h).
Proof.
  intros Hm Hh c. unfold try_eff.
  destruct (Hm c) as (Hv & Hcb & Htr).
  destruct (m c) as [[[a | e] s1] t1]; unfold state_of, trace_of in *; simpl in *.
  - auto.
  - destruct (Hh e s1) as (Hv2 & Hcb2 & Htr2).
    destruct (h e s1) as [[r2 s2] t2]; unfold state_of, trace_of in *; simpl in *.
    rewrite validated_calls_app, Htr, Htr2.
    split; [congruence | split; [eapply same_session_trans; eassumption | reflexivity]].
Qed.

Lemma quiet_on_channel {A : Type} (m : eff DataChannel A) :
  (forall dc, validated_calls (trace_of (m dc)) = []) -> quiet (on_channel m).
Proof.
  intros Hm c. unfold on_channel, focus.
  specialize (Hm (data_channel c)).
  destruct (m (data_channel c)) as [[r d] t]. unfold state_of, trace_of in *; simpl in *.
  repeat split; assumption.
Qed.

Lemma quiet_send (m : message) : quiet (on_channel (dc_send m)).
Proof.
  apply quiet_on_channel. intro dc. unfold dc_send.
  destruct (is_open (readyState dc)); [destruct m |]; reflexivity.
Qed.

Lemma quiet_publish (ext : Externals) (topic data : pyval) (ty : string) :
  quiet (publish ext topic data ty).
Proof.
  unfold publish. apply quiet_try.
  - apply quiet_send.
  - intro e. apply quiet_emit. reflexivity.
Qed.

Lemma quiet_parse (ext : Externals) (s : string) :
  quiet (parse_datachannel_message ext s).
Proof.
  unfold parse_datachannel_message.
  destruct (json_loads ext s) as [v | e]; [apply quiet_ret |].
  destruct (exn_cls e);
    (apply quiet_bind; [apply quiet_emit; reflexivity | intros _; apply quiet_raise]).
Qed.

Lemma quiet_call_on_message (cb : on_message_cb) (rd : RobotData) :
  quiet (call_on_message cb rd).
Proof.
  unfold call_on_message. apply quiet_bind.
  - apply quiet_emit. reflexivity.
  - intros _. destruct cb; [apply quiet_ret | apply quiet_lift].
Qed.

Lemma quiet_hand_over (cb : on_message_cb) (rd : option RobotData) (m : message) :
  quiet (hand_over cb rd m).
Proof.
  destruct rd; simpl; [apply quiet_call_on_message | apply quiet_ret].
Qed.

Lemma quiet_dispatch (ext : Externals) (m : message) (raw : option pyval) :
  quiet (dispatch_message ext m raw).
Proof.
  unfold dispatch_message. apply quiet_bind; [apply quiet_get |].
  intro c. destruct (on_message c) as [cb |]; [| apply quiet_ret].
  destruct (negb (_decode_message c)); [apply quiet_call_on_message |].
  destruct m as [s | b | v].
  - apply quiet_bind.
    + destruct raw; [apply quiet_ret | apply quiet_parse].
    + intro obj. apply quiet_bind; [apply quiet_lift |].
      intro rd. apply quiet_hand_over.
  - apply quiet_bind; [apply quiet_lift |].
    intros [frame |].
    + apply quiet_bind; [apply quiet_lift | intro rd; apply quiet_hand_over].
    + apply quiet_hand_over.
  - apply quiet_emit. reflexivity.
Qed.


Lemma quiet_counted {A : Type} (m : eff Go2Connection A) : quiet m -> counted m.
Proof.
  intros Hm c Hc. destruct (Hm c) as (Hv & Hsame & Htr).
  rewrite Hv, Hc, Htr. simpl. auto.
Qed.

Lemma counted_bind {A B : Type} (m : eff Go2Connection A) (k : A -> eff Go2Connection B) :
  quiet m -> (forall a, counted (k a)) -> counted (ebind m k).
Proof.
  intros Hm Hk c Hc. unfold ebind.
  destruct (Hm c) as (Hv & Hsame & Htr).
  destruct (m c) as [[[a | e] s1] t1]; unfold state_of, trace_of in *; simpl in *.
  - assert (Hs1 : is_validated s1 = false) by congruence.
    destruct (Hk a s1 Hs1) as (Hsame2 & Htr2).
    pose proof (same_session_registered _ _ Hsame) as Hreg.
    destruct Hsame as [Hcb Hnum].
    destruct (k a s1) as [[r2 s2] t2]; unfold state_of, trace_of in *; simpl in *.
    rewrite validated_calls_app, Htr, Htr2, Hreg, Hnum. simpl.
    split; [eapply same_session_trans; [split |]; eassumption | reflexivity].
  - rewrite Hv, Hc, Htr. simpl. auto.
Qed.

Lemma counted_try {A : Type} (m : eff Go2Connection A) (h : pyexn -> eff Go2Connection A) :
  counted m -> (forall e, quiet (h e)) -> counted (try_eff m h).
Proof.
  intros Hm Hh c Hc. unfold try_eff.
  destruct (Hm c Hc) as (Hsame & Htr).
  destruct (m c) as [[[a | e] s1] t1]; unfold state_of, trace_of in *; simpl in *.
  - auto.
  - destruct (Hh e s1) as (Hv2 & Hsame2 & Htr2).
    destruct (h e s1) as [[r2 s2] t2]; unfold state_of, trace_of in *; simpl in *.
    rewrite validated_calls_app, Htr, Htr2, Hv2, app_nil_r.
    split; [eapply same_session_trans; eassumption | reflexivity].
Qed.

Lemma counted_validate (ext : Externals) (data : pyval) :
  counted (validate_robot_conn ext data).
Proof.
  unfold validate_robot_conn.
  apply counted_try; [| intro e; apply quiet_emit; reflexivity].
  destruct (py_eq_str data "Validation Ok.").
  - apply counted_bind; [apply quiet_publish |]. intros _.
    intros c Hc. unfold ebind, get, put, call_on_validated, emit, ret, lift, registered,
      state_of, trace_of, same_session.
    destruct (on_validated c) as [[topics | run] |] eqn:Hcb; simpl.
    + auto.
    + destruct (run (robot_num c)); simpl; auto.
    + auto.
  - apply quiet_counted, quiet_publish.
Qed.

Lemma counted_gate (ext : Externals) (s : string) : counted (validation_gate ext s).
Proof.
  unfold validation_gate.
  apply counted_bind; [apply quiet_parse |]. intro raw.
  apply counted_bind; [apply quiet_lift |]. intro ty.
  destruct (py_eq_str ty "validation").
  - apply counted_bind; [apply quiet_lift |]. intro data. apply counted_validate.
  - apply quiet_counted, quiet_dispatch.
Qed.

(** ** The message handler of a session *)

Lemma try_log_ok (m : eff Go2Connection unit) (c : Go2Connection) :
  result_of (try_eff m log_handler_error c) = Ok tt.
Proof.
  unfold try_eff, log_handler_error, emit, result_of.
  destruct (m c) as [[[[] | e] s] t]; reflexivity.
Qed.

Lemma handler_when_gated (ext : Externals) (s : string) (c : Go2Connection) :
  open_result c = Ok tt ->
  is_validated c = false ->
  on_data_channel_message ext (MsgStr s) c
  = prefixed (opening c)
      (try_eff (validation_gate ext s) log_handler_error (forced_open c)).
Proof.
  intros Ho Hc. destruct (forced_open_fields c) as (_ & Hv & _).
  rewrite handler_run, Ho. f_equal.
  unfold try_eff, after_open, ebind at 1, get. rewrite Hv, Hc.
  cbv beta iota delta [negb].
  destruct (validation_gate ext s (forced_open c)) as [[[[] | e] s1] t1]; reflexivity.
Qed.

Lemma handler_when_open (ext : Externals) (m : message) (c : Go2Connection) :
  open_result c = Ok tt ->
  is_validated c = true \/ (forall s, m <> MsgStr s) ->
  on_data_channel_message ext m c
  = prefixed (opening c)
      (try_eff (dispatch_message ext m None) log_handler_error (forced_open c)).
Proof.
  intros Ho Hc. destruct (forced_open_fields c) as (_ & Hv & _).
  rewrite handler_run, Ho. f_equal.
  unfold try_eff, after_open, ebind at 1, get.
  destruct m as [s | b | v]; cbv beta iota.
  - destruct Hc as [Hc | Hc]; [| exfalso; exact (Hc s eq_refl)].
    rewrite Hv, Hc. cbv beta iota delta [negb].
    destruct (dispatch_message ext (MsgStr s) None (forced_open c))
      as [[[[] | e] s1] t1]; reflexivity.
  - destruct (dispatch_message ext (MsgBytes b) None (forced_open c))
      as [[[[] | e] s1] t1]; reflexivity.
  - destruct (dispatch_message ext (MsgOther v) None (forced_open c))
      as [[[[] | e] s1] t1]; reflexivity.
Qed.

Lemma quiet_log_handler (e : pyexn) : quiet (log_handler_error e).
Proof. apply quiet_emit. reflexivity. Qed.

Lemma forced_open_same (c : Go2Connection) : same_session c (forced_open c).
Proof.
  destruct (forced_open_fields c) as (_ & _ & _ & Hcb & _ & Hn & _). split; assumption.
Qed.

Lemma handler_step (ext : Externals) (m : message) (c : Go2Connection) :
  let r := on_data_channel_message ext m c in
  result_of r = Ok tt
  /\ same_session c (state_of r)
  /\ (is_validated c = true ->
      is_validated (state_of r) = true /\ validated_calls (trace_of r) = [])
  /\ (is_validated c = false ->
      validated_calls (trace_of r)
      = if is_validated (state_of r) && registered c
        then [EvOnValidated (robot_num c)] else []).
Proof.
  cbv zeta.
  destruct (forced_open_fields c) as (_ & Hv & _).
  pose proof (forced_open_same c) as Hfo.
  pose proof (same_session_registered _ _ Hfo) as Hreg.
  destruct (open_result c) as [[] | e] eqn:Ho.
  2: { rewrite (handler_dropped ext m c e Ho). project_triples.
       assert (Hcalls : validated_calls
                          (opening c
                           ++ [EvLog ERROR "Error processing data channel message" (Some e)])
                        = [])
         by (rewrite validated_calls_app, validated_calls_opening; reflexivity).
       split; [reflexivity |]. split; [exact Hfo |]. split.
       - intro Hc. split; [congruence | exact Hcalls].
       - intro Hc. rewrite Hcalls, Hv, Hc. reflexivity. }
  assert (Hquiet : is_validated c = true \/ (forall s, m <> MsgStr s) ->
                   result_of (on_data_channel_message ext m c) = Ok tt
                   /\ same_session c (state_of (on_data_channel_message ext m c))
                   /\ is_validated (state_of (on_data_channel_message ext m c))
                      = is_validated c
                   /\ validated_calls (trace_of (on_data_channel_message ext m c)) = []).
  { intro Hc. rewrite (handler_when_open ext m c Ho Hc).
    rewrite result_of_prefixed, state_of_prefixed, trace_of_prefixed,
      validated_calls_app, validated_calls_opening.
    destruct (quiet_try _ _ (quiet_dispatch ext m None) quiet_log_handler (forced_open c))
      as (Hv' & Hs' & Ht').
    split; [apply try_log_ok |].
    split; [eapply same_session_trans; eassumption |].
    split; [congruence | assumption]. }
  destruct (is_validated c) eqn:Hc.
  - destruct (Hquiet (or_introl eq_refl)) as (Hr & Hs & Hval & Ht).
    split; [assumption |]. split; [assumption |].
    split; [intros _; split; assumption | discriminate].
  - destruct m as [s | b | v].
    + rewrite (handler_when_gated ext s c Ho Hc).
      rewrite result_of_prefixed, state_of_prefixed, trace_of_prefixed,
        validated_calls_app, validated_calls_opening.
      assert (Hc1 : is_validated (forced_open c) = false) by congruence.
      destruct (counted_try _ _ (counted_gate ext s) quiet_log_handler (forced_open c) Hc1)
        as (Hs' & Ht').
      split; [apply try_log_ok |].
      split; [eapply same_session_trans; eassumption |].
      split; [discriminate |].
      intros _. simpl app. rewrite Ht', Hreg. destruct Hfo as [_ ->]. reflexivity.
    + destruct Hquiet as (Hr & Hs & Hval & Ht); [right; discriminate |].
      rewrite Hval, Ht.
      split; [assumption |]. split; [assumption |]. split; [discriminate | reflexivity].
    + destruct Hquiet as (Hr & Hs & Hval & Ht); [right; discriminate |].
      rewrite Hval, Ht.
      split; [assumption |]. split; [assumption |]. split; [discriminate | reflexivity].
Qed.

Lemma session_run_spec (ext : Externals) (msgs : list message) :
  forall c,
    let r := session_run ext msgs c in
    result_of r = Ok tt
    /\ same_session c (state_of r)
    /\ (is_validated c = true ->
        is_validated (state_of r) = true /\ validated_calls (trace_of r) = [])
    /\ (is_validated c = false ->
        validated_calls (trace_of r)
        = if is_validated (state_of r) && registered c
          then [EvOnValidated (robot_num c)] else []).
Proof.
  induction msgs as [| m rest IH]; intro c; cbv zeta.
  - unfold ret, result_of, state_of, trace_of, same_session. simpl.
    repeat split; auto. intros ->. reflexivity.
  - destruct (handler_step ext m c) as (Hr & Hs & Hval & Hun).
    cbn [session_run]. unfold ebind.
    destruct (on_data_channel_message ext m c) as [[r1 c1] t1].
    unfold result_of, state_of, trace_of in Hr, Hs, Hval, Hun. simpl in Hr, Hs, Hval, Hun.
    subst r1.
    destruct (IH c1) as (Hr2 & Hs2 & Hval2 & Hun2).
    pose proof (same_session_registered _ _ Hs) as Hreg.
    destruct (session_run ext rest c1) as [[r2 c2] t2].
    unfold result_of, state_of, trace_of in *. simpl in *.
    split; [assumption |].
    split; [eapply same_session_trans; eassumption |].
    rewrite validated_calls_app.
    split.
    + intro Hc. destruct (Hval Hc) as [Hc1 Ht1]. destruct (Hval2 Hc1) as [Hc2 Ht2].
      rewrite Ht1, Ht2. auto.
    + intro Hc. rewrite (Hun Hc).
      destruct (is_validated c1) eqn:Hc1.
      * destruct (Hval2 eq_refl) as [Hc2 Ht2]. rewrite Hc2, Ht2, app_nil_r. reflexivity.
      * rewrite (Hun2 eq_refl), Hreg. destruct Hs as [_ ->]. reflexivity.
Qed.

Lemma validate_ok_run (ext : Externals) (data : pyval) (c : Go2Connection) :
  py_eq_str data "Validation Ok." = true ->
  is_open (readyState (data_channel c)) = true ->
  validate_robot_conn ext data c
  = let validated := with_is_validated (queued c (vid_on ext)) true in
    match on_validated c with
    | None => (Ok tt, validated, [])
    | Some (RelayOnValidated _) => (Ok tt, validated, [EvOnValidated (robot_num c)])
    | Some (UserOnValidated run) =>
        match run (robot_num c) with
        | Ok _ => (Ok tt, validated, [EvOnValidated (robot_num c)])
        | Raise e =>
            (Ok tt, validated,
             [EvOnValidated (robot_num c);
              EvLog ERROR "Error in robot validation" (Some e)])
        end
    end.
Proof.
  intros Hok Hopen.
  unfold validate_robot_conn. rewrite Hok.
  unfold try_eff, ebind, get, put, call_on_validated, emit, ret, lift, vid_on.
  rewrite publish_spec, Hopen. simpl.
  destruct (on_validated c) as [[topics | run] |]; simpl; try reflexivity.
  destruct (run (robot_num c)) as [[] | e]; reflexivity.
Qed.

Lemma validate_ok_spec (ext : Externals) (data : pyval) (c : Go2Connection) :
  py_eq_str data "Validation Ok." = true ->
  is_open (readyState (data_channel c)) = true ->
  let r := validate_robot_conn ext data c in
  result_of r = Ok tt
  /\ state_of r = with_is_validated (queued c (vid_on ext)) true
  /\ validated_calls (trace_of r)
     = if registered c then [EvOnValidated (robot_num c)] else [].
Proof.
  intros Hok Hopen. cbv zeta.
  rewrite (validate_ok_run ext data c Hok Hopen). unfold registered.
  destruct (on_validated c) as [[topics | run] |]; simpl; auto.
  destruct (run (robot_num c)) as [[] | e]; simpl; auto.
Qed.

Lemma validate_challenge_spec (ext : Externals) (data : pyval) (c : Go2Connection) :
  py_eq_str data "Validation Ok." = false ->
  is_open (readyState (data_channel c)) = true ->
  validate_robot_conn ext data c = (Ok tt, queued c (validation_reply ext data), []).
Proof.
  intros Hno Hopen.
  unfold validate_robot_conn. rewrite Hno.
  unfold try_eff. rewrite publish_spec, Hopen. reflexivity.
Qed.

Lemma gate_on_validation (ext : Externals) (s : string) (obj ty data : pyval)
    (c : Go2Connection) :
  json_loads ext s = Ok obj ->
  subscript obj "type" = Ok ty ->
  py_eq_str ty "validation" = true ->
  subscript obj "data" = Ok data ->
  validation_gate ext s c = validate_robot_conn ext data c.
Proof.
  intros Hload Hty Hval Hdata.
  unfold validation_gate, parse_datachannel_message, ebind, lift, ret.
  rewrite Hload, Hty, Hval, Hdata.
  destruct (validate_robot_conn ext data c) as [[r s1] t1]. reflexivity.
Qed.

(** ** C6: the validation handshake *)

(** C6 (amended): a validation message that arrives while the session
    is unvalidated is answered as follows, provided the open-state
    workaround at the top of the handler does not raise -- that is, the
    channel is already open, or no [on_open] is registered, or [on_open]
    returns.  If its data is the literal "Validation Ok.", the message
    with type "vid", empty topic and data "on" is published, is_validated
    becomes true and the registered on_validated callback is invoked once,
    with the robot number.  Otherwise the message with type "validation",
    empty topic and, as data, the base64 of the MD5 hex digest of
    "UnitreeGo2_" followed by the challenge is published, is_validated
    stays false, nothing is logged and nothing raised.  When [on_open]
    raises in the workaround, the validation message is dropped: nothing is
    published, is_validated stays as it was and on_validated is not
    invoked.  Over any sequence of inbound messages of a session that
    starts unvalidated the callback is invoked exactly once if the session
    gets validated (and a callback is registered), and never otherwise. *)
Theorem validation_handshake (ext : Externals) :
  (forall c s obj ty data,
     is_validated c = false ->
     open_result c = Ok tt ->
     json_loads ext s = Ok obj ->
     subscript obj "type" = Ok ty ->
     py_eq_str ty "validation" = true ->
     subscript obj "data" = Ok data ->
     let r := on_data_channel_message ext (MsgStr s) c in
     result_of r = Ok tt
     /\ if py_eq_str data "Validation Ok." then
          is_validated (state_of r) = true
          /\ dc_sent (data_channel (state_of r))
             = dc_sent (data_channel c)
               ++ [MsgStr (json_dumps ext
                             (PDict [("type", PStr "vid"); ("topic", PStr EmptyString);
                                     ("data", PStr "on")]))]
          /\ validated_calls (trace_of r)
             = (if registered c then [EvOnValidated (robot_num c)] else [])
        else
          is_validated (state_of r) = false
          /\ dc_sent (data_channel (state_of r))
             = dc_sent (data_channel c)
               ++ [MsgStr (json_dumps ext
                             (PDict [("type", PStr "validation");
                                     ("topic", PStr EmptyString);
                                     ("data",
                                      PStr (hex_to_base64 ext
                                              (md5_hexdigest ext
                                                 ("UnitreeGo2_" ++ py_str ext data)%string)))]))]
          /\ trace_of r = opening c)
  /\ (forall c m e,
       open_result c = Raise e ->
       let r := on_data_channel_message ext m c in
       result_of r = Ok tt
       /\ is_validated (state_of r) = is_validated c
       /\ dc_sent (data_channel (state_of r)) = dc_sent (data_channel c)
       /\ trace_of r
          = [EvOnOpen; EvLog ERROR "Error processing data channel message" (Some e)])
  /\ (forall msgs c,
       is_validated c = false ->
       let r := session_run ext msgs c in
       result_of r = Ok tt
       /\ validated_calls (trace_of r)
          = if is_validated (state_of r) && registered c
            then [EvOnValidated (robot_num c)] else []).
Proof.
  split; [| split].
  - intros c s obj ty data Hc Ho Hload Hty Hval Hdata. cbv zeta.
    destruct (forced_open_fields c) as (Hopen & Hv & _ & Hcb & _ & Hn & Hsent).
    rewrite (handler_when_gated ext s c Ho Hc).
    rewrite result_of_prefixed, state_of_prefixed, trace_of_prefixed.
    split; [apply try_log_ok |].
    unfold try_eff.
    rewrite (gate_on_validation ext s obj ty data (forced_open c) Hload Hty Hval Hdata).
    destruct (py_eq_str data "Validation Ok.") eqn:Hok.
    + destruct (validate_ok_spec ext data (forced_open c) Hok Hopen) as (Hr & Hs & Ht).
      destruct (validate_robot_conn ext data (forced_open c)) as [[r1 c1] t1].
      unfold result_of, state_of, trace_of in *. simpl in *. subst r1 c1. simpl.
      rewrite validated_calls_app, validated_calls_opening. simpl app.
      unfold registered in *. rewrite Hsent, Ht, Hcb, Hn. auto.
    + rewrite (validate_challenge_spec ext data (forced_open c) Hok Hopen).
      unfold state_of, trace_of. simpl. rewrite Hv, Hc, Hsent, app_nil_r. auto.
  - intros c m e Ho. cbv zeta.
    destruct (forced_open_fields c) as (_ & Hv & _ & _ & _ & _ & Hsent).
    rewrite (handler_dropped ext m c e Ho). project_triples.
    assert (Hopening : opening c = [EvOnOpen]).
    { unfold open_result, opening in *.
      destruct (is_open (readyState (data_channel c))); [discriminate |].
      destruct (on_open c); [reflexivity | discriminate]. }
    rewrite Hopening. auto.
  - intros msgs c Hc. cbv zeta.
    destruct (session_run_spec ext msgs c) as (Hr & _ & _ & Hun).
    split; [exact Hr | exact (Hun Hc)].
Qed.

(** ** C9: malformed JSON and bad telemetry *)

Lemma parse_raises (S : Type) (ext : Externals) (s : string) (e : pyexn) (st : S) :
  json_loads ext s = Raise e ->
  exists why, parse_datachannel_message ext s st
              = (Raise decode_error, st, [EvLog WARNING why None]).
Proof.
  intro Hload. unfold parse_datachannel_message. rewrite Hload.
  destruct (exn_cls e); eexists; reflexivity.
Qed.

Lemma dropped_after_decode_error (m : eff Go2Connection unit) (c : Go2Connection)
    (why : string) :
  m c = (Raise decode_error, c, [EvLog WARNING why None]) ->
  let r := try_eff m log_handler_error c in
  result_of r = Ok tt
  /\ state_of r = c
  /\ filter is_error_log (trace_of r)
     = [EvLog ERROR "Error processing data channel message" (Some decode_error)]
  /\ delivered (trace_of r) = []
  /\ validated_calls (trace_of r) = [].
Proof.
  intro Hm. unfold try_eff. rewrite Hm. repeat split.
Qed.

Lemma opening_filters (c : Go2Connection) :
  filter is_error_log (opening c) = [] /\ delivered (opening c) = [].
Proof.
  unfold opening.
  destruct (is_open (readyState (data_channel c))); [split; reflexivity |].
  destruct (on_open c); split; reflexivity.
Qed.

(** C9 (amended): for a string that is not valid JSON,
    [parse_datachannel_message] raises the ValueError to its caller and
    never returns a value.  Both of its callers catch that error.
    [on_data_channel_message], which calls it for every text message of an
    unvalidated session and for every text message it has to decode -- once
    the open-state workaround has not raised -- logs the error at error
    level, drops the message without invoking on_message or on_validated,
    and returns normally; it never raises, whatever the message.  The
    client's [_on_peer_datachannel_message] logs the error as a warning,
    calls no callback and returns normally.  A telemetry validation failure
    raises nothing: the parsers return [None]. *)
Theorem decode_errors_raise_and_are_logged (ext : Externals) :
  (forall (S : Type) s e (st : S),
     json_loads ext s = Raise e ->
     result_of (parse_datachannel_message ext s st) = Raise decode_error)
  /\ (forall m c, result_of (on_data_channel_message ext m c) = Ok tt)
  /\ (forall s e c,
       json_loads ext s = Raise e ->
       open_result c = Ok tt ->
       is_validated c = false
       \/ (exists cb, on_message c = Some cb) /\ _decode_message c = true ->
       let r := on_data_channel_message ext (MsgStr s) c in
       result_of r = Ok tt
       /\ state_of r = forced_open c
       /\ filter is_error_log (trace_of r)
          = [EvLog ERROR "Error processing data channel message" (Some decode_error)]
       /\ delivered (trace_of r) = []
       /\ validated_calls (trace_of r) = [])
  /\ (forall s e decode_array_buffer on_robot_data on_lidar_frame calls,
       json_loads ext s = Raise e ->
       exists why,
         _on_peer_datachannel_message ext decode_array_buffer on_robot_data on_lidar_frame
           (MsgStr s) calls
         = (Ok tt, calls, [EvLog WARNING why None; client_warning decode_error]))
  /\ (forall data, sport_checked_nonfinite data = true -> parse_sport_mode_state data = None)
  /\ (forall data, odometry_nonfinite data = true -> parse_odometry_data data = None).
Proof.
  split; [| split; [| split; [| split; [| split]]]].
  - intros S s e st Hload.
    destruct (parse_raises S ext s e st Hload) as (why & ->). reflexivity.
  - intros m c. destruct (handler_step ext m c) as (Hr & _). exact Hr.
  - intros s e c Hload Ho Hcase.
    destruct (forced_open_fields c) as (_ & Hv & Hm & _ & Hd & _).
    destruct (opening_filters c) as (Hlog & Hdel).
    destruct (parse_raises Go2Connection ext s e (forced_open c) Hload) as (why & Hparse).
    assert (Hgoal : forall body,
              body (forced_open c)
              = (Raise decode_error, forced_open c, [EvLog WARNING why None]) ->
              let r := prefixed (opening c) (try_eff body log_handler_error (forced_open c)) in
              result_of r = Ok tt
              /\ state_of r = forced_open c
              /\ filter is_error_log (trace_of r)
                 = [EvLog ERROR "Error processing data channel message" (Some decode_error)]
              /\ delivered (trace_of r) = []
              /\ validated_calls (trace_of r) = []).
    { intros body Hbody. cbv zeta.
      destruct (dropped_after_decode_error body (forced_open c) why Hbody)
        as (Hr & Hs & Hl & Hd' & Hc').
      rewrite result_of_prefixed, state_of_prefixed, trace_of_prefixed.
      unfold delivered in *.
      rewrite filter_app, Hlog, validated_calls_app, validated_calls_opening,
        filter_app, Hdel.
      simpl app. auto. }
    destruct (is_validated c) eqn:Hc.
    + destruct Hcase as [Hcase | [(cb & Hcb) Hdec]]; [discriminate |].
      rewrite (handler_when_open ext (MsgStr s) c Ho (or_introl Hc)).
      apply Hgoal.
      unfold dispatch_message, ebind, get. rewrite Hm, Hcb, Hd, Hdec.
      cbv beta iota delta [negb]. rewrite Hparse. reflexivity.
    + rewrite (handler_when_gated ext s c Ho Hc).
      apply Hgoal.
      unfold validation_gate, ebind. rewrite Hparse. reflexivity.
  - intros s e decode_array_buffer on_robot_data on_lidar_frame calls Hload.
    destruct (parse_raises (list client_call) ext s e calls Hload) as (why & Hparse).
    exists why.
    unfold _on_peer_datachannel_message, try_eff, ebind. rewrite Hparse. reflexivity.
  - exact sport_nonfinite_rejected.
  - exact odometry_nonfinite_rejected.
Qed.

(** * Further properties *)

(** ** The decoder, in the other direction *)

Lemma subscript_some (v : pyval) (k : string) (x : pyval) :
  field_of v k = Some x -> subscript v k = Ok x.
Proof.
  destruct v; simpl; try discriminate. intros ->. reflexivity.
Qed.

Lemma subscript_none (v : pyval) (k : string) :
  field_of v k = None -> exists e, subscript v k = Raise e.
Proof.
  destruct v; simpl; try (intros _; eexists; reflexivity).
  intros ->. eexists; reflexivity.
Qed.

Lemma all_finite_numbers_valid (items : list pyval) :
  all_finite_numbers items = Ok true <-> forallb valid_number items = true.
Proof.
  induction items as [| x rest IH]; simpl; [tauto |].
  unfold valid_number at 1.
  destruct (is_finite_number x) as [[|] | e]; simpl; try tauto.
  - split; discriminate.
  - split; discriminate.
Qed.

Lemma all_finite_numbers_invalid (items : list pyval) :
  forallb valid_number items = false -> all_finite_numbers items <> Ok true.
Proof.
  intros H Hok. apply all_finite_numbers_valid in Hok. congruence.
Qed.

Lemma validated_float_list_valid (v : pyval) :
  valid_list v = true -> _validated_float_list v = Ok v.
Proof.
  unfold valid_list, _validated_float_list.
  destruct (py_iter v) as [items | e]; [| discriminate].
  intro H. apply all_finite_numbers_valid in H. simpl. rewrite H. reflexivity.
Qed.

Lemma validated_float_list_returns (v out : pyval) :
  _validated_float_list v = Ok out -> out = v /\ valid_list v = true.
Proof.
  unfold valid_list, _validated_float_list. intro H.
  apply bind_ok in H. destruct H as (items & Hit & H). rewrite Hit.
  apply bind_ok in H. destruct H as (ok & Hall & H).
  destruct ok; [| discriminate]. injection H as <-.
  split; [reflexivity | apply all_finite_numbers_valid; assumption].
Qed.

Lemma validated_float_valid (v : pyval) :
  valid_number v = true -> exists f, _validated_float v = Ok f.
Proof.
  unfold valid_number, _validated_float.
  destruct v; simpl; try discriminate.
  - intros _. destruct b; eexists; reflexivity.
  - destruct (int_to_float z) as [f | e] eqn:Hz; simpl; [| discriminate].
    intros _. eexists; reflexivity.
  - destruct (float_isfinite f); [| discriminate]. intros _. eexists; reflexivity.
Qed.

Lemma validated_float_returns (v : pyval) (f : spec_float) :
  _validated_float v = Ok f -> valid_number v = true.
Proof.
  unfold valid_number, _validated_float. intro H.
  apply bind_ok in H. destruct H as (ok & Hfin & H).
  destruct ok; [| discriminate]. rewrite Hfin. reflexivity.
Qed.

Ltac lookup_or_fail d k :=
  let F := fresh "F" in
  let x := fresh "x" in
  let e := fresh "e" in
  destruct (field_of d k) as [x |] eqn:F;
  [rewrite (subscript_some d k x F)
  | destruct (subscript_none d k F) as [e ->]];
  cbn [bind try_except].

(** X1: [parse_odometry_data] returns a record exactly when the seven
    scalars are there and each is a bool, an int that converts to a float,
    or a finite float; the record then holds the position and orientation
    objects of the payload themselves. *)
Theorem odometry_accepts_exactly (data : pyval) :
  parse_odometry_data data
  = if odometry_well_formed data then
      match at_path data ["pose"; "position"], at_path data ["pose"; "orientation"] with
      | Some position, Some orientation => Some (mkOdometryData position orientation)
      | _, _ => None
      end
    else None.
Proof.
  unfold parse_odometry_data, odometry_well_formed, odometry_scalars.
  cbn [forallb at_path].
  lookup_or_fail data "pose"; [| reflexivity].
  lookup_or_fail x "position"; [| reflexivity].
  lookup_or_fail x "orientation"; [| simpl; rewrite !andb_false_r; reflexivity].
  lookup_or_fail x0 "x"; [| reflexivity].
  lookup_or_fail x0 "y"; [| simpl; rewrite !andb_false_r; reflexivity].
  lookup_or_fail x0 "z"; [| simpl; rewrite !andb_false_r; reflexivity].
  lookup_or_fail x1 "x"; [| simpl; rewrite !andb_false_r; reflexivity].
  lookup_or_fail x1 "y"; [| simpl; rewrite !andb_false_r; reflexivity].
  lookup_or_fail x1 "z"; [| simpl; rewrite !andb_false_r; reflexivity].
  lookup_or_fail x1 "w"; [| simpl; rewrite !andb_false_r; reflexivity].
  cbn [bind app].
  match goal with
  | |- context [all_finite_numbers ?l] =>
      pose proof (all_finite_numbers_valid l) as Hall;
      destruct (all_finite_numbers l) as [[|] | e] eqn:Hnum
  end; cbn [forallb app] in Hall.
  - rewrite (proj1 Hall eq_refl). reflexivity.
  - simpl. destruct (valid_number x2 && _)%bool; [| reflexivity].
    pose proof (proj2 Hall eq_refl). discriminate.
  - simpl. destruct (valid_number x2 && _)%bool; [| reflexivity].
    pose proof (proj2 Hall eq_refl). discriminate.
Qed.

Lemma validated_float_list_invalid (v : pyval) :
  valid_list v = false -> exists e, _validated_float_list v = Raise e.
Proof.
  intro H. destruct (_validated_float_list v) as [out | e] eqn:E; [| eexists; reflexivity].
  apply validated_float_list_returns in E. destruct E as [_ E]. congruence.
Qed.

Lemma validated_float_invalid (v : pyval) :
  valid_number v = false -> exists e, _validated_float v = Raise e.
Proof.
  intro H. destruct (_validated_float v) as [f | e] eqn:E; [| eexists; reflexivity].
  apply validated_float_returns in E. congruence.
Qed.

Ltac field_or_fail d k :=
  let F := fresh "F" in
  let x := fresh "x" in
  let e := fresh "e" in
  unfold has_field at 1;
  destruct (field_of d k) as [x |] eqn:F;
  [rewrite (subscript_some d k x F)
  | destruct (subscript_none d k F) as [e ->]];
  cbn [bind try_except anything andb];
  [| rewrite ?andb_false_r; reflexivity].

Ltac list_or_fail x :=
  let V := fresh "V" in
  let e := fresh "e" in
  destruct (valid_list x) eqn:V;
  [rewrite (validated_float_list_valid x V)
  | destruct (validated_float_list_invalid x V) as [e ->]];
  cbn [bind try_except andb];
  [| rewrite ?andb_false_r; reflexivity].

Lemma sport_accepted_iff (data : pyval) :
  match parse_sport_mode_state data with
  | Some _ => true
  | None => false
  end = sport_acceptable data.
Proof.
  unfold parse_sport_mode_state, sport_acceptable.
  field_or_fail data "mode".
  field_or_fail data "progress".
  field_or_fail data "gait_type".
  field_or_fail data "position". list_or_fail x2.
  field_or_fail data "body_height".
  destruct (valid_number x3) eqn:Vh;
    [destruct (validated_float_valid x3 Vh) as [f ->]
    | destruct (validated_float_invalid x3 Vh) as [e ->]];
    cbn [bind try_except andb]; [| rewrite ?andb_false_r; reflexivity].
  field_or_fail data "velocity".
  field_or_fail data "range_obstacle". list_or_fail x5.
  field_or_fail data "foot_force".
  field_or_fail data "foot_position_body". list_or_fail x7.
  field_or_fail data "foot_speed_body". list_or_fail x8.
  field_or_fail data "imu_state".
  field_or_fail x9 "quaternion". list_or_fail x10.
  field_or_fail x9 "accelerometer". list_or_fail x11.
  field_or_fail x9 "gyroscope". list_or_fail x12.
  field_or_fail x9 "rpy". list_or_fail x13.
  field_or_fail x9 "temperature".
  reflexivity.
Qed.

(** X2: [parse_sport_mode_state] returns a pair of records exactly when
    the eleven keys of the payload and the five keys of its imu_state are
    there, body_height is a valid number and the eight checked sequences
    hold valid numbers only; every field of the records is then the value
    of the payload, unchanged, body_height being converted to a float. *)
Theorem sport_mode_accepts_exactly (data : pyval) :
  ((exists records, parse_sport_mode_state data = Some records)
   <-> sport_acceptable data = true)
  /\ (forall rs imu,
        parse_sport_mode_state data = Some (rs, imu) ->
        field_of data "mode" = Some (mode rs)
        /\ field_of data "progress" = Some (progress rs)
        /\ field_of data "gait_type" = Some (gait_type rs)
        /\ field_of data "position" = Some (position rs)
        /\ (exists v, field_of data "body_height" = Some v
                      /\ _validated_float v = Ok (body_height rs))
        /\ field_of data "range_obstacle" = Some (range_obstacle rs)
        /\ field_of data "foot_position_body" = Some (foot_position_body rs)
        /\ field_of data "foot_speed_body" = Some (foot_speed_body rs)
        /\ exists imu_dict,
             field_of data "imu_state" = Some imu_dict
             /\ field_of imu_dict "quaternion" = Some (quaternion imu)
             /\ field_of imu_dict "accelerometer" = Some (accelerometer imu)
             /\ field_of imu_dict "gyroscope" = Some (gyroscope imu)
             /\ field_of imu_dict "rpy" = Some (rpy imu)).
Proof.
  split.
  - rewrite <- sport_accepted_iff.
    destruct (parse_sport_mode_state data) as [r |]; split; intro H; try discriminate.
    + reflexivity.
    + exists r. reflexivity.
    + destruct H as [r H]. discriminate.
  - intros rs imu H. unfold parse_sport_mode_state in H.
    apply try_except_some in H.
    invert_binds H. cbv zeta in H. injection H as Hrs Himu.
    repeat match goal with
           | Hv : _validated_float_list _ = Ok _ |- _ =>
               apply validated_float_list_returns in Hv; destruct Hv as [-> _]
           end.
    repeat match goal with
           | Hs : subscript _ _ = Ok _ |- _ => apply subscript_ok in Hs
           end.
    subst rs imu. simpl.
    repeat split; try assumption.
    + eexists; split; eassumption.
    + eexists; repeat split; eassumption.
Qed.

(** X3: an envelope built by [process_webrtc_message] carries the robot
    id it was given, timestamp 0.0 and no raw message, and at most one of
    its payload groups is populated -- lidar, odometry, state with IMU, or
    joints; state and IMU come together or not at all. *)
Theorem envelope_shape (ext : Externals) (msg : pyval) (rid : string) (rd : RobotData) :
  process_webrtc_message ext msg rid = Ok (Some rd) ->
  robot_id rd = rid
  /\ timestamp rd = float_zero
  /\ raw_message rd = None
  /\ (populated_groups rd <= 1)%nat
  /\ (robot_state rd = None <-> imu_data rd = None).
Proof.
  intro H. unfold process_webrtc_message in H.
  apply bind_ok in H. destruct H as (ty & _ & H).
  destruct (negb (py_eq_str ty "msg")); [discriminate |].
  apply bind_ok in H. destruct H as (topic & _ & H).
  destruct (py_eq_str topic (RTC_TOPIC ext "ULIDAR_ARRAY")).
  { injection H as <-. unfold populated_groups. simpl.
    destruct (parse_lidar_data msg); simpl; repeat split; auto. }
  destruct (py_eq_str topic (RTC_TOPIC ext "ROBOTODOM")).
  { apply bind_ok in H. destruct H as (data & _ & H). injection H as <-.
    unfold populated_groups. simpl.
    destruct (parse_odometry_data data); simpl; repeat split; auto. }
  destruct (py_eq_str topic (RTC_TOPIC ext "LF_SPORT_MOD_STATE")).
  { apply bind_ok in H. destruct H as (data & _ & H).
    destruct (parse_sport_mode_state data) as [p |]; injection H as <-;
      unfold populated_groups; simpl; repeat split; auto; discriminate. }
  destruct (py_eq_str topic (RTC_TOPIC ext "LOW_STATE")); [| discriminate].
  apply bind_ok in H. destruct H as (data & _ & H). injection H as <-.
  unfold populated_groups. simpl.
  destruct (parse_low_state data); simpl; repeat split; auto.
Qed.

(** X4: [process_webrtc_message] raises when the message has no "type";
    a message whose type is not "msg" gives no envelope; and a message of
    type "msg" with a topic gives no envelope exactly when the topic is
    none of the four the decoder knows. *)
Theorem envelope_dropped_exactly (ext : Externals) (msg : pyval) (rid : string) :
  (field_of msg "type" = None -> raises (process_webrtc_message ext msg rid) = true)
  /\ (forall ty,
        field_of msg "type" = Some ty ->
        py_eq_str ty "msg" = false ->
        process_webrtc_message ext msg rid = Ok None)
  /\ (forall ty topic,
        field_of msg "type" = Some ty ->
        py_eq_str ty "msg" = true ->
        field_of msg "topic" = Some topic ->
        (process_webrtc_message ext msg rid = Ok None <-> known_topic ext topic = false)).
Proof.
  unfold process_webrtc_message, known_topic.
  split; [| split].
  - intro Hty. destruct (subscript_none msg "type" Hty) as [e ->]. reflexivity.
  - intros ty Hty Hno. rewrite (subscript_some _ _ _ Hty). simpl. rewrite Hno. reflexivity.
  - intros ty topic Hty Hmsg Htopic.
    rewrite (subscript_some _ _ _ Hty), (subscript_some _ _ _ Htopic). simpl.
    rewrite Hmsg. simpl.
    destruct (py_eq_str topic (RTC_TOPIC ext "ULIDAR_ARRAY")); simpl;
      [split; discriminate |].
    destruct (py_eq_str topic (RTC_TOPIC ext "ROBOTODOM")); simpl.
    { destruct (subscript msg "data"); simpl; split; discriminate. }
    destruct (py_eq_str topic (RTC_TOPIC ext "LF_SPORT_MOD_STATE")); simpl.
    { destruct (subscript msg "data") as [data |]; simpl; [| split; discriminate].
      destruct (parse_sport_mode_state data); split; discriminate. }
    destruct (py_eq_str topic (RTC_TOPIC ext "LOW_STATE")); simpl.
    { destruct (subscript msg "data"); simpl; split; discriminate. }
    split; reflexivity.
Qed.

Lemma py_get_ok (d : pyval) (k : string) (default x : pyval) :
  py_get d k default = Ok x ->
  x = match field_of d k with
      | Some v => v
      | None => default
      end.
Proof.
  destruct d; simpl; try discriminate.
  destruct (assoc_get entries k); intro H; congruence.
Qed.

(** X5: [parse_lidar_data] gives no record when the decoded buffer of
    the message is missing or null.  A record it builds carries the
    positions of the decoded buffer, and resolution, stamp and compressed
    data are those of the message, 0.0, 0.0 and [None] standing in for a
    missing key. *)
Theorem lidar_needs_decoded_buffer (msg : pyval) :
  (field_of msg "decoded_data" = Some PNone \/ field_of msg "decoded_data" = None ->
   parse_lidar_data msg = None)
  /\ (forall ld,
        parse_lidar_data msg = Some ld ->
        exists decoded data,
          field_of msg "decoded_data" = Some decoded
          /\ decoded <> PNone
          /\ field_of decoded "positions" = Some (positions ld)
          /\ field_of msg "data" = Some data
          /\ resolution ld = match field_of data "resolution" with
                             | Some r => r
                             | None => PFloat float_zero
                             end
          /\ stamp ld = match field_of data "stamp" with
                        | Some r => r
                        | None => PFloat float_zero
                        end
          /\ compressed_data ld = match field_of msg "compressed_data" with
                                  | Some c => c
                                  | None => PNone
                                  end).
Proof.
  unfold parse_lidar_data. split.
  - intros [H | H].
    + rewrite (subscript_some _ _ _ H). reflexivity.
    + destruct (subscript_none _ _ H) as [e ->]. reflexivity.
  - intros ld H. apply try_except_some in H.
    apply bind_ok in H. destruct H as (decoded & Hdec & H).
    assert (Hnn : decoded <> PNone) by (intros ->; discriminate).
    assert (Hrest :
      (data <- subscript msg "data" ;;
       v_positions <- subscript decoded "positions" ;;
       v_uvs <- py_get decoded "uvs" PNone ;;
       v_resolution <- py_get data "resolution" (PFloat float_zero) ;;
       d_origin <- py_get data "origin" default_origin ;;
       v_origin <- py_iter d_origin ;;
       v_stamp <- py_get data "stamp" (PFloat float_zero) ;;
       v_width <- py_get data "width" PNone ;;
       v_src_size <- py_get data "src_size" PNone ;;
       v_compressed <- py_get msg "compressed_data" PNone ;;
       Ok (Some (mkLidarData v_positions v_uvs v_resolution v_origin v_stamp
                   v_width v_src_size v_compressed))) = Ok (Some ld)).
    { destruct decoded; try exact H. exfalso. apply Hnn. reflexivity. }
    clear H. invert_binds Hrest. injection Hrest as <-. simpl.
    exists decoded, x.
    repeat match goal with
           | Hs : subscript _ _ = Ok _ |- _ => apply subscript_ok in Hs
           | Hg : py_get _ _ _ = Ok _ |- _ => apply py_get_ok in Hg
           end.
    repeat split; assumption.
Qed.

(** ** The robot session, continued *)

Lemma go2_connect_run (ext : Externals) (hs : Handshake) (c : Go2Connection) :
  go2_connect ext hs c
  = (match connect_stages ext hs with
     | Ok _ => Ok tt
     | Raise e =>
         Raise (if match exn_cls e with Go2ConnectionError => true | _ => false end
                then e
                else connection_error
                       ("Unexpected error during connection: " ++ str_exn ext e)%string)
     end, c, [EvHandshake (robot_ip c)]).
Proof.
  unfold go2_connect, ebind, get, emit, ret, raise, connection_error.
  destruct (connect_stages ext hs) as [[] | [cls arg]]; [reflexivity |].
  destruct cls; reflexivity.
Qed.

(** X6: [Go2Connection.connect] leaves the session as it was and either
    returns -- exactly when the offer, the key request and the SDP exchange
    all succeed -- or raises a Go2ConnectionError and nothing else: a
    Go2ConnectionError raised inside passes unchanged, an HTTP or encryption
    error of the key request or of the exchange is wrapped with the name of
    that stage, and any other exception is wrapped as unexpected. *)
Theorem connect_raises_only_connection_errors (ext : Externals) (hs : Handshake)
    (c : Go2Connection) :
  let r := go2_connect ext hs c in
  state_of r = c
  /\ (result_of r = Ok tt <-> handshake_succeeds hs = true)
  /\ (forall e, result_of r = Raise e -> exn_cls e = Go2ConnectionError)
  /\ (forall e, hs_local_offer hs = Raise e ->
        result_of r
        = Raise (if match exn_cls e with Go2ConnectionError => true | _ => false end
                 then e
                 else connection_error
                        ("Unexpected error during connection: " ++ str_exn ext e)%string))
  /\ (forall u e, hs_local_offer hs = Ok u -> hs_public_key hs = Raise e ->
        is_http_or_encryption_error e = true ->
        result_of r
        = Raise (connection_error
                   ("Failed to get robot public key: " ++ str_exn ext e)%string))
  /\ (forall u e, hs_local_offer hs = Ok u -> hs_public_key hs = Ok KeyReceived ->
        hs_exchange hs = Raise e ->
        is_http_or_encryption_error e = true ->
        result_of r
        = Raise (connection_error
                   ("Failed to complete encrypted handshake: " ++ str_exn ext e)%string)).
Proof.
  cbv zeta. rewrite go2_connect_run. project_triples.
  split; [reflexivity |].
  split; [| split; [| split; [| split]]].
  - unfold handshake_succeeds, connect_stages.
    destruct (hs_local_offer hs) as [[] | e1]; simpl; [| split; discriminate].
    destruct (hs_public_key hs) as [[| |] | e2]; simpl; try (split; discriminate).
    destruct (hs_exchange hs) as [[|] | e3]; simpl; split; congruence.
  - intros e He.
    destruct (connect_stages ext hs) as [[] | [cls arg]]; [discriminate |].
    destruct cls; simpl in He; injection He as <-; reflexivity.
  - intros e He. unfold connect_stages. rewrite He. reflexivity.
  - intros u e Hu He Hcls. unfold connect_stages, rewrap. rewrite Hu, He, Hcls. reflexivity.
  - intros u e Hu Hk He Hcls. unfold connect_stages, rewrap.
    rewrite Hu, Hk, He, Hcls. reflexivity.
Qed.

(** X7: a second [disconnect] finds the session as the first one left it
    and leaves it so: what is closed stays closed, what could not be closed
    is attempted again, and again nothing is raised. *)
Theorem disconnect_twice (c : Go2Connection) :
  let once := state_of (go2_disconnect c) in
  let again := go2_disconnect once in
  result_of again = Ok tt
  /\ state_of again = once
  /\ close_events (trace_of again) = close_events (trace_of (go2_disconnect c)).
Proof.
  destruct c as [p ip num tok v cb_v cb_m cb_o cb_f dl dm h d].
  destruct p as [pid pcl ptr prd pld pcf paf psf pca psl].
  destruct d as [did drs dsent dcf].
  destruct h as [hid hcl hcf].
  unfold go2_disconnect, ebind, try_eff, focus, on_channel, focus, pc_close, dc_close,
    http_close, emit, result_of, state_of, trace_of.
  simpl.
  destruct pcf, dcf, hcf; simpl; repeat split.
Qed.

(** X8: [publish] and [publish_json_str] never raise and change nothing
    of the session but the outbox of its data channel.  With the channel
    open they queue one text -- [json.dumps] of type, topic and data in
    that order, resp. the given string -- whether or not the session is
    validated; otherwise they queue nothing and log one line. *)
Theorem publishing_touches_only_the_outbox (ext : Externals) (c : Go2Connection) :
  (forall topic data ty,
     let r := publish ext topic data ty c in
     result_of r = Ok tt
     /\ state_of r
        = (if is_open (readyState (data_channel c))
           then queued c (MsgStr (json_dumps ext
                                    (PDict [("type", PStr ty); ("topic", topic);
                                            ("data", data)])))
           else c)
     /\ length (trace_of r) = (if is_open (readyState (data_channel c)) then 0 else 1)%nat)
  /\ (forall s,
        let r := publish_json_str s c in
        result_of r = Ok tt
        /\ state_of r
           = (if is_open (readyState (data_channel c)) then queued c (MsgStr s) else c)
        /\ length (trace_of r) = (if is_open (readyState (data_channel c)) then 0 else 1)%nat)
  /\ (forall m, is_validated (queued c m) = is_validated c
                /\ pc (queued c m) = pc c
                /\ http_client (queued c m) = http_client c
                /\ readyState (data_channel (queued c m)) = readyState (data_channel c)
                /\ dc_sent (data_channel (queued c m)) = dc_sent (data_channel c) ++ [m]).
Proof.
  split; [| split].
  - intros topic data ty. cbv zeta. rewrite publish_spec.
    destruct (is_open (readyState (data_channel c))); repeat split.
  - intro s. cbv zeta. rewrite publish_json_str_spec.
    destruct (is_open (readyState (data_channel c))); repeat split.
  - intro m. repeat split.
Qed.

(** X9: [disableTrafficSaving] returns [True] in every state of the
    session -- also when the data channel is not open and the request was
    not sent; when it is open, the request queued is the rtc_inner_req with
    instruction "on" or "off". *)
Theorem traffic_saving_always_reports_success (ext : Externals) (switch : bool)
    (c : Go2Connection) :
  let r := disableTrafficSaving ext switch c in
  result_of r = Ok true
  /\ dc_sent (data_channel (state_of r))
     = dc_sent (data_channel c)
       ++ (if is_open (readyState (data_channel c))
           then [MsgStr (json_dumps ext (payload "rtc_inner_req" no_topic
                                           (traffic_saving_request switch)))]
           else []).
Proof.
  cbv zeta. unfold disableTrafficSaving, try_eff, ebind. rewrite publish_spec.
  destruct (is_open (readyState (data_channel c))); simpl.
  - split; reflexivity.
  - rewrite app_nil_r. split; reflexivity.
Qed.

(** X10: validation is permanent.  Whatever messages follow, a validated
    session stays validated and the on_validated callback is not called
    again; the handler returns normally on each of them. *)
Theorem validation_is_permanent (ext : Externals) (msgs : list message) (c : Go2Connection) :
  is_validated c = true ->
  let r := session_run ext msgs c in
  result_of r = Ok tt
  /\ is_validated (state_of r) = true
  /\ validated_calls (trace_of r) = [].
Proof.
  intro Hc. cbv zeta.
  destruct (session_run_spec ext msgs c) as (Hr & _ & Hval & _).
  destruct (Hval Hc) as [Hv Ht]. auto.
Qed.

Lemma forced_open_twice (c : Go2Connection) : forced_open (forced_open c) = forced_open c.
Proof.
  destruct (forced_open_fields c) as (Hopen & _).
  unfold forced_open at 1. rewrite Hopen. reflexivity.
Qed.

Lemma call_on_message_delivers (cb : on_message_cb) (rd : RobotData) (c : Go2Connection) :
  exists res,
    call_on_message cb rd c = (res, c, [EvOnMessage rd]).
Proof.
  unfold call_on_message, ebind, emit, ret, lift.
  destruct cb as [| run]; simpl; eexists; reflexivity.
Qed.

Lemma absorbed (m : eff Go2Connection unit) (c c' : Go2Connection) (res : pyresult unit)
    (tr : list event) :
  m c = (res, c', tr) ->
  exists tail,
    try_eff m log_handler_error c = (Ok tt, c', tr ++ tail)
    /\ delivered tail = []
    /\ (res = Ok tt -> tail = []).
Proof.
  intro Hm. unfold try_eff, log_handler_error, emit. rewrite Hm.
  destruct res as [[] | e].
  - exists []. rewrite app_nil_r. auto.
  - eexists. split; [reflexivity |]. split; [reflexivity | discriminate].
Qed.

Lemma delivered_app (a b : list event) : delivered (a ++ b) = delivered a ++ delivered b.
Proof. unfold delivered. apply filter_app. Qed.

Lemma pass_through_step (ext : Externals) (cb : on_message_cb) (m : message)
    (c : Go2Connection) :
  open_result c = Ok tt ->
  is_validated c = true ->
  on_message c = Some cb ->
  _decode_message c = false ->
  exists tr,
    on_data_channel_message ext m c = (Ok tt, forced_open c, tr)
    /\ delivered tr = [EvOnMessage (raw_envelope c m)].
Proof.
  intros Ho Hv Hcb Hdec.
  destruct (forced_open_fields c) as (_ & _ & Hm & _ & Hd & Hn & _).
  rewrite (handler_when_open ext m c Ho (or_introl Hv)).
  destruct (call_on_message_delivers cb (raw_envelope c m) (forced_open c)) as (res & Hcall).
  assert (Hdisp : dispatch_message ext m None (forced_open c)
                  = (res, forced_open c, [EvOnMessage (raw_envelope c m)])).
  { unfold dispatch_message, ebind at 1, get. rewrite Hm, Hcb, Hd, Hdec.
    cbv beta iota delta [negb].
    unfold raw_envelope in *. rewrite Hn, Hcall. reflexivity. }
  destruct (absorbed _ _ _ _ _ Hdisp) as (tail & Hrun & Htail & _).
  rewrite Hrun, prefixed_triple.
  eexists. split; [reflexivity |].
  rewrite !delivered_app, (proj2 (opening_filters c)), Htail. reflexivity.
Qed.

Lemma pass_through_run (ext : Externals) (cb : on_message_cb) (msgs : list message) :
  forall c,
    open_result c = Ok tt ->
    is_validated c = true ->
    on_message c = Some cb ->
    _decode_message c = false ->
    delivered (trace_of (session_run ext msgs c))
    = map (fun m => EvOnMessage (raw_envelope c m)) msgs.
Proof.
  induction msgs as [| m rest IH]; intros c Ho Hv Hcb Hdec; [reflexivity |].
  destruct (pass_through_step ext cb m c Ho Hv Hcb Hdec) as (tr & Hstep & Htr).
  destruct (forced_open_fields c) as (_ & Hv' & Hm' & _ & Hd' & Hn' & _).
  destruct (forced_open_settled c) as (Ho' & _).
  cbn [session_run map]. unfold ebind. rewrite Hstep.
  specialize (IH (forced_open c) Ho').
  destruct (session_run ext rest (forced_open c)) as [[r2 c2] t2].
  unfold trace_of in *. simpl in *.
  rewrite delivered_app, Htr, IH by congruence.
  simpl. f_equal. apply map_ext. intro m'. unfold raw_envelope. rewrite Hn'. reflexivity.
Qed.

(** X11: in pass-through mode a validated session hands every inbound
    message to the callback, text, bytes or anything else, each in an
    envelope whose raw message is the message itself, one envelope per
    message and in arrival order -- also when the callback raises.  There
    is one exception: when the channel is not open yet and [on_open] raises
    in the open-state workaround, the first message of the sequence is
    dropped. *)
Theorem pass_through_keeps_order (ext : Externals) (cb : on_message_cb)
    (msgs : list message) :
  forall c,
    is_validated c = true ->
    on_message c = Some cb ->
    _decode_message c = false ->
    delivered (trace_of (session_run ext msgs c))
    = map (fun m => EvOnMessage (raw_envelope c m))
        (if raises (open_result c) then tl msgs else msgs).
Proof.
  intros c Hv Hcb Hdec.
  destruct (open_result c) as [[] | e] eqn:Ho; simpl raises; cbv iota.
  - apply (pass_through_run ext cb msgs c Ho Hv Hcb Hdec).
  - destruct msgs as [| m rest]; [reflexivity |].
    destruct (forced_open_fields c) as (_ & Hv' & Hm' & _ & Hd' & Hn' & _).
    destruct (forced_open_settled c) as (Ho' & _).
    cbn [session_run tl]. unfold ebind. rewrite (handler_dropped ext m c e Ho).
    pose proof (pass_through_run ext cb rest (forced_open c) Ho') as Hrest.
    destruct (session_run ext rest (forced_open c)) as [[r2 c2] t2].
    unfold trace_of in *. simpl in *.
    rewrite !delivered_app, (proj2 (opening_filters c)), Hrest by congruence.
    simpl. apply map_ext. intro m'. unfold raw_envelope. rewrite Hn'. reflexivity.
Qed.

(** X12: in decode mode a validated session, once the open-state
    workaround has not raised, hands a text message to the callback exactly
    when [process_webrtc_message] builds an envelope for it, and the
    envelope arrives with the text as its raw message; a message that gives
    no envelope is dropped without a trace of its own, and an exception of
    the decoder is logged, not raised.  Before any of this the trace holds
    the call of [on_open] the workaround made, if it made one. *)
Theorem decode_mode_delivery (ext : Externals) (cb : on_message_cb) (s : string)
    (obj : pyval) (c : Go2Connection) :
  open_result c = Ok tt ->
  is_validated c = true ->
  on_message c = Some cb ->
  _decode_message c = true ->
  json_loads ext s = Ok obj ->
  let r := on_data_channel_message ext (MsgStr s) c in
  result_of r = Ok tt
  /\ state_of r = forced_open c
  /\ match process_webrtc_message ext obj (robot_num c) with
     | Ok (Some rd) => delivered (trace_of r) = [EvOnMessage (set_raw_message rd (MsgStr s))]
     | Ok None => trace_of r = opening c
     | Raise e =>
         trace_of r
         = opening c ++ [EvLog ERROR "Error processing data channel message" (Some e)]
     end.
Proof.
  intros Ho Hv Hcb Hdec Hload. cbv zeta.
  destruct (forced_open_fields c) as (_ & _ & Hm & _ & Hd & Hn & _).
  rewrite (handler_when_open ext (MsgStr s) c Ho (or_introl Hv)).
  assert (Hdisp :
    dispatch_message ext (MsgStr s) None (forced_open c)
    = match process_webrtc_message ext obj (robot_num c) with
      | Ok robot_data => hand_over cb robot_data (MsgStr s) (forced_open c)
      | Raise e => (Raise e, forced_open c, [])
      end).
  { unfold dispatch_message, ebind at 1, get. rewrite Hm, Hcb, Hd, Hdec.
    cbv beta iota delta [negb].
    unfold parse_datachannel_message, ebind, ret, lift. rewrite Hload, Hn.
    destruct (process_webrtc_message ext obj (robot_num c)) as [rd | e]; [| reflexivity].
    destruct (hand_over cb rd (MsgStr s) (forced_open c)) as [[r1 c1] t1]. reflexivity. }
  destruct (process_webrtc_message ext obj (robot_num c)) as [[rd |] | e].
  - simpl hand_over in Hdisp.
    destruct (call_on_message_delivers cb (set_raw_message rd (MsgStr s)) (forced_open c))
      as (res & Hcall).
    rewrite Hcall in Hdisp.
    destruct (absorbed _ _ _ _ _ Hdisp) as (tail & Hrun & Htail & _).
    rewrite Hrun, prefixed_triple. project_triples.
    rewrite !delivered_app, (proj2 (opening_filters c)), Htail. repeat split.
  - unfold try_eff. rewrite Hdisp. simpl hand_over. unfold ret.
    rewrite prefixed_triple. project_triples. rewrite app_nil_r. repeat split.
  - unfold try_eff. rewrite Hdisp. unfold log_handler_error, emit.
    rewrite prefixed_triple. project_triples. repeat split.
Qed.

Lemma validate_delivers_nothing (ext : Externals) (data : pyval) (c : Go2Connection) :
  delivered (trace_of (validate_robot_conn ext data c)) = [].
Proof.
  unfold validate_robot_conn.
  destruct (py_eq_str data "Validation Ok.");
    unfold try_eff, ebind, get, put, call_on_validated, emit, ret, lift;
    rewrite publish_spec;
    destruct (is_open (readyState (data_channel c))); simpl;
    try reflexivity;
    destruct (on_validated c) as [[topics | run] |]; simpl; try reflexivity;
    destruct (run (robot_num c)) as [[] | e]; reflexivity.
Qed.

Lemma gate_run (ext : Externals) (s : string) (obj ty : pyval) (c : Go2Connection) :
  json_loads ext s = Ok obj ->
  field_of obj "type" = Some ty ->
  validation_gate ext s c
  = if py_eq_str ty "validation" then
      match subscript obj "data" with
      | Ok data => validate_robot_conn ext data c
      | Raise e => (Raise e, c, [])
      end
    else dispatch_message ext (MsgStr s) (Some obj) c.
Proof.
  intros Hload Hty.
  unfold validation_gate, parse_datachannel_message. rewrite Hload.
  unfold ebind at 1, ret. unfold ebind at 1, lift. rewrite (subscript_some _ _ _ Hty).
  destruct (py_eq_str ty "validation").
  - unfold ebind. destruct (subscript obj "data") as [data | e]; [| reflexivity].
    destruct (validate_robot_conn ext data c) as [[r1 c1] t1]. reflexivity.
  - destruct (dispatch_message ext (MsgStr s) (Some obj) c) as [[r1 c1] t1]. reflexivity.
Qed.

(** X13: the validation gate of an unvalidated session in pass-through
    mode.  A text that decodes to an object with a type is handed to the
    callback unchanged unless that type is "validation"; a validation
    message is never handed to the callback.  Nothing is handed to the
    callback when [on_open] raises in the open-state workaround: the
    message is dropped before that check. *)
Theorem validation_gate_filters (ext : Externals) (cb : on_message_cb) (s : string)
    (obj ty : pyval) (c : Go2Connection) :
  is_validated c = false ->
  on_message c = Some cb ->
  _decode_message c = false ->
  json_loads ext s = Ok obj ->
  field_of obj "type" = Some ty ->
  delivered (trace_of (on_data_channel_message ext (MsgStr s) c))
  = if raises (open_result c) || py_eq_str ty "validation" then []
    else [EvOnMessage (raw_envelope c (MsgStr s))].
Proof.
  intros Hv Hcb Hdec Hload Hty.
  destruct (forced_open_fields c) as (_ & _ & Hm & _ & Hd & Hn & _).
  destruct (opening_filters c) as (_ & Hnone0).
  destruct (open_result c) as [[] | e0] eqn:Ho; simpl raises; cbv iota.
  2: { rewrite (handler_dropped ext (MsgStr s) c e0 Ho). project_triples.
       rewrite delivered_app, Hnone0. reflexivity. }
  simpl orb.
  rewrite (handler_when_gated ext s c Ho Hv).
  pose proof (gate_run ext s obj ty (forced_open c) Hload Hty) as Hgate.
  destruct (py_eq_str ty "validation") eqn:Hval.
  - assert (Hquiet : exists res c' tr,
               validation_gate ext s (forced_open c) = (res, c', tr) /\ delivered tr = []).
    { rewrite Hgate. destruct (subscript obj "data") as [data | e].
      - pose proof (validate_delivers_nothing ext data (forced_open c)) as Hnone.
        destruct (validate_robot_conn ext data (forced_open c)) as [[r1 c1] t1].
        exists r1, c1, t1. split; [reflexivity | exact Hnone].
      - eexists _, _, _. split; reflexivity. }
    destruct Hquiet as (res & c' & tr & Hrun0 & Hnone).
    destruct (absorbed _ _ _ _ _ Hrun0) as (tail & Hrun & Htail & _).
    rewrite Hrun, prefixed_triple. project_triples.
    rewrite !delivered_app, Hnone0, Hnone, Htail. reflexivity.
  - destruct (call_on_message_delivers cb (raw_envelope c (MsgStr s)) (forced_open c))
      as (res & Hcall).
    assert (Hrun0 : validation_gate ext s (forced_open c)
                    = (res, forced_open c, [EvOnMessage (raw_envelope c (MsgStr s))])).
    { rewrite Hgate.
      unfold dispatch_message, ebind, get. rewrite Hm, Hcb, Hd, Hdec.
      cbv beta iota delta [negb].
      unfold raw_envelope in *. rewrite Hn, Hcall. reflexivity. }
    destruct (absorbed _ _ _ _ _ Hrun0) as (tail & Hrun & Htail & _).
    rewrite Hrun, prefixed_triple. project_triples.
    rewrite !delivered_app, Hnone0, Htail. reflexivity.
Qed.

(** ** The relay, continued *)

Lemma establish_outcome (ext : Externals) (new_pc : pyresult PeerConnection)
    (offered : SessionDescription) (st : WebRTCRelayAppState) :
  let r := establish_relay_session ext new_pc offered st in
  (negotiation_fails new_pc st = true ->
   go2 (state_of r) = go2 st /\ go2_video_track (state_of r) = go2_video_track st)
  /\ (forall p answer,
        new_pc = Ok p ->
        negotiation_fails new_pc st = false ->
        pc_create_answer_result p = Ok answer ->
        result_of r = Ok answer
        /\ state_of r
           = mkAppState
               (match go2 st with
                | Some g => Some (video_retriggered ext g)
                | None => None
                end)
               (Some (pc_update p (pc_closed p) (pc_tracks p ++ stored_tracks st)
                        (Some offered) (Some answer)))
               (relay_rtc_data_channel st)
               (go2_video_track st)).
Proof.
  destruct st as [g rp rd vt].
  destruct new_pc as [[pid pcl ptr prd pld pcf paf psf pca psl] | e0].
  2: { simpl. split; [auto | intros p answer Hp; discriminate]. }
  unfold establish_relay_session, negotiation_fails, on_relay_pc, ebind, try_eff, lift, get,
    put, emit, ret, raise, on_some, pc_add_track, pc_set_remote_description, pc_create_answer,
    pc_set_local_description, result_of, state_of, trace_of, stored_tracks, video_retriggered.
  simpl.
  destruct g as [g0 |]; [pose proof (publish_spec ext no_topic (PStr "on") "vid" g0) as Hpub;
                         destruct (is_open (readyState (data_channel g0))) |];
  destruct vt as [t |]; destruct paf as [ea |]; destruct psf as [er |];
    destruct pca as [[asdp aty] | ec]; destruct psl as [el |]; simpl;
    try rewrite Hpub; simpl;
    (split; [intro Hf; try discriminate; auto
            | intros p answer Hp Hf Ha; try discriminate;
              injection Hp as <-; injection Ha as <-;
              unfold pc_update, vid_on; simpl; rewrite ?app_nil_r; auto]).
Qed.

Lemma negotiation_fails_cleared (new_pc : pyresult PeerConnection)
    (st : WebRTCRelayAppState) :
  negotiation_fails new_pc (cleared st) = negotiation_fails new_pc st.
Proof. destruct st; reflexivity. Qed.

Lemma offer_success_run (ext : Externals) (p : PeerConnection) (offered answer : SessionDescription)
    (st : WebRTCRelayAppState) (g : Go2Connection) :
  go2 st = Some g ->
  negotiation_fails (Ok p) st = false ->
  pc_create_answer_result p = Ok answer ->
  let r := offer ext (Ok p) offered st in
  result_of r = Ok answer
  /\ state_of r
     = mkAppState (Some (video_retriggered ext g))
         (Some (pc_update p (pc_closed p) (pc_tracks p ++ stored_tracks st)
                  (Some offered) (Some answer)))
         None (go2_video_track st).
Proof.
  intros Hg Hfine Hanswer. cbv zeta.
  destruct (offer_with_session ext (Ok p) offered st g Hg)
    as (tr_close & _ & _ & _ & Hoffer).
  cbv zeta in Hoffer. rewrite Hoffer. project_triples.
  destruct (establish_outcome ext (Ok p) offered (cleared st)) as [_ Hgood].
  rewrite negotiation_fails_cleared in Hgood.
  destruct (Hgood p answer eq_refl Hfine Hanswer) as [Hres Hstate].
  destruct (try_eff_reraise (establish_relay_session ext (Ok p) offered) (cleared st))
    as [Hok _].
  cbv zeta in Hok. rewrite (Hok answer Hres), Hres, Hstate.
  destruct st as [g' rp rd vt]. simpl in *. rewrite Hg. split; reflexivity.
Qed.

(** X14: an offer that meets no failure returns the answer the new peer
    connection created.  The state then holds that connection with the
    client's description as remote and the answer as local description
    and with the stored robot video track attached (no track when none is
    stored); the data-channel attribute is empty until the client's
    channel arrives; and "video on" has been re-issued to the robot
    session when its channel is open. *)
Theorem offer_success (ext : Externals) (p : PeerConnection) (offered answer : SessionDescription)
    (st : WebRTCRelayAppState) (g : Go2Connection) :
  go2 st = Some g ->
  negotiation_fails (Ok p) st = false ->
  pc_create_answer_result p = Ok answer ->
  let r := offer ext (Ok p) offered st in
  result_of r = Ok answer
  /\ state_of r
     = mkAppState (Some (video_retriggered ext g))
         (Some (pc_update p (pc_closed p) (pc_tracks p ++ stored_tracks st)
                  (Some offered) (Some answer)))
         None (go2_video_track st).
Proof.
  intros Hg Hfine Hanswer.
  destruct (offer_success_run ext p offered answer st g Hg Hfine Hanswer) as [Hr Hs].
  split; assumption.
Qed.

(** X15: [close_rtc_relay_connection] never raises, leaves the robot
    session and the stored video track alone, and is idempotent: called on
    the state it produced it does nothing at all. *)
Theorem close_relay_connection_idempotent (st : WebRTCRelayAppState) :
  let once := close_rtc_relay_connection st in
  result_of once = Ok tt
  /\ go2 (state_of once) = go2 st
  /\ go2_video_track (state_of once) = go2_video_track st
  /\ relay_rtc_peer_connection (state_of once) = None
  /\ relay_rtc_data_channel (state_of once) = None
  /\ close_rtc_relay_connection (state_of once) = (Ok tt, state_of once, []).
Proof.
  cbv zeta.
  destruct (close_rtc_relay_connection_spec st) as (tr & Hclose & _).
  rewrite Hclose. project_triples.
  repeat split.
Qed.

(** X16: an offer that fails leaves the robot session and the stored
    video track exactly as they were and no data channel in the state; a
    further offer on that state, with a peer connection that negotiates,
    succeeds without a new connect. *)
Theorem failed_offer_keeps_robot_session (ext : Externals)
    (new_pc : pyresult PeerConnection) (offered : SessionDescription)
    (st : WebRTCRelayAppState) (g : Go2Connection) (e : pyexn) :
  go2 st = Some g ->
  result_of (offer ext new_pc offered st) = Raise e ->
  let st' := state_of (offer ext new_pc offered st) in
  go2 st' = Some g
  /\ go2_video_track st' = go2_video_track st
  /\ relay_rtc_data_channel st' = None
  /\ (forall p again answer,
        negotiation_fails (Ok p) st = false ->
        pc_create_answer_result p = Ok answer ->
        result_of (offer ext (Ok p) again st') = Ok answer).
Proof.
  intros Hg Hfail. cbv zeta.
  destruct (offer_with_session ext new_pc offered st g Hg)
    as (tr_close & _ & _ & _ & Hoffer).
  cbv zeta in Hoffer. rewrite Hoffer in *. revert Hfail. project_triples. intro Hfail.
  destruct (reraised_session_spec ext new_pc offered (cleared st))
    as (_ & _ & Hstate & _ & _).
  destruct (establish_spec ext new_pc offered (cleared st)) as (_ & _ & _ & Hdc & _).
  destruct (establish_outcome ext new_pc offered (cleared st)) as [Hbad Hgood].
  rewrite negotiation_fails_cleared in Hbad, Hgood.
  assert (Hfails : negotiation_fails new_pc st = true).
  { destruct (negotiation_fails new_pc st) eqn:Hn; [reflexivity | exfalso].
    destruct new_pc as [p | e0]; [| discriminate].
    destruct (pc_create_answer_result p) as [answer | ea] eqn:Ha.
    - destruct (Hgood p answer eq_refl eq_refl Ha) as [Hres _].
      destruct (try_eff_reraise (establish_relay_session ext (Ok p) offered) (cleared st))
        as [Hok _].
      cbv zeta in Hok. rewrite (Hok answer Hres), Hres in Hfail. discriminate.
    - unfold negotiation_fails in Hn. rewrite Ha in Hn. simpl in Hn.
      rewrite ?orb_true_r in Hn. simpl in Hn. rewrite ?orb_true_r in Hn. discriminate. }
  destruct (Hbad Hfails) as [Hgo2 Hvt].
  assert (Hg' : go2 (state_of (try_eff (establish_relay_session ext new_pc offered)
                                 reraise_as_state_exception (cleared st))) = Some g).
  { rewrite Hstate, Hgo2. destruct st; exact Hg. }
  assert (Hvt' : go2_video_track
                   (state_of (try_eff (establish_relay_session ext new_pc offered)
                                reraise_as_state_exception (cleared st)))
                 = go2_video_track st).
  { rewrite Hstate, Hvt. destruct st; reflexivity. }
  split; [exact Hg' |]. split; [exact Hvt' |].
  split; [rewrite Hstate, Hdc; destruct st; reflexivity |].
  intros p again answer Hfine Ha.
  refine (proj1 (offer_success_run ext p again answer _ g Hg' _ Ha)).
  unfold negotiation_fails in *. rewrite Hvt'. exact Hfine.
Qed.

Lemma go2_disconnect_run (g : Go2Connection) :
  exists g' tr,
    go2_disconnect g = (Ok tt, g', tr)
    /\ close_events tr = session_closes g
    /\ session_closes g' = session_closes g.
Proof.
  destruct g as [p ip num tok v cb_v cb_m cb_o cb_f dl dm h d].
  destruct p as [pid pcl ptr prd pld pcf paf psf pca psl].
  destruct d as [did drs dsent dcf].
  destruct h as [hid hcl hcf].
  unfold go2_disconnect, ebind, try_eff, focus, on_channel, focus, pc_close, dc_close,
    http_close, emit, session_closes.
  simpl.
  destruct pcf, dcf, hcf; simpl; do 2 eexists; repeat split.
Qed.

Lemma client_pc_close_clean (p : PeerConnection) :
  pc_close_fault p = None ->
  exists p', pc_close p = (Ok tt, p', [EvClose PeerConnectionRes (pc_id p)]).
Proof.
  intro H. unfold pc_close. rewrite H. eexists; reflexivity.
Qed.

Lemma close_events_app (a b : list event) :
  close_events (a ++ b) = close_events a ++ close_events b.
Proof. unfold close_events. apply filter_app. Qed.

Lemma close_events_cons (r : resource_kind) (n : nat) (tr : list event) :
  close_events (EvClose r n :: tr) = EvClose r n :: close_events tr.
Proof. reflexivity. Qed.

Lemma relay_disconnect_run (st : WebRTCRelayAppState) :
  (forall p, relay_rtc_peer_connection st = Some p -> pc_close_fault p = None) ->
  exists tr,
    disconnect st = (Ok tt, disconnected st, tr)
    /\ close_events tr = client_pc_closes st ++ robot_closes st.
Proof.
  intro Hclean. destruct st as [g rp rd vt].
  unfold disconnected, client_pc_closes, robot_closes. simpl in *.
  destruct rp as [p |]; destruct g as [g0 |];
    try (destruct (client_pc_close_clean p (Hclean p eq_refl)) as (p' & Hp));
    try (destruct (go2_disconnect_run g0) as (g' & tr & Hrun & Hcl & _));
    unfold disconnect, ebind, get, put, on_some, ret; simpl;
    try rewrite Hp; simpl; try rewrite Hrun; simpl;
    eexists; (split; [reflexivity |]);
    rewrite ?app_nil_r, ?close_events_app, ?close_events_cons, ?close_events_app; try rewrite Hcl;
    reflexivity.
Qed.

(** X17: the [/go2/disconnect] handler.  When closing the client-facing
    peer connection does not fail (or there is none), the handler returns,
    no robot session and no client-facing peer connection is left, and the
    close calls were made client side first, then the three of the robot
    session.  When closing the client-facing peer connection raises, that
    exception leaves the handler, the state is what it was, and the robot
    session has not been touched. *)
Theorem relay_disconnect_outcome (st : WebRTCRelayAppState) :
  ((forall p, relay_rtc_peer_connection st = Some p -> pc_close_fault p = None) ->
   result_of (disconnect st) = Ok tt
   /\ state_of (disconnect st) = disconnected st
   /\ go2 (state_of (disconnect st)) = None
   /\ relay_rtc_peer_connection (state_of (disconnect st)) = None
   /\ close_events (trace_of (disconnect st)) = client_pc_closes st ++ robot_closes st)
  /\ (forall p e,
        relay_rtc_peer_connection st = Some p ->
        pc_close_fault p = Some e ->
        disconnect st = (Raise e, st, [EvClose PeerConnectionRes (pc_id p)])).
Proof.
  split.
  - intro Hclean. destruct (relay_disconnect_run st Hclean) as (tr & Hrun & Hcl).
    rewrite Hrun. project_triples. repeat split; assumption.
  - intros p e Hp He. destruct st as [g rp rd vt]. simpl in Hp. subst rp.
    unfold disconnect, ebind, get, put, on_some, pc_close. simpl. rewrite He. reflexivity.
Qed.

Lemma shutdown_run (st : WebRTCRelayAppState) :
  (forall p, relay_rtc_peer_connection st = Some p -> pc_close_fault p = None) ->
  exists st' tr,
    lifespan_shutdown st = (Ok tt, st', tr)
    /\ go2 st' = None
    /\ relay_rtc_peer_connection st' = None
    /\ close_events tr = robot_closes st ++ client_pc_closes st ++ robot_closes st.
Proof.
  intro Hclean. destruct st as [g rp rd vt].
  unfold client_pc_closes, robot_closes. simpl in *.
  destruct rp as [p |]; destruct g as [g0 |];
    try (destruct (client_pc_close_clean p (Hclean p eq_refl)) as (p' & Hp));
    try (destruct (go2_disconnect_run g0) as (g1 & tr1 & Hrun1 & Hcl1 & Hsame);
         destruct (go2_disconnect_run g1) as (g2 & tr2 & Hrun2 & Hcl2 & _);
         rewrite Hsame in Hcl2);
    unfold lifespan_shutdown, ebind, get, put, on_some, ret; simpl;
    try rewrite Hrun1; simpl; try rewrite Hp; simpl; try rewrite Hrun2; simpl;
    do 2 eexists; (split; [reflexivity |]); simpl;
    rewrite ?app_nil_r, ?close_events_app, ?close_events_cons, ?close_events_app;
    try rewrite Hcl1; try rewrite Hcl2;
    repeat split; reflexivity.
Qed.

(** X18: shutdown of the application.  When closing the client-facing
    peer connection does not fail, the state ends without robot session
    and without client-facing peer connection, and the three resources of
    a stored robot session have been closed twice: once before and once
    after the client-facing connection. *)
Theorem shutdown_closes_robot_session_twice (st : WebRTCRelayAppState) :
  (forall p, relay_rtc_peer_connection st = Some p -> pc_close_fault p = None) ->
  result_of (lifespan_shutdown st) = Ok tt
  /\ go2 (state_of (lifespan_shutdown st)) = None
  /\ relay_rtc_peer_connection (state_of (lifespan_shutdown st)) = None
  /\ close_events (trace_of (lifespan_shutdown st))
     = robot_closes st ++ client_pc_closes st ++ robot_closes st.
Proof.
  intro Hclean. destruct (shutdown_run st Hclean) as (st' & tr & Hrun & Hg & Hp & Hcl).
  rewrite Hrun. project_triples. repeat split; assumption.
Qed.

(** ** The relay's callbacks *)

Lemma send_open (m : message) (c : Go2Connection) :
  is_wire m = true ->
  is_open (readyState (data_channel c)) = true ->
  on_channel (dc_send m) c = (Ok tt, queued c m, []).
Proof.
  intros Hw Ho. unfold on_channel, focus, dc_send, queued. rewrite Ho.
  destruct m; simpl in *; try discriminate; reflexivity.
Qed.

Lemma send_closed (m : message) (c : Go2Connection) :
  is_open (readyState (data_channel c)) = false ->
  on_channel (dc_send m) c = (Raise channel_closed_error, c, []).
Proof.
  intro Ho. unfold on_channel, focus, dc_send. rewrite Ho.
  rewrite with_data_channel_same. reflexivity.
Qed.

Lemma queued_open (c : Go2Connection) (m : message) :
  is_open (readyState (data_channel (queued c m))) = is_open (readyState (data_channel c)).
Proof. reflexivity. Qed.

Lemma subscribe_all_open (ext : Externals) (topics : list string) :
  forall c,
    is_open (readyState (data_channel c)) = true ->
    subscribe_all ext topics c
    = (Ok tt, queue_all c (map (subscribe_message ext) topics), []).
Proof.
  induction topics as [| topic rest IH]; intros c Ho.
  - reflexivity.
  - simpl subscribe_all. unfold ebind.
    rewrite (send_open (subscribe_message ext topic) c eq_refl Ho).
    rewrite (IH (queued c (subscribe_message ext topic))) by (rewrite queued_open; exact Ho).
    reflexivity.
Qed.

Lemma queue_all_open (msgs : list message) :
  forall c, is_open (readyState (data_channel (queue_all c msgs)))
            = is_open (readyState (data_channel c)).
Proof.
  unfold queue_all. induction msgs as [| m rest IH]; intro c; simpl; [reflexivity |].
  rewrite IH. reflexivity.
Qed.

Lemma queue_all_app (a b : list message) (c : Go2Connection) :
  queue_all c (a ++ b) = queue_all (queue_all c a) b.
Proof. unfold queue_all. apply fold_left_app. Qed.

Lemma queue_all_sent (msgs : list message) :
  forall c, dc_sent (data_channel (queue_all c msgs)) = dc_sent (data_channel c) ++ msgs.
Proof.
  unfold queue_all. induction msgs as [| m rest IH]; intro c; simpl.
  - rewrite app_nil_r. reflexivity.
  - rewrite IH. simpl. rewrite <- app_assoc. reflexivity.
Qed.

Lemma with_go2_same (st : WebRTCRelayAppState) (g : Go2Connection) :
  go2 st = Some g -> with_go2 st (Some g) = st.
Proof. destruct st; simpl; intros ->; reflexivity. Qed.

Lemma on_go2_validated_open (ext : Externals) (topics : list string)
    (st : WebRTCRelayAppState) (g : Go2Connection) :
  go2 st = Some g ->
  is_open (readyState (data_channel g)) = true ->
  _on_go2_validated ext topics st
  = (Ok tt, with_go2 st (Some (queue_all g (subscriptions ext topics))),
     [EvCreateTask "disableTrafficSaving"]).
Proof.
  intros Hg Ho.
  unfold _on_go2_validated, try_eff, ebind at 1, get. rewrite Hg.
  unfold ebind at 1, emit, on_some, ebind.
  rewrite (subscribe_all_open ext topics g Ho), publish_spec, queue_all_open, Ho.
  unfold subscriptions, lidar_switch_on. rewrite queue_all_app. reflexivity.
Qed.

(** X19: the relay's [on_validated] callback never raises.  With the
    robot channel open it schedules the traffic-saving request and queues,
    in this order, one subscribe message per topic and the lidar switch
    "on", and logs nothing.  With the channel not open nothing is queued and
    one error is logged -- and when there is a topic to subscribe to, the
    failed subscription ends the callback before the lidar switch.  Without
    a robot session it does nothing. *)
Theorem validated_callback_subscribes (ext : Externals) (topics : list string)
    (st : WebRTCRelayAppState) :
  result_of (_on_go2_validated ext topics st) = Ok tt
  /\ (go2 st = None -> _on_go2_validated ext topics st = (Ok tt, st, []))
  /\ (forall g,
        go2 st = Some g ->
        is_open (readyState (data_channel g)) = true ->
        _on_go2_validated ext topics st
        = (Ok tt, with_go2 st (Some (queue_all g (subscriptions ext topics))),
           [EvCreateTask "disableTrafficSaving"])
        /\ robot_outbox (state_of (_on_go2_validated ext topics st))
           = robot_outbox st ++ subscriptions ext topics)
  /\ (forall g,
        go2 st = Some g ->
        is_open (readyState (data_channel g)) = false ->
        _on_go2_validated ext topics st
        = (Ok tt, st,
           [EvCreateTask "disableTrafficSaving";
            match topics with
            | [] => EvLog ERROR "Failed to publish message" (Some channel_closed_error)
            | _ :: _ => EvLog ERROR "Error in validated callback" (Some channel_closed_error)
            end])).
Proof.
  assert (Hnone : go2 st = None -> _on_go2_validated ext topics st = (Ok tt, st, [])).
  { intro Hg. unfold _on_go2_validated, try_eff, ebind, get. rewrite Hg. reflexivity. }
  assert (Hclosed : forall g,
            go2 st = Some g ->
            is_open (readyState (data_channel g)) = false ->
            _on_go2_validated ext topics st
            = (Ok tt, st,
               [EvCreateTask "disableTrafficSaving";
                match topics with
                | [] => EvLog ERROR "Failed to publish message" (Some channel_closed_error)
                | _ :: _ =>
                    EvLog ERROR "Error in validated callback" (Some channel_closed_error)
                end])).
  { intros g Hg Ho.
    unfold _on_go2_validated, try_eff, ebind at 1, get. rewrite Hg.
    unfold ebind at 1, emit, on_some.
    destruct topics as [| topic rest].
    - simpl subscribe_all. unfold ebind, ret. rewrite publish_spec, Ho.
      rewrite (with_go2_same st g Hg). reflexivity.
    - simpl subscribe_all. unfold ebind. rewrite (send_closed _ g Ho).
      rewrite (with_go2_same st g Hg). reflexivity. }
  split; [| split; [exact Hnone | split; [| exact Hclosed]]].
  - destruct (go2 st) as [g |] eqn:Hg.
    + destruct (is_open (readyState (data_channel g))) eqn:Ho.
      * rewrite (on_go2_validated_open ext topics st g Hg Ho). reflexivity.
      * rewrite (Hclosed g eq_refl Ho). reflexivity.
    + rewrite (Hnone eq_refl). reflexivity.
  - intros g Hg Ho. rewrite (on_go2_validated_open ext topics st g Hg Ho).
    split; [reflexivity |]. project_triples.
    unfold robot_outbox. rewrite Hg. simpl. apply queue_all_sent.
Qed.

(** X20: the relay's [on_message] callback never raises and logs nothing.
    It changes nothing of the state but the outbox of the client-facing
    data channel, to which it appends the raw message of the envelope when
    that channel is open and the raw message is text or bytes, and nothing
    in every other case. *)
Theorem relay_to_client_forwards_or_drops (rd : RobotData) (st : WebRTCRelayAppState) :
  _on_go2_message rd st
  = (Ok tt, state_of (_on_go2_message rd st), [])
  /\ go2 (state_of (_on_go2_message rd st)) = go2 st
  /\ relay_rtc_peer_connection (state_of (_on_go2_message rd st))
     = relay_rtc_peer_connection st
  /\ go2_video_track (state_of (_on_go2_message rd st)) = go2_video_track st
  /\ client_channel_open (state_of (_on_go2_message rd st)) = client_channel_open st
  /\ client_outbox (state_of (_on_go2_message rd st))
     = client_outbox st ++ (if client_channel_open st then forwardable rd else []).
Proof.
  unfold _on_go2_message, client_outbox, client_channel_open, forwardable, ebind, get,
    try_eff, on_some, dc_send, ret.
  destruct st as [g rp [[did rs sent dcf] |] vt]; simpl.
  - destruct rs; simpl; rewrite ?app_nil_r; try (repeat split; reflexivity).
    destruct (raw_message rd) as [[s | b | v] |]; simpl; rewrite ?app_nil_r;
      repeat split; reflexivity.
  - repeat split; reflexivity.
Qed.

(** X21: the handler of the client-facing data channel never raises.  It
    changes nothing of the state but the outbox of the robot-side data
    channel, to which it appends the message when it is text and that
    channel is open -- whether or not the robot session is validated -- and
    nothing in every other case: bytes and other payloads are not
    forwarded. *)
Theorem client_to_robot_forwards_or_drops (msg : message) (st : WebRTCRelayAppState) :
  result_of (_on_datachannel_message msg st) = Ok tt
  /\ relay_rtc_peer_connection (state_of (_on_datachannel_message msg st))
     = relay_rtc_peer_connection st
  /\ relay_rtc_data_channel (state_of (_on_datachannel_message msg st))
     = relay_rtc_data_channel st
  /\ go2_video_track (state_of (_on_datachannel_message msg st)) = go2_video_track st
  /\ robot_channel_open (state_of (_on_datachannel_message msg st)) = robot_channel_open st
  /\ robot_outbox (state_of (_on_datachannel_message msg st))
     = robot_outbox st ++ (if robot_channel_open st then text_of msg else [])
  /\ (go2 st = None -> state_of (_on_datachannel_message msg st) = st)
  /\ (forall g, go2 st = Some g ->
        exists g', go2 (state_of (_on_datachannel_message msg st)) = Some g'
                   /\ is_validated g' = is_validated g
                   /\ pc g' = pc g
                   /\ http_client g' = http_client g).
Proof.
  unfold _on_datachannel_message, robot_outbox, robot_channel_open, text_of, ebind, get,
    on_some, emit.
  destruct st as [[g |] rp rd vt]; simpl.
  - destruct msg as [s | b | v]; simpl.
    + rewrite publish_json_str_spec.
      destruct (is_open (readyState (data_channel g))) eqn:Ho; simpl;
        rewrite ?Ho, ?app_nil_r; repeat split; try discriminate;
        intros g0 Hg0; injection Hg0 as <-; eexists; repeat split.
    + destruct (is_open (readyState (data_channel g))); rewrite app_nil_r;
        repeat split; try discriminate;
        intros g0 Hg0; injection Hg0 as <-; eexists; repeat split.
    + destruct (is_open (readyState (data_channel g))); rewrite app_nil_r;
        repeat split; try discriminate;
        intros g0 Hg0; injection Hg0 as <-; eexists; repeat split.
  - repeat split; discriminate.
Qed.

Lemma validation_ok_handled (ext : Externals) (s : string) (obj : pyval)
    (g : Go2Connection) (topics : list string) :
  open_result g = Ok tt ->
  is_validated g = false ->
  on_validated g = Some (RelayOnValidated topics) ->
  json_loads ext s = Ok obj ->
  field_of obj "type" = Some (PStr "validation") ->
  field_of obj "data" = Some (PStr "Validation Ok.") ->
  on_data_channel_message ext (MsgStr s) g
  = (Ok tt, with_is_validated (queued (forced_open g) (vid_on ext)) true,
     opening g ++ [EvOnValidated (robot_num g)]).
Proof.
  intros Ho Hv Hcb Hload Hty Hdata.
  destruct (forced_open_fields g) as (Hopen & _ & _ & Hcb' & _ & Hn & _).
  rewrite (handler_when_gated ext s g Ho Hv). unfold try_eff.
  rewrite (gate_on_validation ext s obj (PStr "validation") (PStr "Validation Ok.")
             (forced_open g) Hload (subscript_some _ _ _ Hty) eq_refl
             (subscript_some _ _ _ Hdata)).
  rewrite (validate_ok_run ext (PStr "Validation Ok.") (forced_open g) eq_refl Hopen).
  cbv zeta. rewrite Hcb', Hcb, Hn. reflexivity.
Qed.

Lemma opening_cases (c : Go2Connection) : opening c = [] \/ opening c = [EvOnOpen].
Proof.
  unfold opening.
  destruct (is_open (readyState (data_channel c))); [left; reflexivity |].
  destruct (on_open c); [right | left]; reflexivity.
Qed.

(** The relay has no callback for the call of [on_open] itself. *)
Lemma callbacks_after_opening (ext : Externals) (g c : Go2Connection) (evs : list event)
    (st : WebRTCRelayAppState) :
  run_relay_callbacks ext g (opening c ++ evs) st
  = prefixed (opening c) (run_relay_callbacks ext g evs st).
Proof.
  destruct (opening_cases c) as [-> | ->].
  - simpl. destruct (run_relay_callbacks ext g evs st) as [[r s1] t1]. reflexivity.
  - simpl. unfold ebind, emit, ret. simpl.
    destruct (run_relay_callbacks ext g evs st) as [[[a | e] s1] t1]; reflexivity.
Qed.

(** X22: the success marker of the validation handshake, arriving at a
    relay whose robot session is not yet validated, the open-state
    workaround not raising.  The session becomes validated and the robot is
    sent, in this order, "video on", one subscribe message per topic given
    to [connect], and the lidar switch "on"; the traffic-saving request is
    scheduled; nothing is sent to the client.  The trace is the call of
    [on_open] the workaround made, if it made one, the call of
    on_validated, and the scheduling. *)
Theorem validation_reaches_the_relay (ext : Externals) (s : string) (obj : pyval)
    (st : WebRTCRelayAppState) (g : Go2Connection) (topics : list string) :
  go2 st = Some g ->
  open_result g = Ok tt ->
  is_validated g = false ->
  on_validated g = Some (RelayOnValidated topics) ->
  json_loads ext s = Ok obj ->
  field_of obj "type" = Some (PStr "validation") ->
  field_of obj "data" = Some (PStr "Validation Ok.") ->
  result_of (robot_message_arrives ext (MsgStr s) st) = Ok tt
  /\ (exists g', go2 (state_of (robot_message_arrives ext (MsgStr s) st)) = Some g'
                 /\ is_validated g' = true)
  /\ robot_outbox (state_of (robot_message_arrives ext (MsgStr s) st))
     = robot_outbox st ++ vid_on ext :: subscriptions ext topics
  /\ client_outbox (state_of (robot_message_arrives ext (MsgStr s) st)) = client_outbox st
  /\ trace_of (robot_message_arrives ext (MsgStr s) st)
     = opening g ++ [EvOnValidated (robot_num g); EvCreateTask "disableTrafficSaving"].
Proof.
  intros Hg Ho Hv Hcb Hload Hty Hdata.
  destruct (forced_open_fields g) as (Hopen & _ & _ & _ & _ & _ & Hsent).
  set (g1 := with_is_validated (queued (forced_open g) (vid_on ext)) true).
  assert (Hopen1 : is_open (readyState (data_channel g1)) = true) by exact Hopen.
  assert (Hcbs : run_relay_callbacks ext g [EvOnValidated (robot_num g)]
                   (with_go2 st (Some g1))
                 = (Ok tt,
                    with_go2 (with_go2 st (Some g1))
                      (Some (queue_all g1 (subscriptions ext topics))),
                    [EvOnValidated (robot_num g); EvCreateTask "disableTrafficSaving"])).
  { simpl run_relay_callbacks. unfold ebind at 1, emit.
    unfold run_relay_callback. rewrite Hcb.
    unfold ebind at 1.
    rewrite (on_go2_validated_open ext topics (with_go2 st (Some g1)) g1 eq_refl Hopen1).
    reflexivity. }
  assert (Hrun : robot_message_arrives ext (MsgStr s) st
                 = (Ok tt,
                    with_go2 (with_go2 st (Some g1))
                      (Some (queue_all g1 (subscriptions ext topics))),
                    opening g
                    ++ [EvOnValidated (robot_num g); EvCreateTask "disableTrafficSaving"])).
  { unfold robot_message_arrives, ebind at 1, get. rewrite Hg.
    rewrite (validation_ok_handled ext s obj g topics Ho Hv Hcb Hload Hty Hdata).
    fold g1. unfold ebind, put.
    rewrite callbacks_after_opening, Hcbs. reflexivity. }
  rewrite Hrun. project_triples.
  split; [reflexivity | split; [| split; [| split; [| reflexivity]]]].
  - eexists. split; [reflexivity |].
    clear. generalize (subscriptions ext topics) as msgs. intro msgs.
    unfold queue_all. revert g1.
    assert (Hkeep : forall (l : list message) (c : Go2Connection),
              is_validated (fold_left queued l c) = is_validated c).
    { induction l as [| m l IH]; intro c; simpl; [reflexivity | rewrite IH; reflexivity]. }
    intro g1. rewrite Hkeep. reflexivity.
  - unfold robot_outbox. rewrite Hg. simpl. rewrite queue_all_sent.
    subst g1. simpl. rewrite Hsent. rewrite <- app_assoc. reflexivity.
  - destruct st; reflexivity.
Qed.

(** ** What the handlers of a session may change *)

Lemma channel_grows_refl (d : DataChannel) : channel_grows d d.
Proof.
  repeat split; auto. exists []. rewrite app_nil_r. reflexivity.
Qed.

Lemma session_frame_refl (c : Go2Connection) : session_frame c c.
Proof.
  exists (data_channel c), (is_validated c).
  split; [destruct c; reflexivity | apply channel_grows_refl].
Qed.

Lemma session_frame_trans (c1 c2 c3 : Go2Connection) :
  session_frame c1 c2 -> session_frame c2 c3 -> session_frame c1 c3.
Proof.
  intros (d & b & -> & Hid & Hf & Ho & more & Hs) (d' & b' & -> & Hid' & Hf' & Ho' & more' & Hs').
  simpl in *.
  exists d', b'. split; [reflexivity |].
  repeat split; try congruence; auto.
  exists (more ++ more'). rewrite Hs', Hs, app_assoc. reflexivity.
Qed.

Lemma framed_ret {A : Type} (a : A) : framed (ret a).
Proof. intro c. apply session_frame_refl. Qed.

Lemma framed_raise {A : Type} (e : pyexn) : framed (@raise Go2Connection A e).
Proof. intro c. apply session_frame_refl. Qed.

Lemma framed_get : framed (@get Go2Connection).
Proof. intro c. apply session_frame_refl. Qed.

Lemma framed_lift {A : Type} (r : pyresult A) : framed (lift r).
Proof. intro c. apply session_frame_refl. Qed.

Lemma framed_emit (ev : event) : framed (emit ev).
Proof. intro c. apply session_frame_refl. Qed.

Lemma framed_bind {A B : Type} (m : eff Go2Connection A) (k : A -> eff Go2Connection B) :
  framed m -> (forall a, framed (k a)) -> framed (ebind m k).
Proof.
  intros Hm Hk c. unfold ebind. specialize (Hm c).
  destruct (m c) as [[[a | e] s1] t1]; unfold state_of in *; simpl in *.
  - specialize (Hk a s1).
    destruct (k a s1) as [[r2 s2] t2]; unfold state_of in *; simpl in *.
    eapply session_frame_trans; eassumption.
  - exact Hm.
Qed.

Lemma framed_try {A : Type} (m : eff Go2Connection A) (h : pyexn -> eff Go2Connection A) :
  framed m -> (forall e, framed (h e)) -> framed (try_eff m h).
Proof.
  intros Hm Hh c. unfold try_eff. specialize (Hm c).
  destruct (m c) as [[[a | e] s1] t1]; unfold state_of in *; simpl in *.
  - exact Hm.
  - specialize (Hh e s1).
    destruct (h e s1) as [[r2 s2] t2]; unfold state_of in *; simpl in *.
    eapply session_frame_trans; eassumption.
Qed.

Lemma framed_on_channel {A : Type} (m : eff DataChannel A) :
  (forall dc, channel_grows dc (state_of (m dc))) -> framed (on_channel m).
Proof.
  intros Hm c. unfold on_channel, focus.
  specialize (Hm (data_channel c)).
  destruct (m (data_channel c)) as [[r d] t]. unfold state_of in *; simpl in *.
  exists d, (is_validated c). split; [destruct c; reflexivity | exact Hm].
Qed.

Lemma framed_send (m : message) : framed (on_channel (dc_send m)).
Proof.
  apply framed_on_channel. intro dc. unfold dc_send.
  destruct (is_open (readyState dc)) eqn:Ho; [destruct m |];
    unfold state_of; simpl; try apply channel_grows_refl;
    (repeat split; auto; eexists; reflexivity).
Qed.

Lemma framed_force_open : framed force_open.
Proof.
  intro c. rewrite force_open_spec. unfold state_of, forced_open. simpl.
  destruct (is_open (readyState (data_channel c))) eqn:Ho; [apply session_frame_refl |].
  exists (set_ready (data_channel c) RS_open), (is_validated c).
  split; [destruct c; reflexivity |].
  repeat split; auto. exists []. simpl. rewrite app_nil_r. reflexivity.
Qed.

Lemma framed_publish (ext : Externals) (topic data : pyval) (ty : string) :
  framed (publish ext topic data ty).
Proof.
  unfold publish. apply framed_try; [apply framed_send | intro e; apply framed_emit].
Qed.

Lemma framed_publish_json_str (s : string) : framed (publish_json_str s).
Proof.
  unfold publish_json_str. apply framed_try; [| intro e; apply framed_emit].
  apply framed_bind; [apply framed_get |]. intro c.
  destruct (negb (is_open (readyState (data_channel c))));
    [apply framed_emit | apply framed_send].
Qed.

Lemma framed_parse (ext : Externals) (s : string) :
  framed (parse_datachannel_message ext s).
Proof.
  unfold parse_datachannel_message.
  destruct (json_loads ext s) as [v | e]; [apply framed_ret |].
  destruct (exn_cls e);
    (apply framed_bind; [apply framed_emit | intros _; apply framed_raise]).
Qed.

Lemma framed_call_on_message (cb : on_message_cb) (rd : RobotData) :
  framed (call_on_message cb rd).
Proof.
  unfold call_on_message. apply framed_bind; [apply framed_emit |].
  intros _. destruct cb; [apply framed_ret | apply framed_lift].
Qed.

Lemma framed_hand_over (cb : on_message_cb) (rd : option RobotData) (m : message) :
  framed (hand_over cb rd m).
Proof.
  destruct rd; simpl; [apply framed_call_on_message | apply framed_ret].
Qed.

Lemma framed_dispatch (ext : Externals) (m : message) (raw : option pyval) :
  framed (dispatch_message ext m raw).
Proof.
  unfold dispatch_message. apply framed_bind; [apply framed_get |].
  intro c. destruct (on_message c) as [cb |]; [| apply framed_ret].
  destruct (negb (_decode_message c)); [apply framed_call_on_message |].
  destruct m as [s | b | v].
  - apply framed_bind.
    + destruct raw; [apply framed_ret | apply framed_parse].
    + intro obj. apply framed_bind; [apply framed_lift |].
      intro rd. apply framed_hand_over.
  - apply framed_bind; [apply framed_lift |].
    intros [frame |].
    + apply framed_bind; [apply framed_lift | intro rd; apply framed_hand_over].
    + apply framed_hand_over.
  - apply framed_emit.
Qed.

Lemma framed_validate (ext : Externals) (msg : pyval) :
  framed (validate_robot_conn ext msg).
Proof.
  intro c. unfold validate_robot_conn.
  destruct (py_eq_str msg "Validation Ok.").
  - unfold try_eff, ebind at 1. rewrite publish_spec.
    assert (Hq : forall m b, session_frame c (with_is_validated (queued c m) b)).
    { intros m b. exists (dc_append (data_channel c) m), b.
      split; [reflexivity |]. repeat split; auto. eexists; reflexivity. }
    assert (Hc : forall b, session_frame c (with_is_validated c b)).
    { intro b. exists (data_channel c), b.
      split; [destruct c; reflexivity | apply channel_grows_refl]. }
    destruct (is_open (readyState (data_channel c)));
      unfold ebind, get, put, call_on_validated, emit, ret, lift; simpl;
      (destruct (on_validated c) as [[topics | run] |]; simpl;
       [| destruct (run (robot_num c)) |]; unfold state_of; simpl; auto).
  - apply framed_try; [apply framed_publish | intro e; apply framed_emit].
Qed.

Lemma framed_gate (ext : Externals) (s : string) : framed (validation_gate ext s).
Proof.
  unfold validation_gate.
  apply framed_bind; [apply framed_parse |]. intro obj.
  apply framed_bind; [apply framed_lift |]. intro ty.
  destruct (py_eq_str ty "validation"); [| apply framed_dispatch].
  apply framed_bind; [apply framed_lift |]. intro data. apply framed_validate.
Qed.

Lemma framed_log_handler (e : pyexn) : framed (log_handler_error e).
Proof. apply framed_emit. Qed.

Lemma framed_after_open (ext : Externals) (m : message) : framed (after_open ext m).
Proof.
  unfold after_open. apply framed_bind; [apply framed_get |]. intro c.
  destruct m as [s | b | v]; try apply framed_dispatch.
  destruct (negb (is_validated c)); [apply framed_gate | apply framed_dispatch].
Qed.

(** After the handler the channel is open, and the session differs from
    the one before in the channel and the flag only. *)
Lemma handler_frame (ext : Externals) (m : message) (c : Go2Connection) :
  session_frame c (state_of (on_data_channel_message ext m c))
  /\ is_open (readyState (data_channel (state_of (on_data_channel_message ext m c)))) = true.
Proof.
  assert (Hfrom : session_frame (forced_open c)
                    (state_of (on_data_channel_message ext m c))).
  { rewrite handler_run. destruct (open_result c) as [[] | e].
    - rewrite state_of_prefixed.
      apply framed_try; [apply framed_after_open | apply framed_log_handler].
    - project_triples. apply session_frame_refl. }
  split.
  - eapply session_frame_trans; [| exact Hfrom].
    pose proof (framed_force_open c) as H. rewrite force_open_spec in H. exact H.
  - destruct (forced_open_fields c) as (Hopen & _).
    destruct Hfrom as (d & b & -> & _ & _ & Ho & _). simpl. exact (Ho Hopen).
Qed.

Lemma framed_handler (ext : Externals) (m : message) :
  framed (on_data_channel_message ext m).
Proof. intro c. exact (proj1 (handler_frame ext m c)). Qed.

Lemma framed_session_run (ext : Externals) (msgs : list message) :
  framed (session_run ext msgs).
Proof.
  induction msgs as [| m rest IH]; simpl; [apply framed_ret |].
  apply framed_bind; [apply framed_handler | intros _; exact IH].
Qed.

Lemma session_run_open (ext : Externals) (msgs : list message) :
  forall c,
    msgs <> [] \/ is_open (readyState (data_channel c)) = true ->
    is_open (readyState (data_channel (state_of (session_run ext msgs c)))) = true.
Proof.
  induction msgs as [| m rest IH]; intros c H.
  - destruct H as [H | H]; [congruence | exact H].
  - simpl session_run. unfold ebind.
    destruct (handler_frame ext m c) as (_ & Hopen).
    pose proof (try_log_ok (on_data_channel_message_body ext m) c) as Hok.
    change (try_eff (on_data_channel_message_body ext m) log_handler_error c)
      with (on_data_channel_message ext m c) in Hok.
    destruct (on_data_channel_message ext m c) as [[[[] | e] c1] t1];
      unfold result_of, state_of in *; simpl in *; [| discriminate].
    specialize (IH c1 (or_intror Hopen)).
    destruct (session_run ext rest c1) as [[r2 c2] t2]. exact IH.
Qed.

(** X23: whatever messages arrive, the message handler of a session
    changes nothing of it but the validated flag and the data channel.
    The peer connection, the HTTP client, the callbacks and the decode
    switches stay as they were; what had been queued on the channel is
    still queued, in place, before whatever was added; and after the first
    message the channel counts as open. *)
Theorem handler_changes_channel_and_flag_only (ext : Externals) (msgs : list message)
    (c : Go2Connection) :
  pc (state_of (session_run ext msgs c)) = pc c
  /\ http_client (state_of (session_run ext msgs c)) = http_client c
  /\ robot_num (state_of (session_run ext msgs c)) = robot_num c
  /\ on_message (state_of (session_run ext msgs c)) = on_message c
  /\ on_validated (state_of (session_run ext msgs c)) = on_validated c
  /\ on_open (state_of (session_run ext msgs c)) = on_open c
  /\ _decode_message (state_of (session_run ext msgs c)) = _decode_message c
  /\ decode_lidar (state_of (session_run ext msgs c)) = decode_lidar c
  /\ dc_id (data_channel (state_of (session_run ext msgs c))) = dc_id (data_channel c)
  /\ (exists more,
        dc_sent (data_channel (state_of (session_run ext msgs c)))
        = dc_sent (data_channel c) ++ more)
  /\ (msgs <> [] ->
      is_open (readyState (data_channel (state_of (session_run ext msgs c)))) = true).
Proof.
  pose proof (session_run_open ext msgs c) as Hopen.
  destruct (framed_session_run ext msgs c) as (d & b & Hst & Hid & _ & _ & Hmore).
  rewrite Hst in *. simpl in *.
  repeat split; auto.
Qed.

(** ** The relay as a whole *)

Lemma wired_frame (g g' : Go2Connection) : session_frame g g' -> wired g -> wired g'.
Proof. intros (d & b & -> & _) H. exact H. Qed.

Lemma relay_ok_same (st st' : WebRTCRelayAppState) :
  go2 st' = go2 st ->
  relay_rtc_peer_connection st' = relay_rtc_peer_connection st ->
  relay_ok st -> relay_ok st'.
Proof. unfold relay_ok. intros -> ->. auto. Qed.

Lemma relay_ok_session (st st' : WebRTCRelayAppState) (g g' : Go2Connection) :
  relay_ok st -> go2 st = Some g -> session_frame g g' -> go2 st' = Some g' ->
  relay_ok st'.
Proof.
  intros (_ & Hw) Hg Hf Hg'. split.
  - intros _. rewrite Hg'. discriminate.
  - intros g0 Hg0. rewrite Hg' in Hg0. injection Hg0 as <-.
    eapply wired_frame; [exact Hf | exact (Hw g Hg)].
Qed.

Lemma relay_ok_empty (st : WebRTCRelayAppState) :
  go2 st = None -> relay_rtc_peer_connection st = None -> relay_ok st.
Proof.
  intros Hg Hp. split.
  - intro H. contradiction.
  - intros g Hg'. congruence.
Qed.

Lemma wired_relay_session (fresh : FreshObjects) (args : ConnectArgs) :
  wired (relay_session fresh args).
Proof. repeat split. eexists. reflexivity. Qed.

Lemma step_client_channel (channel : DataChannel) (st : WebRTCRelayAppState) :
  relay_ok st -> relay_ok (state_of (_on_datachannel channel st)).
Proof. apply relay_ok_same; destruct st; reflexivity. Qed.

Lemma step_video_track (track : VideoTrack) (st : WebRTCRelayAppState) :
  relay_ok st -> relay_ok (state_of (_on_go2_video_track track st)).
Proof. apply relay_ok_same; destruct st as [g rp rd [old |]]; reflexivity. Qed.

Lemma step_on_go2_message (rd : RobotData) (st : WebRTCRelayAppState) :
  relay_ok st -> relay_ok (state_of (_on_go2_message rd st)).
Proof.
  apply relay_ok_same;
    unfold _on_go2_message, ebind, get, try_eff, on_some, dc_send, ret;
    destruct st as [g rp [[did rs sent dcf] |] vt]; simpl; try reflexivity;
    destruct rs; simpl; try reflexivity;
    destruct (raw_message rd) as [[s | b | v] |]; reflexivity.
Qed.

Lemma step_client_message (m : message) (st : WebRTCRelayAppState) :
  relay_ok st -> relay_ok (state_of (_on_datachannel_message m st)).
Proof.
  intro Hok. unfold _on_datachannel_message, ebind, get.
  destruct (go2 st) as [g |] eqn:Hg; simpl.
  - destruct m as [s | b | v]; simpl; try exact Hok.
    unfold on_some. pose proof (framed_publish_json_str s g) as Hf.
    destruct (publish_json_str s g) as [[r g'] t]. unfold state_of in *. simpl in *.
    apply (relay_ok_session st _ g g' Hok Hg Hf). reflexivity.
  - exact Hok.
Qed.

Lemma framed_on_open : framed on_data_channel_open.
Proof.
  unfold on_data_channel_open.
  apply framed_bind; [apply framed_force_open |]. intros _.
  apply framed_bind; [apply framed_get |]. intro c.
  destruct (on_open c) as [run |]; [| apply framed_ret].
  apply framed_bind; [apply framed_emit | intros _; apply framed_lift].
Qed.

Lemma step_robot_open (st : WebRTCRelayAppState) :
  relay_ok st -> relay_ok (state_of (robot_channel_opens st)).
Proof.
  intro Hok. unfold robot_channel_opens, ebind, get.
  destruct (go2 st) as [g |] eqn:Hg; simpl; [| exact Hok].
  unfold on_some. pose proof (framed_on_open g) as Hf.
  destruct (on_data_channel_open g) as [[r g'] t]. unfold state_of in *. simpl in *.
  apply (relay_ok_session st _ g g' Hok Hg Hf). reflexivity.
Qed.

Lemma framed_subscribe_all (ext : Externals) (topics : list string) :
  framed (subscribe_all ext topics).
Proof.
  induction topics as [| topic rest IH]; simpl; [apply framed_ret |].
  apply framed_bind; [apply framed_send | intros _; exact IH].
Qed.

Lemma step_on_go2_validated (ext : Externals) (topics : list string)
    (st : WebRTCRelayAppState) :
  relay_ok st -> relay_ok (state_of (_on_go2_validated ext topics st)).
Proof.
  intro Hok. unfold _on_go2_validated, try_eff, ebind at 1, get.
  destruct (go2 st) as [g |] eqn:Hg; simpl; [| exact Hok].
  unfold ebind at 1, emit, on_some.
  assert (Hf : framed (subscribe_all ext topics ;;;
                       publish ext (PStr (RTC_TOPIC ext "ULIDAR_SWITCH")) (PStr "on") "msg")).
  { apply framed_bind; [apply framed_subscribe_all | intros _; apply framed_publish]. }
  specialize (Hf g).
  destruct ((subscribe_all ext topics ;;;
             publish ext (PStr (RTC_TOPIC ext "ULIDAR_SWITCH")) (PStr "on") "msg") g)
    as [[[[] | e] g'] t]; unfold state_of in *; simpl in *;
    apply (relay_ok_session st _ g g' Hok Hg Hf); reflexivity.
Qed.

Lemma step_callback (ext : Externals) (g : Go2Connection) (ev : event)
    (st : WebRTCRelayAppState) :
  relay_ok st -> relay_ok (state_of (run_relay_callback ext g ev st)).
Proof.
  intro Hok. unfold run_relay_callback.
  destruct ev; try exact Hok.
  - destruct (on_validated g) as [[topics | run] |]; try exact Hok.
    apply step_on_go2_validated. exact Hok.
  - destruct (on_message g) as [[| run] |]; try exact Hok.
    apply step_on_go2_message. exact Hok.
Qed.

Lemma step_callbacks (ext : Externals) (g : Go2Connection) (evs : list event) :
  forall st, relay_ok st -> relay_ok (state_of (run_relay_callbacks ext g evs st)).
Proof.
  induction evs as [| ev rest IH]; intros st Hok; [exact Hok |].
  simpl run_relay_callbacks. unfold ebind, emit.
  pose proof (step_callback ext g ev st Hok) as H1.
  destruct (run_relay_callback ext g ev st) as [[[[] | e] s1] t1];
    unfold state_of in *; simpl in *; [| exact H1].
  specialize (IH s1 H1).
  destruct (run_relay_callbacks ext g rest s1) as [[r2 s2] t2]. exact IH.
Qed.

Lemma step_robot_message (ext : Externals) (m : message) (st : WebRTCRelayAppState) :
  relay_ok st -> relay_ok (state_of (robot_message_arrives ext m st)).
Proof.
  intro Hok. unfold robot_message_arrives, ebind at 1, get.
  destruct (go2 st) as [g |] eqn:Hg; [| exact Hok].
  pose proof (framed_handler ext m g) as Hf.
  destruct (on_data_channel_message ext m g) as [[r g'] tr].
  unfold state_of in Hf. simpl in Hf.
  assert (Hok' : relay_ok (with_go2 st (Some g'))).
  { apply (relay_ok_session st _ g g' Hok Hg Hf). reflexivity. }
  pose proof (step_callbacks ext g tr _ Hok') as H.
  unfold ebind, put.
  destruct (run_relay_callbacks ext g tr (with_go2 st (Some g'))) as [[r2 s2] t2].
  exact H.
Qed.

Lemma step_connect (ext : Externals) (fresh : FreshObjects) (hs : Handshake)
    (args : ConnectArgs) (st : WebRTCRelayAppState) :
  relay_ok st -> relay_ok (state_of (connect ext fresh hs args st)).
Proof.
  intro Hok. unfold connect, ebind at 1, get.
  destruct (go2 st) as [g |] eqn:Hg; [exact Hok |].
  unfold ebind, emit. rewrite go2_connect_run.
  destruct (connect_stages ext hs) as [[] | e]; unfold state_of; simpl; [| exact Hok].
  split.
  - intros _. destruct st; discriminate.
  - intros g Hg'. destruct st; simpl in Hg'. injection Hg' as <-.
    apply wired_relay_session.
Qed.

Lemma relay_disconnect_fault (st : WebRTCRelayAppState) (p : PeerConnection) (e : pyexn) :
  relay_rtc_peer_connection st = Some p ->
  pc_close_fault p = Some e ->
  disconnect st = (Raise e, st, [EvClose PeerConnectionRes (pc_id p)]).
Proof.
  intros Hp He. destruct st as [g rp rd vt]. simpl in Hp. subst rp.
  unfold disconnect, ebind, get, put, on_some, pc_close. simpl. rewrite He. reflexivity.
Qed.

Lemma step_disconnect (st : WebRTCRelayAppState) :
  relay_ok st -> relay_ok (state_of (disconnect st)).
Proof.
  intro Hok.
  assert (Hcases : (forall p, relay_rtc_peer_connection st = Some p -> pc_close_fault p = None)
                   \/ exists p e, relay_rtc_peer_connection st = Some p
                                  /\ pc_close_fault p = Some e).
  { destruct (relay_rtc_peer_connection st) as [p |].
    - destruct (pc_close_fault p) as [e |] eqn:He.
      + right. exists p, e. split; [reflexivity | exact He].
      + left. intros p0 Hp0. injection Hp0 as <-. exact He.
    - left. intros p0 Hp0. discriminate. }
  destruct Hcases as [Hclean | (p & e & Hp & He)].
  - destruct (relay_disconnect_run st Hclean) as (tr & Hrun & _).
    rewrite Hrun. apply relay_ok_empty; reflexivity.
  - rewrite (relay_disconnect_fault st p e Hp He). exact Hok.
Qed.

Lemma offer_keeps_session (ext : Externals) (new_pc : pyresult PeerConnection)
    (offered : SessionDescription) (st : WebRTCRelayAppState) (g : Go2Connection) :
  go2 st = Some g ->
  exists g', go2 (state_of (offer ext new_pc offered st)) = Some g' /\ session_frame g g'.
Proof.
  intro Hg.
  destruct (offer_with_session ext new_pc offered st g Hg) as (tr & _ & _ & _ & Hoffer).
  cbv zeta in Hoffer. rewrite Hoffer. project_triples.
  destruct (reraised_session_spec ext new_pc offered (cleared st)) as (_ & _ & Hstate & _).
  rewrite Hstate.
  destruct (establish_outcome ext new_pc offered (cleared st)) as (Hfail & Hsucc).
  destruct (negotiation_fails new_pc (cleared st)) eqn:Hneg.
  - destruct (Hfail eq_refl) as (Hgo2 & _). rewrite Hgo2.
    exists g. split; [destruct st; exact Hg | apply session_frame_refl].
  - destruct new_pc as [p | e]; [| discriminate].
    destruct (pc_create_answer_result p) as [answer | e] eqn:Ha.
    + destruct (Hsucc p answer eq_refl eq_refl Ha) as (_ & Hst). rewrite Hst.
      assert (Hg' : go2 (cleared st) = Some g) by (destruct st; exact Hg).
      rewrite Hg'. simpl. eexists. split; [reflexivity |].
      unfold video_retriggered.
      destruct (is_open (readyState (data_channel g))); [| apply session_frame_refl].
      exists (dc_append (data_channel g) (vid_on ext)), (is_validated g).
      split; [destruct g; reflexivity |].
      repeat split; auto. eexists; reflexivity.
    + exfalso. unfold negotiation_fails in Hneg. rewrite Ha in Hneg.
      simpl raises in Hneg. rewrite orb_true_r in Hneg. discriminate.
Qed.

Lemma step_offer (ext : Externals) (new_pc : pyresult PeerConnection)
    (offered : SessionDescription) (st : WebRTCRelayAppState) :
  relay_ok st -> relay_ok (state_of (offer ext new_pc offered st)).
Proof.
  intro Hok. destruct (go2 st) as [g |] eqn:Hg.
  - destruct (offer_keeps_session ext new_pc offered st g Hg) as (g' & Hg' & Hf).
    exact (relay_ok_session st _ g g' Hok Hg Hf Hg').
  - unfold offer, ebind, get. rewrite Hg. exact Hok.
Qed.

Lemma relay_step_ok (ext : Externals) (i : relay_input) (st : WebRTCRelayAppState) :
  relay_ok st -> relay_ok (relay_step ext i st).
Proof.
  destruct i; simpl.
  - apply step_connect.
  - apply step_disconnect.
  - apply step_offer.
  - apply step_client_channel.
  - apply step_client_message.
  - apply step_robot_open.
  - apply step_robot_message.
  - apply step_video_track.
Qed.

Lemma relay_run_ok (ext : Externals) (inputs : list relay_input) :
  forall st, relay_ok st -> relay_ok (relay_run ext inputs st).
Proof.
  unfold relay_run.
  induction inputs as [| i rest IH]; intros st Hok; simpl; [exact Hok |].
  apply IH. apply relay_step_ok. exact Hok.
Qed.

(** X24: an invariant of the relay.  Starting from the state the
    application creates, after any sequence of requests and peer-connection
    events -- failed ones included -- a client-facing peer connection is
    stored only while a robot session is stored, and a stored robot session
    is the one [connect] built: in pass-through mode, with the relay's own
    message and validation callbacks. *)
Theorem client_session_needs_robot_session (ext : Externals) (inputs : list relay_input) :
  (relay_rtc_peer_connection (relay_run ext inputs lifespan_startup) <> None ->
   go2 (relay_run ext inputs lifespan_startup) <> None)
  /\ (forall g,
        go2 (relay_run ext inputs lifespan_startup) = Some g ->
        on_message g = Some RelayOnMessage
        /\ _decode_message g = false
        /\ exists topics, on_validated g = Some (RelayOnValidated topics)).
Proof.
  apply (relay_run_ok ext inputs lifespan_startup).
  apply relay_ok_empty; reflexivity.
Qed.

(** ** Video tracks *)

Lemma video_track_step (track : VideoTrack) (st : WebRTCRelayAppState) :
  _on_go2_video_track track st
  = (Ok tt, with_video_track st (Some track), map EvTrackStop (stored_tracks st)).
Proof. destruct st as [g rp rd [old |]]; reflexivity. Qed.

(** X25: video tracks of the robot that arrive one after the other.  The
    relay keeps the latest one only, and has stopped the track it held
    before and every earlier one of the sequence, each once and in order;
    nothing else of the state changes and nothing is raised. *)
Theorem video_tracks_replace (earlier : list VideoTrack) (latest : VideoTrack) :
  forall st,
    video_tracks_arrive (earlier ++ [latest]) st
    = (Ok tt, with_video_track st (Some latest),
       map EvTrackStop (stored_tracks st ++ map track_id earlier)).
Proof.
  induction earlier as [| track rest IH]; intro st.
  - simpl. unfold ebind. rewrite video_track_step. simpl.
    rewrite !app_nil_r. reflexivity.
  - simpl. unfold ebind. rewrite video_track_step.
    rewrite (IH (with_video_track st (Some track))).
    rewrite !map_app. simpl. destruct st; reflexivity.
Qed.

(** ** Padding *)

Lemma single_byte_ok (n : Z) :
  0 <= n < 256 ->
  exists b, single_byte n = Ok b /\ N.to_nat (Byte.to_N b) = Z.to_nat n.
Proof.
  intro Hn. unfold single_byte.
  replace ((0 <=? n) && (n <? 256)) with true
    by (symmetry; apply andb_true_iff; split; [apply Z.leb_le | apply Z.ltb_lt]; lia).
  destruct (Byte.of_N (Z.to_N n)) as [b |] eqn:Hb.
  - exists b. split; [reflexivity |].
    apply Byte.to_of_N in Hb. rewrite Hb. lia.
  - exfalso. apply Byte.of_N_None_iff in Hb. lia.
Qed.

Lemma unpad_after_pad (data : list Byte.byte) (b : Byte.byte) (k : nat) :
  (0 < k)%nat ->
  N.to_nat (Byte.to_N b) = k ->
  _pkcs7_unpad (data ++ repeat b k) = Ok data.
Proof.
  intros Hk Hb. destruct k as [| k']; [lia |].
  unfold _pkcs7_unpad.
  assert (Hrev : rev (data ++ repeat b (S k')) = b :: rev (data ++ repeat b k')).
  { change (repeat b (S k')) with (b :: repeat b k').
    rewrite repeat_cons, app_assoc, rev_unit. reflexivity. }
  rewrite Hrev. cbv zeta. rewrite Hb.
  assert (Hlen : length (data ++ repeat b (S k')) = (length data + S k')%nat)
    by (rewrite length_app, repeat_length; reflexivity).
  rewrite Hlen.
  replace ((S k' =? 0)%nat) with false by reflexivity.
  replace ((length data + S k' <? S k')%nat) with false
    by (symmetry; apply Nat.ltb_ge; lia).
  simpl orb. cbv iota.
  replace (length data + S k' - S k')%nat with (length data + 0)%nat by lia.
  rewrite firstn_app_2. simpl. rewrite app_nil_r. reflexivity.
Qed.

(** X26: padding and its removal, as the mock robot uses them around AES.
    For a block size between 1 and 255, [_pkcs7_pad] does not raise, adds
    between one byte and a full block, and yields a whole number of blocks;
    and [_pkcs7_unpad] gives the data back. *)
Theorem pkcs7_round_trip (data : list Byte.byte) (block_size : Z) :
  0 < block_size < 256 ->
  exists padded,
    _pkcs7_pad data block_size = Ok padded
    /\ Z.of_nat (length padded) mod block_size = 0
    /\ Z.of_nat (length data) < Z.of_nat (length padded)
       <= Z.of_nat (length data) + block_size
    /\ firstn (length data) padded = data
    /\ _pkcs7_unpad padded = Ok data.
Proof.
  intro Hbs. unfold _pkcs7_pad.
  replace (block_size =? 0) with false by (symmetry; apply Z.eqb_neq; lia).
  cbv zeta.
  pose proof (Z.mod_pos_bound (Z.of_nat (length data)) block_size ltac:(lia)) as Hr.
  set (r := Z.of_nat (length data) mod block_size) in *.
  destruct (single_byte_ok (block_size - r) ltac:(lia)) as (b & Hb & Hval).
  rewrite Hb. simpl bind.
  exists (data ++ repeat b (Z.to_nat (block_size - r))).
  assert (Hlen : Z.of_nat (length (data ++ repeat b (Z.to_nat (block_size - r))))
                 = Z.of_nat (length data) + (block_size - r))
    by (rewrite length_app, repeat_length; lia).
  split; [reflexivity | split; [| split; [| split]]].
  - rewrite Hlen.
    pose proof (Z.div_mod (Z.of_nat (length data)) block_size ltac:(lia)) as Hdm.
    fold r in Hdm.
    replace (Z.of_nat (length data) + (block_size - r))
      with ((Z.of_nat (length data) / block_size + 1) * block_size) by lia.
    apply Z_mod_mult.
  - rewrite Hlen. lia.
  - replace (length data) with (length data + 0)%nat at 1 by lia.
    rewrite firstn_app_2. simpl. apply app_nil_r.
  - apply unpad_after_pad; [lia | exact Hval].
Qed.

(** ** The client and the relay *)

Lemma length_append (a b : string) :
  String.length (a ++ b)%string = (String.length a + String.length b)%nat.
Proof. induction a as [| ch a IH]; simpl; [reflexivity | rewrite IH; reflexivity]. Qed.

Lemma reaches_relay_root (url : string) : reaches_relay url -> url = EmptyString.
Proof.
  unfold reaches_relay, route. intro H.
  destruct (String.eqb (url ++ "/go2/connect") "/go2/connect") eqn:E.
  - apply String.eqb_eq in E. apply (f_equal String.length) in E.
    rewrite length_append in E.
    destruct url; [reflexivity | simpl in E; lia].
  - destruct (String.eqb (url ++ "/go2/connect") "/go2/disconnect"); [discriminate |].
    destruct (String.eqb (url ++ "/go2/connect") "/webrtc/offer"); discriminate.
Qed.

Lemma stages_succeed_iff (ext : Externals) (hs : Handshake) :
  handshake_succeeds hs = true <-> connect_stages ext hs = Ok tt.
Proof.
  unfold handshake_succeeds, connect_stages.
  destruct (hs_local_offer hs) as [[] | e1]; simpl; [| split; discriminate].
  destruct (hs_public_key hs) as [[| |] | e2]; simpl; try (split; discriminate).
  destruct (hs_exchange hs) as [[|] | e3]; simpl; split; congruence.
Qed.

Lemma connect_run (ext : Externals) (fresh : FreshObjects) (hs : Handshake)
    (args : ConnectArgs) (st : WebRTCRelayAppState) :
  go2 st = None ->
  connect ext fresh hs args st
  = match connect_stages ext hs with
    | Ok _ =>
        (Ok (mkConnectReply (arg_robot_ip args)),
         with_go2 st (Some (relay_session fresh args)),
         [EvNewGo2Connection (arg_robot_ip args); EvHandshake (arg_robot_ip args)])
    | Raise e =>
        (Raise (Exn (HTTPException 502)
                  (PStr ("GO2 connect failed: "
                           ++ str_exn ext
                                (if match exn_cls e with
                                    | Go2ConnectionError => true
                                    | _ => false
                                    end
                                 then e
                                 else connection_error
                                        ("Unexpected error during connection: "
                                           ++ str_exn ext e)%string))%string)),
         st,
         [EvNewGo2Connection (arg_robot_ip args); EvHandshake (arg_robot_ip args)])
    end.
Proof.
  intro Hg. unfold connect, ebind at 1, get. rewrite Hg.
  unfold ebind, emit. rewrite go2_connect_run.
  destruct (connect_stages ext hs) as [[] | e]; reflexivity.
Qed.

Lemma connect_again (ext : Externals) (fresh : FreshObjects) (hs : Handshake)
    (args : ConnectArgs) (st : WebRTCRelayAppState) (g : Go2Connection) :
  go2 st = Some g ->
  connect ext fresh hs args st = (Raise already_connected, st, []).
Proof. intro Hg. unfold connect, ebind, get. rewrite Hg. reflexivity. Qed.

Lemma offer_without_session (ext : Externals) (new_pc : pyresult PeerConnection)
    (offered : SessionDescription) (st : WebRTCRelayAppState) :
  go2 st = None ->
  offer ext new_pc offered st = (Raise not_connected_yet, st, []).
Proof. intro Hg. unfold offer, ebind, get. rewrite Hg. reflexivity. Qed.

Lemma offer_fails_run (ext : Externals) (new_pc : pyresult PeerConnection)
    (offered : SessionDescription) (st : WebRTCRelayAppState) (g : Go2Connection) :
  go2 st = Some g ->
  negotiation_fails new_pc st = true ->
  result_of (offer ext new_pc offered st) = Raise offer_failed.
Proof.
  intros Hg Hneg.
  destruct (offer_with_session ext new_pc offered st g Hg) as (tr & _ & _ & _ & Hoffer).
  cbv zeta in Hoffer. rewrite Hoffer. project_triples.
  destruct (reraised_session_spec ext new_pc offered (cleared st)) as (_ & _ & _ & _ & Hr).
  apply Hr. rewrite negotiation_fails_cleared. exact Hneg.
Qed.

(** X27: what the client sees of the relay's answers.  With a URL that
    leads to the relay's handlers: a connect while a robot session is
    stored raises, in the client, the very StateException the handler
    raised; a connect whose robot handshake fails raises a plain Exception
    -- not one of the six kinds -- and stores nothing; a connect whose
    handshake succeeds returns, and the session is stored with robot
    number 1 and the seven default topics.  An offer before any connect, and
    an offer whose negotiation fails, raise in the client the
    StateException of the handler; an offer that succeeds gives the client
    the answer of the relay's peer connection. *)
Theorem relay_answers_reach_the_client (ext : Externals) (env : Environment) (url : string)
    (st : WebRTCRelayAppState) :
  reaches_relay url ->
  (forall ip rest tok,
     (go2 st <> None ->
      _connect_to_go2 ext env url (ip :: rest) tok st = (Raise already_connected, st, []))
     /\ (go2 st = None -> handshake_succeeds (env_handshake env) = false ->
         exists text,
           result_of (_connect_to_go2 ext env url (ip :: rest) tok st)
           = Raise (Exn PlainException (PStr text))
           /\ state_of (_connect_to_go2 ext env url (ip :: rest) tok st) = st)
     /\ (go2 st = None -> handshake_succeeds (env_handshake env) = true ->
         result_of (_connect_to_go2 ext env url (ip :: rest) tok st) = Ok tt
         /\ state_of (_connect_to_go2 ext env url (ip :: rest) tok st)
            = with_go2 st
                (Some (relay_session (env_fresh env)
                         (mkConnectArgs ip 1 tok (TOPICS_TO_SUBSCRIBE_TO ext))))))
  /\ (forall peer_offer,
        (go2 st = None ->
         send_offer ext env url peer_offer st = (Raise not_connected_yet, st, []))
        /\ (go2 st <> None -> negotiation_fails (env_new_pc env) st = true ->
            result_of (send_offer ext env url peer_offer st) = Raise offer_failed)
        /\ (forall p answer,
              go2 st <> None ->
              env_new_pc env = Ok p ->
              negotiation_fails (Ok p) st = false ->
              pc_create_answer_result p = Ok answer ->
              result_of (send_offer ext env url peer_offer st) = Ok answer)).
Proof.
  intro Hurl. apply reaches_relay_root in Hurl. subst url.
  split.
  - intros ip rest tok. split; [| split].
    + intro Hg. destruct (go2 st) as [g |] eqn:Hg'; [| contradiction].
      unfold _connect_to_go2, ebind, relay_post, respond. simpl.
      rewrite (connect_again ext _ _ _ st g Hg'). reflexivity.
    + intros Hg Hfail.
      unfold _connect_to_go2, ebind, relay_post, respond. simpl.
      rewrite (connect_run ext _ _ _ st Hg).
      destruct (connect_stages ext (env_handshake env)) as [[] | e] eqn:Hst.
      * apply stages_succeed_iff in Hst. congruence.
      * eexists. split; reflexivity.
    + intros Hg Hok.
      unfold _connect_to_go2, ebind, relay_post, respond. simpl.
      rewrite (connect_run ext _ _ _ st Hg).
      apply (stages_succeed_iff ext) in Hok. rewrite Hok. split; reflexivity.
  - intro peer_offer. split; [| split].
    + intro Hg.
      unfold send_offer, ebind, relay_post, respond. simpl.
      rewrite (offer_without_session ext _ peer_offer st Hg). reflexivity.
    + intros Hg Hneg. destruct (go2 st) as [g |] eqn:Hg'; [| contradiction].
      pose proof (offer_fails_run ext (env_new_pc env) peer_offer st g Hg' Hneg) as Hr.
      unfold send_offer, ebind, relay_post, respond. simpl.
      destruct (offer ext (env_new_pc env) peer_offer st) as [[r st'] tr].
      unfold result_of in Hr. simpl in Hr. subst r. reflexivity.
    + intros p answer Hg Hp Hneg Ha. destruct (go2 st) as [g |] eqn:Hg'; [| contradiction].
      destruct (offer_success_run ext p peer_offer answer st g Hg' Hneg Ha) as (Hr & _).
      unfold send_offer, ebind, relay_post, respond. simpl. rewrite Hp.
      destruct (offer ext (Ok p) peer_offer st) as [[r st'] tr].
      unfold result_of in Hr. simpl in Hr. subst r. simpl.
      destruct answer; reflexivity.
Qed.

(** X28: the client's [_disconnect_from_go2] posts to a path the relay
    has no route for.  With a URL under which the client's connect reaches
    the connect handler, the call never raises and leaves the relay exactly
    as it was: no handler runs, and a stored robot session stays stored. *)
Theorem client_disconnect_reaches_no_handler (ext : Externals) (env : Environment)
    (url : string) (st : WebRTCRelayAppState) :
  reaches_relay url ->
  _disconnect_from_go2 ext env url st = (Ok tt, st, []).
Proof.
  intro Hurl. apply reaches_relay_root in Hurl. subst url. reflexivity.
Qed.

(** X29: the client's handler of the data channel never raises, whatever
    the decoder and the callbacks do.  A text is handed to the robot-data
    callback exactly when it parses and [process_webrtc_message] builds an
    envelope for it -- with robot id "0"; bytes are handed to the lidar
    callback exactly when the decoder returns a frame; anything else is
    handed to no callback. *)
Theorem client_hands_on_what_decodes (ext : Externals)
    (decode_array_buffer : list Byte.byte -> pyresult (option pyval))
    (on_robot_data : RobotData -> pyresult unit)
    (on_lidar_frame : pyval -> pyresult unit)
    (data : message) (calls : list client_call) :
  result_of (_on_peer_datachannel_message ext decode_array_buffer on_robot_data
               on_lidar_frame data calls) = Ok tt
  /\ state_of (_on_peer_datachannel_message ext decode_array_buffer on_robot_data
                 on_lidar_frame data calls)
     = calls ++ handed_on ext decode_array_buffer data
  /\ (forall rd, In (RobotDataCall rd) (handed_on ext decode_array_buffer data) ->
                 robot_id rd = "0"%string /\ raw_message rd = None).
Proof.
  split; [| split].
  - unfold _on_peer_datachannel_message, try_eff.
    match goal with
    | |- context [match ?body calls with _ => _ end] =>
        destruct (body calls) as [[[[] | e] s1] t1]; reflexivity
    end.
  - unfold _on_peer_datachannel_message, handed_on, try_eff, ebind, lift, call_back, emit,
      ret, parse_datachannel_message.
    destruct data as [s | b | v]; simpl.
    + destruct (json_loads ext s) as [parsed | e]; simpl.
      * destruct (process_webrtc_message ext parsed "0") as [[rd |] | e]; simpl;
          rewrite ?app_nil_r; try reflexivity.
        destruct (on_robot_data rd) as [[] | e]; reflexivity.
      * destruct (exn_cls e); simpl; rewrite ?app_nil_r; reflexivity.
    + destruct (decode_array_buffer b) as [[frame |] | e]; simpl;
        rewrite ?app_nil_r; try reflexivity.
      destruct (on_lidar_frame frame) as [[] | e]; reflexivity.
    + rewrite app_nil_r. reflexivity.
  - intros rd Hin. unfold handed_on in Hin.
    destruct data as [s | b | v]; simpl in Hin.
    + destruct (json_loads ext s) as [parsed | e]; [| contradiction].
      destruct (process_webrtc_message ext parsed "0") as [[rd' |] | e] eqn:Hp;
        try contradiction.
      destruct Hin as [Hin | []]. injection Hin as ->.
      unfold process_webrtc_message in Hp.
      apply bind_ok in Hp. destruct Hp as (ty & _ & Hp).
      destruct (negb (py_eq_str ty "msg")); [discriminate |].
      apply bind_ok in Hp. destruct Hp as (topic & _ & Hp).
      destruct (py_eq_str topic (RTC_TOPIC ext "ULIDAR_ARRAY")).
      { injection Hp as <-. split; reflexivity. }
      destruct (py_eq_str topic (RTC_TOPIC ext "ROBOTODOM")).
      { apply bind_ok in Hp. destruct Hp as (payload & _ & Hp). injection Hp as <-.
        split; reflexivity. }
      destruct (py_eq_str topic (RTC_TOPIC ext "LF_SPORT_MOD_STATE")).
      { apply bind_ok in Hp. destruct Hp as (payload & _ & Hp).
        destruct (parse_sport_mode_state payload) as [p |]; injection Hp as <-;
          split; reflexivity. }
      destruct (py_eq_str topic (RTC_TOPIC ext "LOW_STATE")); [| discriminate].
      apply bind_ok in Hp. destruct Hp as (payload & _ & Hp). injection Hp as <-.
      split; reflexivity.
    + destruct (decode_array_buffer b) as [[frame |] | e]; try contradiction.
      destruct Hin as [Hin | []]. discriminate.
    + contradiction.
Qed.

(** ** The publishing service *)

Lemma envelope_one_group (ext : Externals) (msg : pyval) (rid : string) (rd : RobotData) :
  process_webrtc_message ext msg rid = Ok (Some rd) ->
  RobotDataService.dispatch rd = calls_for rd
  /\ (robot_state rd <> None -> imu_data rd <> None).
Proof.
  intro H. unfold process_webrtc_message in H.
  apply bind_ok in H. destruct H as (ty & _ & H).
  destruct (negb (py_eq_str ty "msg")); [discriminate |].
  apply bind_ok in H. destruct H as (topic & _ & H).
  unfold RobotDataService.dispatch, calls_for.
  destruct (py_eq_str topic (RTC_TOPIC ext "ULIDAR_ARRAY")).
  { injection H as <-. simpl.
    destruct (parse_lidar_data msg); simpl; split; auto. }
  destruct (py_eq_str topic (RTC_TOPIC ext "ROBOTODOM")).
  { apply bind_ok in H. destruct H as (data & _ & H). injection H as <-. simpl.
    destruct (parse_odometry_data data); simpl; split; auto. }
  destruct (py_eq_str topic (RTC_TOPIC ext "LF_SPORT_MOD_STATE")).
  { apply bind_ok in H. destruct H as (data & _ & H).
    destruct (parse_sport_mode_state data) as [[rs imu] |]; injection H as <-;
      simpl; split; auto; discriminate. }
  destruct (py_eq_str topic (RTC_TOPIC ext "LOW_STATE")); [| discriminate].
  apply bind_ok in H. destruct H as (data & _ & H). injection H as <-. simpl.
  destruct (parse_low_state data); simpl; split; auto.
Qed.

Lemma call_in_order_clean (p : publisher) (methods : list publication) :
  (forall m, p m = None) -> call_in_order p methods = (methods, None).
Proof.
  intro Hp. induction methods as [| m rest IH]; simpl; [reflexivity |].
  rewrite Hp, IH. reflexivity.
Qed.

(** X30: an envelope built by [process_webrtc_message], handed to the
    publishing service.  At most one group of it is populated, so the order
    of the service's [elif] chain never decides anything: the service calls
    the methods of the populated group -- two for lidar, one otherwise --
    and none for a frame whose payload was rejected.  The robot state is
    published only together with IMU data.  A publisher method that raises
    ends the calls; the exception is logged, not raised. *)
Theorem parsed_telemetry_publication (ext : Externals) (msg : pyval) (rid : string)
    (rd : RobotData) (p : publisher) :
  process_webrtc_message ext msg rid = Ok (Some rd) ->
  ((forall m, p m = None) ->
   RobotDataService.process_webrtc_message p rd = (calls_for rd, None))
  /\ (length (fst (RobotDataService.process_webrtc_message p rd)) <= 2)%nat
  /\ (populated_groups rd = 0%nat ->
      RobotDataService.process_webrtc_message p rd = ([], None))
  /\ (In publish_robot_state (fst (RobotDataService.process_webrtc_message p rd)) ->
      robot_state rd <> None /\ imu_data rd <> None)
  /\ (forall e, lidar_data rd <> None -> p publish_lidar_data = Some e ->
        RobotDataService.process_webrtc_message p rd = ([publish_lidar_data], Some e)).
Proof.
  intro H. destruct (envelope_one_group ext msg rid rd H) as (Hflat & Himu).
  unfold RobotDataService.process_webrtc_message.
  split; [| split; [| split; [| split]]].
  - intro Hp. rewrite Hflat. apply call_in_order_clean. exact Hp.
  - unfold RobotDataService.dispatch.
    destruct (lidar_data rd), (odometry_data rd), (robot_state rd), (joint_data rd); simpl;
      repeat match goal with
             | |- context [p ?m] => destruct (p m)
             end; simpl; lia.
  - unfold populated_groups, RobotDataService.dispatch.
    destruct (lidar_data rd), (odometry_data rd), (robot_state rd), (imu_data rd),
      (joint_data rd); simpl; intro H0; try discriminate; reflexivity.
  - intro Hin.
    assert (Hs : robot_state rd <> None).
    { unfold RobotDataService.dispatch in Hin.
      destruct (lidar_data rd), (odometry_data rd), (robot_state rd), (joint_data rd);
        simpl in Hin;
        repeat match type of Hin with
               | context [p ?m] => destruct (p m)
               end; simpl in Hin;
        try discriminate; intuition discriminate. }
    split; [exact Hs | exact (Himu Hs)].
  - intros e Hl He. unfold RobotDataService.dispatch.
    destruct (lidar_data rd); [| contradiction]. simpl. rewrite He. reflexivity.
Qed.
(** ** C1: routing *)

Lemma on_go2_message_other (rd : RobotData) (st : WebRTCRelayAppState) (v : pyval) :
  raw_message rd = Some (MsgOther v) ->
  _on_go2_message rd st = (Ok tt, st, []).
Proof.
  intro Hraw. unfold _on_go2_message, ebind, get, try_eff, ret.
  destruct (relay_rtc_data_channel st) as [dc |]; [| reflexivity].
  destruct (negb (is_open (readyState dc))); [reflexivity |].
  rewrite Hraw. reflexivity.
Qed.

Lemma validated_keeps_client (ext : Externals) (topics : list string)
    (st : WebRTCRelayAppState) :
  relay_rtc_data_channel (state_of (_on_go2_validated ext topics st))
  = relay_rtc_data_channel st.
Proof.
  unfold _on_go2_validated, try_eff, ebind at 1, get.
  destruct (go2 st) as [g |] eqn:Hg; [| reflexivity].
  unfold ebind at 1, emit, on_some.
  destruct ((subscribe_all ext topics ;;;
             publish ext (PStr (RTC_TOPIC ext "ULIDAR_SWITCH")) (PStr "on") "msg") g)
    as [[[[] | e] g'] t]; destruct st; reflexivity.
Qed.

Lemma callback_keeps_client (ext : Externals) (g : Go2Connection) (ev : event)
    (st : WebRTCRelayAppState) :
  is_on_message ev = false ->
  relay_rtc_data_channel (state_of (run_relay_callback ext g ev st))
  = relay_rtc_data_channel st.
Proof.
  intro Hev. unfold run_relay_callback.
  destruct ev; simpl in Hev; try discriminate; try reflexivity.
  destruct (on_validated g) as [[topics | run] |]; try reflexivity.
  apply validated_keeps_client.
Qed.

(** Callbacks other than [on_message] leave the client channel alone. *)
Lemma callbacks_keep_client (ext : Externals) (g : Go2Connection) (evs : list event) :
  delivered evs = [] ->
  forall st,
    relay_rtc_data_channel (state_of (run_relay_callbacks ext g evs st))
    = relay_rtc_data_channel st.
Proof.
  induction evs as [| ev rest IH]; intros Hd st; [reflexivity |].
  unfold delivered in Hd. simpl in Hd.
  destruct (is_on_message ev) eqn:Hev; [discriminate |].
  simpl run_relay_callbacks. unfold ebind, emit.
  pose proof (callback_keeps_client ext g ev st Hev) as H1.
  destruct (run_relay_callback ext g ev st) as [[[[] | e] s1] t1];
    unfold state_of in *; simpl in *; [| exact H1].
  specialize (IH Hd s1).
  destruct (run_relay_callbacks ext g rest s1) as [[r2 s2] t2]. simpl in *. congruence.
Qed.

(** In pass-through mode, a message that gets past the validation gate
    reaches the relay's callback in an envelope whose [raw_message] is the
    message itself. *)
Lemma pass_through_relay_run (ext : Externals) (m : message) (c : Go2Connection) :
  open_result c = Ok tt ->
  on_message c = Some RelayOnMessage ->
  _decode_message c = false ->
  passes_gate ext c m = true ->
  on_data_channel_message ext m c
  = (Ok tt, forced_open c, opening c ++ [EvOnMessage (raw_envelope c m)]).
Proof.
  intros Ho Hcb Hdec Hpass.
  destruct (forced_open_fields c) as (_ & Hv & Hm & _ & Hd & Hn & _).
  assert (Hdisp : forall raw, dispatch_message ext m raw (forced_open c)
                              = (Ok tt, forced_open c, [EvOnMessage (raw_envelope c m)])).
  { intro raw. unfold dispatch_message, ebind, get, call_on_message, emit, ret, raw_envelope.
    rewrite Hm, Hcb, Hd, Hdec, Hn. reflexivity. }
  assert (Hopen_case : is_validated c = true \/ (forall s, m <> MsgStr s) ->
                       on_data_channel_message ext m c
                       = (Ok tt, forced_open c,
                          opening c ++ [EvOnMessage (raw_envelope c m)])).
  { intro Hc. rewrite (handler_when_open ext m c Ho Hc).
    unfold try_eff. rewrite Hdisp. reflexivity. }
  destruct m as [s | b | v]; try (apply Hopen_case; right; intros s; discriminate).
  destruct (is_validated c) eqn:Hc; [apply Hopen_case; left; reflexivity |].
  unfold passes_gate, text_type in Hpass. rewrite Hc in Hpass. simpl orb in Hpass.
  destruct (json_loads ext s) as [obj | e] eqn:Hload; [| discriminate].
  destruct (field_of obj "type") as [ty |] eqn:Hty; [| discriminate].
  rewrite (handler_when_gated ext s c Ho Hc). unfold try_eff.
  rewrite (gate_run ext s obj ty (forced_open c) Hload Hty).
  destruct (py_eq_str ty "validation"); [discriminate |].
  rewrite Hdisp. reflexivity.
Qed.

(** A text held back by the validation check of an unvalidated session reaches no
    [on_message] callback. *)
Lemma held_back_run (ext : Externals) (s : string) (c : Go2Connection) :
  open_result c = Ok tt ->
  passes_gate ext c (MsgStr s) = false ->
  exists c' tr,
    on_data_channel_message ext (MsgStr s) c = (Ok tt, c', tr) /\ delivered tr = [].
Proof.
  intros Ho Hpass. unfold passes_gate, text_type in Hpass.
  destruct (is_validated c) eqn:Hc; [discriminate |]. simpl orb in Hpass.
  rewrite (handler_when_gated ext s c Ho Hc).
  assert (Hgate : exists res c' tr,
            validation_gate ext s (forced_open c) = (res, c', tr) /\ delivered tr = []).
  { destruct (json_loads ext s) as [obj | e] eqn:Hload.
    - destruct (field_of obj "type") as [ty |] eqn:Hty.
      + rewrite (gate_run ext s obj ty (forced_open c) Hload Hty).
        destruct (py_eq_str ty "validation"); [| discriminate].
        destruct (subscript obj "data") as [data | e].
        * pose proof (validate_delivers_nothing ext data (forced_open c)) as Hnone.
          destruct (validate_robot_conn ext data (forced_open c)) as [[r1 c1] t1].
          exists r1, c1, t1. split; [reflexivity | exact Hnone].
        * eexists _, _, _. split; reflexivity.
      + destruct (subscript_none obj "type" Hty) as (e & Hsub).
        unfold validation_gate, parse_datachannel_message. rewrite Hload.
        unfold ebind, ret, lift. rewrite Hsub.
        eexists _, _, _. split; reflexivity.
    - destruct (parse_raises Go2Connection ext s e (forced_open c) Hload) as (why & Hparse).
      unfold validation_gate, ebind. rewrite Hparse.
      eexists _, _, _. split; reflexivity. }
  destruct Hgate as (res & c' & tr & Hrun0 & Hnone).
  destruct (absorbed _ _ _ _ _ Hrun0) as (tail & Hrun & Htail & _).
  rewrite Hrun, prefixed_triple.
  eexists _, _. split; [reflexivity |].
  rewrite !delivered_app, (proj2 (opening_filters c)), Hnone, Htail. reflexivity.
Qed.

Lemma arrives_state (ext : Externals) (m : message) (st : WebRTCRelayAppState)
    (g g' : Go2Connection) (r : pyresult unit) (tr : list event) :
  go2 st = Some g ->
  on_data_channel_message ext m g = (r, g', tr) ->
  state_of (robot_message_arrives ext m st)
  = state_of (run_relay_callbacks ext g tr (with_go2 st (Some g'))).
Proof.
  intros Hg Hrun. unfold robot_message_arrives, ebind at 1, get. rewrite Hg, Hrun.
  unfold ebind, put.
  destruct (run_relay_callbacks ext g tr (with_go2 st (Some g'))) as [[r2 s2] t2].
  reflexivity.
Qed.

Lemma callbacks_one_message (ext : Externals) (g : Go2Connection) (rd : RobotData)
    (st : WebRTCRelayAppState) :
  on_message g = Some RelayOnMessage ->
  state_of (run_relay_callbacks ext g [EvOnMessage rd] st)
  = state_of (_on_go2_message rd st).
Proof.
  intro Hcb. simpl run_relay_callbacks. unfold run_relay_callback. rewrite Hcb.
  unfold ebind, emit, ret.
  destruct (_on_go2_message rd st) as [[[[] | e] s1] t1]; reflexivity.
Qed.

(** C1 (amended): a message handed to the relay by the robot session --
    text or bytes, the [raw_message] of the envelope -- is sent as it is,
    and nothing else is, on the client data channel when that channel is
    open; a string from the client data channel is passed as it is to
    [publish_json_str] of the stored session, which puts exactly that
    string on the robot channel when that one is open.  Through the
    session [connect] builds (pass-through mode), however, not every text
    or bytes message of the robot reaches the open client channel: it
    arrives there, unchanged, exactly when it gets past the validation
    gate -- the session is validated, or the message is bytes, or it is a
    text that decodes to an object with a type other than "validation" --
    and [on_open] has not raised in the open-state workaround; every other
    message leaves the client channel as it was. *)
Theorem relay_forwards_verbatim :
  (forall rd st dc m,
     relay_rtc_data_channel st = Some dc ->
     readyState dc = RS_open ->
     raw_message rd = Some m ->
     is_wire m = true ->
     _on_go2_message rd st = (Ok tt, with_relay_dc st (Some (dc_append dc m)), [])
     /\ dc_sent (dc_append dc m) = dc_sent dc ++ [m])
  /\ (forall st g s,
       go2 st = Some g ->
       _on_datachannel_message (MsgStr s) st
       = on_some with_go2 g (publish_json_str s) st
       /\ (readyState (data_channel g) = RS_open ->
           _on_datachannel_message (MsgStr s) st
           = (Ok tt, with_go2 st (Some (queued g (MsgStr s))), [])
           /\ dc_sent (data_channel (queued g (MsgStr s)))
              = dc_sent (data_channel g) ++ [MsgStr s]))
  /\ (forall ext st g dc m,
       go2 st = Some g ->
       on_message g = Some RelayOnMessage ->
       _decode_message g = false ->
       relay_rtc_data_channel st = Some dc ->
       readyState dc = RS_open ->
       relay_rtc_data_channel (state_of (robot_message_arrives ext m st))
       = Some (if forwarded ext g m then dc_append dc m else dc)).
Proof.
  split; [| split].
  - intros rd st dc m Hdc Hopen Hraw Hwire.
    split; [apply on_go2_message_spec; assumption | reflexivity].
  - intros st g s Hg. split.
    + unfold _on_datachannel_message, ebind, get. rewrite Hg.
      destruct (on_some with_go2 g (publish_json_str s) st) as [[r s2] t2]. reflexivity.
    + intro Hopen. split; [| reflexivity].
      unfold _on_datachannel_message, ebind, get, on_some. rewrite Hg. simpl.
      rewrite publish_json_str_spec, Hopen. reflexivity.
  - intros ext st g dc m Hg Hcb Hdec Hdc Hopen.
    assert (Hst1 : forall g', relay_rtc_data_channel (with_go2 st (Some g')) = Some dc)
      by (intro g'; destruct st; exact Hdc).
    assert (Hheld : forall g' tr,
              on_data_channel_message ext m g = (Ok tt, g', tr) ->
              delivered tr = [] ->
              relay_rtc_data_channel (state_of (robot_message_arrives ext m st)) = Some dc).
    { intros g' tr Hrun Hnone.
      rewrite (arrives_state ext m st g g' (Ok tt) tr Hg Hrun).
      rewrite (callbacks_keep_client ext g tr Hnone). apply Hst1. }
    unfold forwarded.
    destruct (open_result g) as [[] | e] eqn:Ho; simpl raises; simpl negb.
    + destruct (passes_gate ext g m) eqn:Hpass; simpl andb.
      * rewrite (arrives_state ext m st g _ _ _ Hg
                   (pass_through_relay_run ext m g Ho Hcb Hdec Hpass)).
        rewrite callbacks_after_opening, state_of_prefixed,
          (callbacks_one_message ext g _ _ Hcb).
        destruct (is_wire m) eqn:Hw.
        -- rewrite (on_go2_message_spec (raw_envelope g m)
                      (with_go2 st (Some (forced_open g))) dc m (Hst1 _) Hopen eq_refl Hw).
           destruct st; reflexivity.
        -- destruct m as [s | b | v]; try discriminate.
           rewrite (on_go2_message_other (raw_envelope g (MsgOther v)) _ v eq_refl).
           apply Hst1.
      * destruct m as [s | b | v]; try discriminate.
        destruct (held_back_run ext s g Ho Hpass) as (g' & tr & Hrun & Hnone).
        exact (Hheld g' tr Hrun Hnone).
    + simpl andb. apply (Hheld (forced_open g) _ (handler_dropped ext m g e Ho)).
      rewrite delivered_app, (proj2 (opening_filters g)). reflexivity.
Qed.

(** * Scenarios *)

(** C1 as stated fails: the robot's validation challenge arrives at the
    session [connect] stored, the client channel being open; the session
    answers it and the client receives nothing. *)
Lemma validation_frame_not_forwarded :
  go2 awaiting_validation = Some scenario_session
  /\ relay_rtc_data_channel awaiting_validation = Some client_dc
  /\ readyState client_dc = RS_open
  /\ is_wire (MsgStr (sample_dumps challenge_msg)) = true
  /\ result_of (robot_message_arrives ext0 (MsgStr (sample_dumps challenge_msg))
                  awaiting_validation) = Ok tt
  /\ relay_rtc_data_channel
       (state_of (robot_message_arrives ext0 (MsgStr (sample_dumps challenge_msg))
                    awaiting_validation))
     = Some client_dc
  /\ dc_sent client_dc = []
  /\ relay_rtc_data_channel
       (state_of (robot_message_arrives ext0 (MsgStr "{") awaiting_validation))
     = Some client_dc.
Proof.
  repeat split.
Qed.

(** C1 as amended: a text frame from the validated robot session reaches
    the client data channel unchanged; the validation challenge at the
    unvalidated session does not. *)
Lemma relay_forwards_verbatim_witness :
  relay_rtc_data_channel relaying = Some client_dc
  /\ readyState client_dc = RS_open
  /\ _on_go2_message (raw_envelope validated_session telemetry_text) relaying
     = (Ok tt, with_relay_dc relaying (Some (dc_append client_dc telemetry_text)), [])
  /\ forwarded ext0 validated_session telemetry_text = true
  /\ relay_rtc_data_channel
       (state_of (robot_message_arrives ext0 telemetry_text relaying))
     = Some (dc_append client_dc telemetry_text)
  /\ forwarded ext0 scenario_session (MsgStr (sample_dumps challenge_msg)) = false
  /\ relay_rtc_data_channel
       (state_of (robot_message_arrives ext0 (MsgStr (sample_dumps challenge_msg))
                    awaiting_validation))
     = Some client_dc.
Proof.
  split; [reflexivity | split; [reflexivity | split; [| split; [reflexivity | split;
    [| split; [reflexivity |]]]]]].
  - exact (proj1 (proj1 relay_forwards_verbatim
                    (raw_envelope validated_session telemetry_text) relaying client_dc
                    telemetry_text eq_refl eq_refl eq_refl eq_refl)).
  - exact (proj2 (proj2 relay_forwards_verbatim) ext0 relaying validated_session client_dc
             telemetry_text eq_refl eq_refl eq_refl eq_refl eq_refl).
  - exact (proj2 (proj2 relay_forwards_verbatim) ext0 awaiting_validation scenario_session
             client_dc (MsgStr (sample_dumps challenge_msg))
             eq_refl eq_refl eq_refl eq_refl eq_refl).
Defined.

(** C2 as stated fails: NaN in velocity, an infinity in foot_force, NaN in
    temperature, and a record is built all the same. *)
Lemma unchecked_nonfinite_fields_accepted :
  (exists rs imu, parse_sport_mode_state (sport_sample nan zero zero) = Some (rs, imu)
                  /\ velocity rs = nan /\ nonfinite_scalar (velocity rs) = true)
  /\ (exists rs imu, parse_sport_mode_state (sport_sample zero pos_inf zero) = Some (rs, imu)
                     /\ foot_force rs = pos_inf /\ nonfinite_scalar (foot_force rs) = true)
  /\ (exists rs imu, parse_sport_mode_state (sport_sample zero zero nan) = Some (rs, imu)
                     /\ temperature imu = nan /\ nonfinite_scalar (temperature imu) = true).
Proof.
  repeat split; eexists; eexists; (split; [reflexivity | split; reflexivity]).
Qed.

(** C2 as amended, on a sport-mode payload with a NaN body height and on a
    pose with an infinite quaternion component. *)
Lemma checked_nonfinite_scalar_witness :
  sport_checked_nonfinite nan_body_height = true
  /\ parse_sport_mode_state nan_body_height = None
  /\ odometry_nonfinite (pose_sample zero pos_inf) = true
  /\ parse_odometry_data (pose_sample zero pos_inf) = None.
Proof.
  split; [reflexivity | split; [| split; [reflexivity |]]].
  - exact (proj1 checked_nonfinite_scalar_yields_no_record nan_body_height eq_refl).
  - exact (proj1 (proj2 checked_nonfinite_scalar_yields_no_record)
             (pose_sample zero pos_inf) eq_refl).
Defined.

(** C3: connect, then connect again. *)
Lemma second_connect_witness :
  connect ext0 scenario_fresh good_handshake scenario_args empty_app_state
  = (Ok (mkConnectReply "192.168.12.1"), connected,
     [EvNewGo2Connection "192.168.12.1"; EvHandshake "192.168.12.1"])
  /\ connect ext0 scenario_fresh refused_handshake scenario_args connected
     = (Raise already_connected, connected, []).
Proof.
  split; [reflexivity |].
  exact (proj1 (proj2 (second_connect_is_state_conflict ext0 scenario_fresh scenario_fresh
                         good_handshake refused_handshake scenario_args scenario_args
                         empty_app_state connected (mkConnectReply "192.168.12.1")
                         [EvNewGo2Connection "192.168.12.1"; EvHandshake "192.168.12.1"]
                         eq_refl))).
Defined.

(** C4: an offer without a robot session, and an offer that replaces an
    open client-facing session. *)
Lemma offer_closes_previous_session_witness :
  go2 empty_app_state = None
  /\ offer ext0 (Ok (scenario_pc 3)) client_offer empty_app_state
     = (Raise not_connected_yet, empty_app_state, [])
  /\ go2 relaying = Some validated_session
  /\ exists tr_close tr_new,
       trace_of (offer ext0 (Ok (scenario_pc 3)) client_offer relaying) = tr_close ++ tr_new
       /\ close_events tr_close = old_session_closes relaying
       /\ filter is_new_pc_event tr_new = [EvNewPeerConnection 3].
Proof.
  split; [reflexivity | split; [| split; [reflexivity |]]].
  - exact (proj1 (proj1 (offer_closes_previous_session ext0 (Ok (scenario_pc 3)) client_offer
                           empty_app_state) eq_refl)).
  - destruct (proj2 (offer_closes_previous_session ext0 (Ok (scenario_pc 3)) client_offer
                       relaying) validated_session eq_refl)
      as (tr_close & tr_new & Htrace & _ & _ & _ & Hclose & _ & _ & _ & Hnew & _).
    exists tr_close, tr_new. repeat split; assumption.
Defined.

(** C5: the robot refuses the key request. *)
Lemma failed_handshake_witness :
  go2 empty_app_state = None
  /\ result_of (go2_connect ext0 refused_handshake (relay_session scenario_fresh scenario_args))
     = Raise (Exn Go2ConnectionError
                (PStr "Failed to get robot public key: connection refused"))
  /\ result_of (connect ext0 scenario_fresh refused_handshake scenario_args empty_app_state)
     = Raise (Exn (HTTPException 502)
                (PStr "GO2 connect failed: Failed to get robot public key: connection refused"))
  /\ state_of (connect ext0 scenario_fresh refused_handshake scenario_args empty_app_state)
     = empty_app_state.
Proof.
  split; [reflexivity | split; [reflexivity |]].
  destruct (proj1 (failed_handshake_stores_no_session ext0 scenario_fresh refused_handshake
                     scenario_args empty_app_state eq_refl)
              (Exn Go2ConnectionError
                 (PStr "Failed to get robot public key: connection refused")) eq_refl)
    as (Hres & Hstate & _).
  split; [exact Hres | exact Hstate].
Defined.

(** C6 as stated fails: the success marker arrives at an unvalidated
    session whose channel is not open yet and whose [on_open] raises; the
    message is dropped. *)
Lemma raising_on_open_drops_validation :
  is_validated stubborn_session = false
  /\ readyState (data_channel stubborn_session) = RS_connecting
  /\ on_open stubborn_session = Some (Raise open_failure)
  /\ json_loads ext0 (sample_dumps validation_ok_msg) = Ok validation_ok_msg
  /\ let r := on_data_channel_message ext0 (MsgStr (sample_dumps validation_ok_msg))
                stubborn_session in
     result_of r = Ok tt
     /\ is_validated (state_of r) = false
     /\ dc_sent (data_channel (state_of r)) = []
     /\ validated_calls (trace_of r) = []
     /\ trace_of r
        = [EvOnOpen;
           EvLog ERROR "Error processing data channel message" (Some open_failure)].
Proof.
  repeat split.
Qed.

(** C6 as amended: the success marker, then a challenge, arrive at the
    unvalidated session [connect] built, whose [on_open] returns; the
    success marker arrives at the session whose [on_open] raises. *)
Lemma validation_handshake_witness :
  is_validated scenario_session = false
  /\ open_result scenario_session = Ok tt
  /\ json_loads ext0 (sample_dumps validation_ok_msg) = Ok validation_ok_msg
  /\ json_loads ext0 (sample_dumps challenge_msg) = Ok challenge_msg
  /\ (let r := on_data_channel_message ext0 (MsgStr (sample_dumps validation_ok_msg))
                 scenario_session in
      is_validated (state_of r) = true
      /\ dc_sent (data_channel (state_of r)) = [MsgStr (sample_dumps vid_on_dict)]
      /\ validated_calls (trace_of r) = [EvOnValidated "0"])
  /\ (let r := on_data_channel_message ext0 (MsgStr (sample_dumps challenge_msg))
                 scenario_session in
      is_validated (state_of r) = false
      /\ dc_sent (data_channel (state_of r)) = [MsgStr (sample_dumps challenge_reply_dict)]
      /\ trace_of r = [EvOnOpen])
  /\ open_result stubborn_session = Raise open_failure
  /\ (let r := on_data_channel_message ext0 (MsgStr (sample_dumps validation_ok_msg))
                 stubborn_session in
      is_validated (state_of r) = false
      /\ dc_sent (data_channel (state_of r)) = []).
Proof.
  split; [reflexivity | split; [reflexivity | split; [reflexivity | split;
    [reflexivity | split; [| split; [| split; [reflexivity |]]]]]]].
  - exact (proj2 (proj1 (validation_handshake ext0) scenario_session
                    (sample_dumps validation_ok_msg) validation_ok_msg (PStr "validation")
                    (PStr "Validation Ok.") eq_refl eq_refl eq_refl eq_refl eq_refl
                    eq_refl)).
  - exact (proj2 (proj1 (validation_handshake ext0) scenario_session
                    (sample_dumps challenge_msg) challenge_msg (PStr "validation")
                    (PStr "5f2a9c") eq_refl eq_refl eq_refl eq_refl eq_refl eq_refl)).
  - destruct (proj1 (proj2 (validation_handshake ext0)) stubborn_session
                (MsgStr (sample_dumps validation_ok_msg)) open_failure eq_refl)
      as (_ & Hv & Hsent & _).
    split; [exact Hv | exact Hsent].
Defined.



(** C9 as stated fails: a malformed text arrives at the unvalidated
    session; the handler returns normally, the error ends in the log. *)
Lemma malformed_json_not_surfaced :
  json_loads ext0 "{" = Raise malformed
  /\ on_data_channel_message ext0 (MsgStr "{") scenario_session
     = (Ok tt, forced_open scenario_session,
        [EvOnOpen;
         EvLog WARNING "Failed to decode JSON message" None;
         EvLog ERROR "Error processing data channel message" (Some decode_error)])
  /\ raises (result_of (on_data_channel_message ext0 (MsgStr "{") scenario_session)) = false.
Proof.
  repeat split.
Qed.

(** C9 as amended, on the same message. *)
Lemma decode_errors_witness :
  json_loads ext0 "{" = Raise malformed
  /\ open_result scenario_session = Ok tt
  /\ result_of (parse_datachannel_message ext0 "{" scenario_session) = Raise decode_error
  /\ filter is_error_log
       (trace_of (on_data_channel_message ext0 (MsgStr "{") scenario_session))
     = [EvLog ERROR "Error processing data channel message" (Some decode_error)]
  /\ delivered (trace_of (on_data_channel_message ext0 (MsgStr "{") scenario_session)) = [].
Proof.
  split; [reflexivity | split; [reflexivity | split]].
  - exact (proj1 (decode_errors_raise_and_are_logged ext0) Go2Connection "{" malformed
             scenario_session eq_refl).
  - destruct (proj1 (proj2 (proj2 (decode_errors_raise_and_are_logged ext0)))
                "{" malformed scenario_session eq_refl eq_refl (or_introl eq_refl))
      as (_ & _ & Hlog & Hnone & _).
    split; [exact Hlog | exact Hnone].
Defined.

(** C10: the client's SDP is rejected by [setRemoteDescription]. *)
Lemma offer_failures_witness :
  go2 relaying = Some validated_session
  /\ negotiation_fails (Ok faulty_pc) relaying = true
  /\ result_of (offer ext0 (Ok faulty_pc) client_offer relaying) = Raise offer_failed.
Proof.
  split; [reflexivity | split; [reflexivity |]].
  exact (proj1 (offer_failures_are_state_conflicts ext0 (Ok faulty_pc) client_offer relaying
                  validated_session eq_refl) eq_refl).
Defined.

(** ** More scenarios *)

(** X2 on the mock server's sample, NaN in the three unchecked fields. *)
Lemma sport_mode_accepts_exactly_witness :
  sport_acceptable (sport_sample nan nan nan) = true
  /\ exists records, parse_sport_mode_state (sport_sample nan nan nan) = Some records.
Proof.
  split; [reflexivity |].
  exact (proj2 (proj1 (sport_mode_accepts_exactly (sport_sample nan nan nan))) eq_refl).
Defined.

(** X3 on an odometry frame. *)
Lemma envelope_shape_witness :
  process_webrtc_message ext0 odom_msg "0" = Ok (Some odom_envelope)
  /\ robot_id odom_envelope = "0"
  /\ (populated_groups odom_envelope <= 1)%nat.
Proof.
  split; [reflexivity |].
  destruct (envelope_shape ext0 odom_msg "0" odom_envelope eq_refl)
    as (Hid & _ & _ & Hgroups & _).
  split; [exact Hid | exact Hgroups].
Defined.

(** X4 on a frame of a topic the decoder does not know. *)
Lemma envelope_dropped_exactly_witness :
  known_topic ext0 (PStr "rt/unknown") = false
  /\ process_webrtc_message ext0 unknown_topic_msg "0" = Ok None.
Proof.
  split; [reflexivity |].
  exact (proj2 (proj2 (proj2 (envelope_dropped_exactly ext0 unknown_topic_msg "0"))
                  (PStr "msg") (PStr "rt/unknown") eq_refl eq_refl eq_refl) eq_refl).
Defined.

(** X5 on a lidar frame whose buffer could not be decoded. *)
Lemma lidar_needs_decoded_buffer_witness :
  field_of undecoded_lidar_msg "decoded_data" = Some PNone
  /\ parse_lidar_data undecoded_lidar_msg = None.
Proof.
  split; [reflexivity |].
  exact (proj1 (lidar_needs_decoded_buffer undecoded_lidar_msg) (or_introl eq_refl)).
Defined.

(** X6: the robot refuses the key request. *)
Lemma connect_raises_only_connection_errors_witness :
  handshake_succeeds refused_handshake = false
  /\ result_of (go2_connect ext0 refused_handshake scenario_session)
     = Raise (connection_error "Failed to get robot public key: connection refused")
  /\ state_of (go2_connect ext0 refused_handshake scenario_session) = scenario_session.
Proof.
  split; [reflexivity |].
  pose proof (connect_raises_only_connection_errors ext0 refused_handshake scenario_session)
    as H.
  cbv zeta in H. destruct H as (Hstate & _ & _ & _ & Hkey & _).
  split; [| exact Hstate].
  exact (Hkey tt (Exn WebRTCHttpError (PStr "connection refused")) eq_refl eq_refl eq_refl).
Defined.

(** X10: two more frames arrive at the validated session. *)
Lemma validation_is_permanent_witness :
  is_validated validated_session = true
  /\ is_validated
       (state_of (session_run ext0 [telemetry_text; status_text] validated_session)) = true
  /\ validated_calls
       (trace_of (session_run ext0 [telemetry_text; status_text] validated_session)) = [].
Proof.
  split; [reflexivity |].
  pose proof (validation_is_permanent ext0 [telemetry_text; status_text] validated_session
                eq_refl) as H.
  cbv zeta in H. destruct H as (_ & Hv & Hcalls).
  split; [exact Hv | exact Hcalls].
Defined.

(** X11: the same two frames, in order; and at a validated session whose
    channel is not open yet and whose [on_open] raises, where the first of
    them is lost. *)
Lemma pass_through_keeps_order_witness :
  is_validated validated_session = true
  /\ delivered (trace_of (session_run ext0 [telemetry_text; status_text] validated_session))
     = [EvOnMessage (raw_envelope validated_session telemetry_text);
        EvOnMessage (raw_envelope validated_session status_text)]
  /\ open_result (with_is_validated stubborn_session true) = Raise open_failure
  /\ delivered (trace_of (session_run ext0 [telemetry_text; status_text]
                            (with_is_validated stubborn_session true)))
     = [EvOnMessage (raw_envelope stubborn_session status_text)].
Proof.
  split; [reflexivity | split; [| split; [reflexivity |]]].
  - exact (pass_through_keeps_order ext0 RelayOnMessage [telemetry_text; status_text]
             validated_session eq_refl eq_refl eq_refl).
  - exact (pass_through_keeps_order ext0 RelayOnMessage [telemetry_text; status_text]
             (with_is_validated stubborn_session true) eq_refl eq_refl eq_refl).
Defined.

(** X12: an odometry frame arrives at a session in decode mode. *)
Lemma decode_mode_delivery_witness :
  json_loads ext1 (sample_dumps odom_msg) = Ok odom_msg
  /\ process_webrtc_message ext1 odom_msg (robot_num decoding_session)
     = Ok (Some odom_envelope)
  /\ delivered
       (trace_of (on_data_channel_message ext1 (MsgStr (sample_dumps odom_msg))
                    decoding_session))
     = [EvOnMessage (set_raw_message odom_envelope (MsgStr (sample_dumps odom_msg)))].
Proof.
  split; [reflexivity | split; [reflexivity |]].
  pose proof (decode_mode_delivery ext1 (UserOnMessage (fun _ => Ok tt))
                (sample_dumps odom_msg) odom_msg decoding_session
                eq_refl eq_refl eq_refl eq_refl eq_refl) as H.
  cbv zeta in H. destruct H as (_ & _ & H).
  exact H.
Defined.

(** X13: telemetry and the success marker arrive at the unvalidated
    session; telemetry arrives at the session whose [on_open] raises. *)
Lemma validation_gate_filters_witness :
  is_validated scenario_session = false
  /\ delivered
       (trace_of (on_data_channel_message ext1 (MsgStr (sample_dumps odom_msg))
                    scenario_session))
     = [EvOnMessage (raw_envelope scenario_session (MsgStr (sample_dumps odom_msg)))]
  /\ delivered
       (trace_of (on_data_channel_message ext1 (MsgStr (sample_dumps validation_ok_msg))
                    scenario_session))
     = []
  /\ raises (open_result stubborn_session) = true
  /\ delivered
       (trace_of (on_data_channel_message ext1 (MsgStr (sample_dumps odom_msg))
                    stubborn_session))
     = [].
Proof.
  split; [reflexivity | split; [| split; [| split; [reflexivity |]]]].
  - exact (validation_gate_filters ext1 RelayOnMessage (sample_dumps odom_msg) odom_msg
             (PStr "msg") scenario_session eq_refl eq_refl eq_refl eq_refl eq_refl).
  - exact (validation_gate_filters ext1 RelayOnMessage (sample_dumps validation_ok_msg)
             validation_ok_msg (PStr "validation") scenario_session
             eq_refl eq_refl eq_refl eq_refl eq_refl).
  - exact (validation_gate_filters ext1 RelayOnMessage (sample_dumps odom_msg) odom_msg
             (PStr "msg") stubborn_session eq_refl eq_refl eq_refl eq_refl eq_refl).
Defined.

(** X14: an offer on the relaying state. *)
Lemma offer_success_witness :
  go2 relaying = Some validated_session
  /\ negotiation_fails (Ok (scenario_pc 3)) relaying = false
  /\ result_of (offer ext0 (Ok (scenario_pc 3)) client_offer relaying)
     = Ok (mkSessionDescription "v=0 (answer)" "answer")
  /\ relay_rtc_data_channel
       (state_of (offer ext0 (Ok (scenario_pc 3)) client_offer relaying)) = None.
Proof.
  split; [reflexivity | split; [reflexivity |]].
  pose proof (offer_success ext0 (scenario_pc 3) client_offer
                (mkSessionDescription "v=0 (answer)" "answer") relaying validated_session
                eq_refl eq_refl eq_refl) as H.
  cbv zeta in H. destruct H as (Hres & Hstate).
  split; [exact Hres |].
  rewrite Hstate. reflexivity.
Defined.

(** X17: disconnect on the relaying state. *)
Lemma relay_disconnect_outcome_witness :
  result_of (disconnect relaying) = Ok tt
  /\ go2 (state_of (disconnect relaying)) = None
  /\ close_events (trace_of (disconnect relaying))
     = [EvClose PeerConnectionRes 2; EvClose PeerConnectionRes 1;
        EvClose DataChannelRes 1; EvClose HttpClientRes 1].
Proof.
  assert (Hclean : forall p, relay_rtc_peer_connection relaying = Some p ->
                             pc_close_fault p = None).
  { intros p Hp. injection Hp as <-. reflexivity. }
  destruct (proj1 (relay_disconnect_outcome relaying) Hclean)
    as (Hres & _ & Hgo2 & _ & Hcl).
  split; [exact Hres | split; [exact Hgo2 | exact Hcl]].
Defined.

(** X16: the client's SDP is rejected; the next offer succeeds. *)
Lemma failed_offer_keeps_robot_session_witness :
  result_of (offer ext0 (Ok faulty_pc) client_offer relaying) = Raise offer_failed
  /\ go2 (state_of (offer ext0 (Ok faulty_pc) client_offer relaying))
     = Some validated_session
  /\ result_of (offer ext0 (Ok (scenario_pc 4)) client_offer
                  (state_of (offer ext0 (Ok faulty_pc) client_offer relaying)))
     = Ok (mkSessionDescription "v=0 (answer)" "answer").
Proof.
  split; [reflexivity |].
  pose proof (failed_offer_keeps_robot_session ext0 (Ok faulty_pc) client_offer relaying
                validated_session offer_failed eq_refl eq_refl) as H.
  cbv zeta in H. destruct H as (Hgo2 & _ & _ & Hretry).
  split; [exact Hgo2 |].
  exact (Hretry (scenario_pc 4) client_offer
           (mkSessionDescription "v=0 (answer)" "answer") eq_refl eq_refl).
Defined.

(** X19: the robot session of the relaying state is validated. *)
Lemma validated_callback_subscribes_witness :
  go2 relaying = Some validated_session
  /\ robot_outbox
       (state_of (_on_go2_validated ext0 ["rt/lf/lowstate"; "rt/utlidar/robot_pose"] relaying))
     = [subscribe_message ext0 "rt/lf/lowstate";
        subscribe_message ext0 "rt/utlidar/robot_pose";
        lidar_switch_on ext0].
Proof.
  split; [reflexivity |].
  exact (proj2 (proj1 (proj2 (proj2 (validated_callback_subscribes ext0
                                       ["rt/lf/lowstate"; "rt/utlidar/robot_pose"]
                                       relaying)))
                  validated_session eq_refl eq_refl)).
Defined.

(** X18: the application shuts down in the relaying state. *)
Lemma shutdown_closes_robot_session_twice_witness :
  go2 (state_of (lifespan_shutdown relaying)) = None
  /\ close_events (trace_of (lifespan_shutdown relaying))
     = [EvClose PeerConnectionRes 1; EvClose DataChannelRes 1; EvClose HttpClientRes 1;
        EvClose PeerConnectionRes 2;
        EvClose PeerConnectionRes 1; EvClose DataChannelRes 1; EvClose HttpClientRes 1].
Proof.
  assert (Hclean : forall p, relay_rtc_peer_connection relaying = Some p ->
                             pc_close_fault p = None).
  { intros p Hp. injection Hp as <-. reflexivity. }
  destruct (shutdown_closes_robot_session_twice relaying Hclean) as (_ & Hgo2 & _ & Hcl).
  split; [exact Hgo2 | exact Hcl].
Defined.

(** X21: a command of the client reaches the validated robot session. *)
Lemma client_to_robot_forwards_or_drops_witness :
  go2 relaying = Some validated_session
  /\ exists g', go2 (state_of (_on_datachannel_message telemetry_text relaying)) = Some g'
                /\ is_validated g' = true.
Proof.
  split; [reflexivity |].
  destruct (proj2 (proj2 (proj2 (proj2 (proj2 (proj2 (proj2
              (client_to_robot_forwards_or_drops telemetry_text relaying)))))))
              validated_session eq_refl) as (g' & Hg' & Hv & _).
  exists g'. split; [exact Hg' | exact Hv].
Defined.

(** X22: the success marker arrives at the relay right after connect. *)
Lemma validation_reaches_the_relay_witness :
  go2 connected = Some scenario_session
  /\ open_result scenario_session = Ok tt
  /\ is_validated scenario_session = false
  /\ robot_outbox
       (state_of (robot_message_arrives ext0 (MsgStr (sample_dumps validation_ok_msg))
                    connected))
     = [vid_on ext0; subscribe_message ext0 "rt/lf/lowstate";
        subscribe_message ext0 "rt/utlidar/robot_pose"; lidar_switch_on ext0]
  /\ trace_of (robot_message_arrives ext0 (MsgStr (sample_dumps validation_ok_msg))
                 connected)
     = [EvOnOpen; EvOnValidated "0"; EvCreateTask "disableTrafficSaving"].
Proof.
  split; [reflexivity | split; [reflexivity | split; [reflexivity |]]].
  destruct (validation_reaches_the_relay ext0 (sample_dumps validation_ok_msg)
              validation_ok_msg connected scenario_session
              ["rt/lf/lowstate"; "rt/utlidar/robot_pose"]
              eq_refl eq_refl eq_refl eq_refl eq_refl eq_refl eq_refl)
    as (_ & _ & Hout & _ & Htrace).
  split; [exact Hout | exact Htrace].
Defined.

(** X23: one frame arrives at the session [connect] built. *)
Lemma handler_changes_channel_and_flag_only_witness :
  readyState (data_channel scenario_session) = RS_connecting
  /\ is_open (readyState (data_channel
                (state_of (session_run ext0 [telemetry_text] scenario_session)))) = true
  /\ pc (state_of (session_run ext0 [telemetry_text] scenario_session))
     = pc scenario_session.
Proof.
  split; [reflexivity |].
  destruct (handler_changes_channel_and_flag_only ext0 [telemetry_text] scenario_session)
    as (Hpc & _ & _ & _ & _ & _ & _ & _ & _ & _ & Hopen).
  split; [| exact Hpc].
  apply Hopen. discriminate.
Defined.

(** X24: after a connect, an offer and two robot messages. *)
Lemma client_session_needs_robot_session_witness :
  relay_rtc_peer_connection (relay_run ext0 scenario_inputs lifespan_startup) <> None
  /\ go2 (relay_run ext0 scenario_inputs lifespan_startup) <> None.
Proof.
  assert (Hpc : relay_rtc_peer_connection (relay_run ext0 scenario_inputs lifespan_startup)
                <> None) by (vm_compute; discriminate).
  split; [exact Hpc |].
  exact (proj1 (client_session_needs_robot_session ext0 scenario_inputs) Hpc).
Defined.

(** X26: three bytes, blocks of sixteen. *)
Lemma pkcs7_round_trip_witness :
  0 < 16 < 256
  /\ exists padded,
       _pkcs7_pad three_bytes 16 = Ok padded
       /\ length padded = 16%nat
       /\ _pkcs7_unpad padded = Ok three_bytes.
Proof.
  assert (Hbs : 0 < 16 < 256) by lia.
  split; [exact Hbs |].
  destruct (pkcs7_round_trip three_bytes 16 Hbs) as (padded & Hpad & _ & _ & _ & Hback).
  exists padded. split; [exact Hpad | split; [| exact Hback]].
  vm_compute in Hpad. injection Hpad as <-. reflexivity.
Defined.

(** X27: the client asks a relay that already holds a robot session to
    connect. *)
Lemma relay_answers_reach_the_client_witness :
  reaches_relay EmptyString
  /\ go2 connected <> None
  /\ _connect_to_go2 ext0 env0 EmptyString ["192.168.12.1"] "token" connected
     = (Raise already_connected, connected, []).
Proof.
  assert (Hurl : reaches_relay EmptyString) by reflexivity.
  assert (Hg : go2 connected <> None) by discriminate.
  split; [exact Hurl | split; [exact Hg |]].
  exact (proj1 (proj1 (relay_answers_reach_the_client ext0 env0 EmptyString connected Hurl)
                  "192.168.12.1" [] "token") Hg).
Defined.

(** X28: the client asks the same relay to disconnect. *)
Lemma client_disconnect_reaches_no_handler_witness :
  reaches_relay EmptyString
  /\ go2 (state_of (_disconnect_from_go2 ext0 env0 EmptyString connected))
     = Some scenario_session.
Proof.
  assert (Hurl : reaches_relay EmptyString) by reflexivity.
  split; [exact Hurl |].
  rewrite (client_disconnect_reaches_no_handler ext0 env0 EmptyString connected Hurl).
  reflexivity.
Defined.

(** X29: an odometry frame, relayed as text, arrives at the client. *)
Lemma client_hands_on_what_decodes_witness :
  In (RobotDataCall odom_envelope)
     (handed_on ext1 no_frame (MsgStr (sample_dumps odom_msg)))
  /\ robot_id odom_envelope = "0"%string
  /\ raw_message odom_envelope = None.
Proof.
  assert (Hin : In (RobotDataCall odom_envelope)
                   (handed_on ext1 no_frame (MsgStr (sample_dumps odom_msg))))
    by (left; reflexivity).
  split; [exact Hin |].
  exact (proj2 (proj2 (client_hands_on_what_decodes ext1 no_frame accept_robot_data
                         accept_lidar_frame (MsgStr (sample_dumps odom_msg)) []))
           odom_envelope Hin).
Defined.

(** X30: the envelope of an odometry frame, handed to the service. *)
Lemma parsed_telemetry_publication_witness :
  process_webrtc_message ext0 odom_msg "0" = Ok (Some odom_envelope)
  /\ RobotDataService.process_webrtc_message reliable_publisher odom_envelope
     = ([publish_odometry], None).
Proof.
  split; [reflexivity |].
  exact (proj1 (parsed_telemetry_publication ext0 odom_msg "0" odom_envelope
                  reliable_publisher eq_refl) (fun _ => eq_refl)).
Defined.
